(** * Verification of the script-gateway core against its specification.

    Shallow embedding of the parts of the Python sources that the
    specification's claims are about, and of the functions around them:
    - [src/src/services/executor.py]: [build_cli_args], [save_binary_output],
      [_execute_script], [terminate_script], [get_running_scripts];
    - [src/src/utils/deps.py]: [list_python_deps], [parse_requirements_text],
      [detect_conflicts], [update_requirements_txt], [install_python_deps],
      [parse_package_json] (its line-based fallback), [install_node_deps],
      and of [ScriptDepsManager]: [calculate_deps_hash], [get_cache_path],
      [is_cache_valid], [install_script_dependencies],
      [_install_python_deps_with_cache], [_install_nodejs_deps_with_cache],
      [get_execution_environment];
    - [src/src/services/scanner.py]: [md5_file], [run_get_schema],
      [detect_script_type], [has_entrypoint], [parse_and_register]. *)

From Stdlib Require Import ZArith NArith Ascii String Bool.
From stdpp Require Import base list strings gmap sorting.

Open Scope Z_scope.

(* ------------------------------------------------------------------ *)
(** ** Python values and exceptions *)

Module Py.

(** The Python values that reach the marshaler: [None], booleans, ints,
    strings, and floats (a float is carried as its Python [repr]). *)
Inductive pyval :=
| PNone
| PBool (b : bool)
| PInt (z : Z)
| PStr (s : string)
| PFloat (repr : string).

#[global] Instance pyval_eq_dec : EqDecision pyval.
Proof. solve_decision. Defined.

(** Python exceptions as raised by the modelled code. *)
Inductive exc :=
| ValueError (msg : string)
| TypeError (msg : string)
| TimeoutExpired
| OSError (msg : string)
| KeyError (msg : string).

#[global] Instance exc_eq_dec : EqDecision exc.
Proof. solve_decision. Defined.

(** [str(e)]. *)
Definition exc_str (e : exc) : string :=
  match e with
  | ValueError m | TypeError m | OSError m | KeyError m => m
  | TimeoutExpired => "timeout"
  end.

(** A computation that returns a value or raises. *)
Inductive result (A : Type) :=
| Ok (a : A)
| Err (e : exc).
Arguments Ok {A} a.
Arguments Err {A} e.

Definition bind {A B} (r : result A) (k : A -> result B) : result B :=
  match r with Ok a => k a | Err e => Err e end.

Notation "'let!' x := r 'in' k" := (bind r (fun x => k))
  (at level 200, x name, r at level 100, k at level 200).

(** Python truthiness ([bool(v)]). *)
Definition truthy (v : pyval) : bool :=
  match v with
  | PNone => false
  | PBool b => b
  | PInt z => negb (z =? 0)
  | PStr s => negb (String.eqb s EmptyString)
  | PFloat r => negb (String.eqb r "0.0" || String.eqb r "-0.0")
  end.

(** Decimal rendering of naturals, as [str] prints ints. *)
Definition digit_char (d : N) : ascii := ascii_of_N (48 + d).

Fixpoint dec_go (fuel : nat) (n : N) (acc : string) : string :=
  match fuel with
  | O => acc
  | S f =>
      let acc' := String (digit_char (N.modulo n 10)) acc in
      if (n <? 10)%N then acc' else dec_go f (N.div n 10) acc'
  end.

Definition dec_N (n : N) : string := dec_go (S (N.size_nat n)) n EmptyString.

Definition str_int (z : Z) : string :=
  if z <? 0 then ("-" ++ dec_N (Z.to_N (- z)))%string else dec_N (Z.to_N z).

(** [str(v)]. *)
Definition py_str (v : pyval) : string :=
  match v with
  | PNone => "None"
  | PBool true => "True"
  | PBool false => "False"
  | PInt z => str_int z
  | PStr s => s
  | PFloat r => r
  end.

(** [str.lower()] on the ASCII range. *)
Definition lower_char (c : ascii) : ascii :=
  let n := nat_of_ascii c in
  if (65 <=? n)%nat && (n <=? 90)%nat then ascii_of_nat (n + 32) else c.

Fixpoint lower (s : string) : string :=
  match s with
  | EmptyString => EmptyString
  | String c s' => String (lower_char c) (lower s')
  end.

(** Whitespace as [str.strip()] and the regex class [\s] see it on the
    ASCII range: 9..13 and 28..32. *)
Definition is_space (c : ascii) : bool :=
  let n := nat_of_ascii c in
  ((9 <=? n)%nat && (n <=? 13)%nat) || ((28 <=? n)%nat && (n <=? 32)%nat).

Fixpoint lstrip (s : string) : string :=
  match s with
  | String c s' => if is_space c then lstrip s' else s
  | EmptyString => EmptyString
  end.

Fixpoint rev_str (s : string) (acc : string) : string :=
  match s with
  | EmptyString => acc
  | String c s' => rev_str s' (String c acc)
  end.

Definition strip (s : string) : string :=
  rev_str (lstrip (rev_str (lstrip s) EmptyString)) EmptyString.

Definition is_digit (c : ascii) : bool :=
  let n := nat_of_ascii c in (48 <=? n)%nat && (n <=? 57)%nat.

(** Digits with single underscores between them, as [int()] accepts:
    [prev_digit] tells whether the previous character was a digit. *)
Fixpoint digits_go (s : string) (prev_digit : bool) (acc : Z) : option Z :=
  match s with
  | EmptyString => if prev_digit then Some acc else None
  | String c s' =>
      if is_digit c then
        digits_go s' true (acc * 10 + Z.of_nat (nat_of_ascii c - 48))
      else if Ascii.eqb c "_" && prev_digit then digits_go s' false acc
      else None
  end.

(** [int(s)] for a string [s], base 10. *)
Definition parse_int (s : string) : option Z :=
  match strip s with
  | String "+" r => digits_go r false 0
  | String "-" r => option_map Z.opp (digits_go r false 0)
  | r => digits_go r false 0
  end.

(** The parts of the Python runtime that are not modelled concretely:
    [float(v)] and [int(f)] on a float (truncation of its [repr]). *)
Record float_runtime := {
  rt_float : pyval -> result pyval;
  rt_float_trunc : string -> result Z
}.

(** [int(v)]. *)
Definition py_int (R : float_runtime) (v : pyval) : result Z :=
  match v with
  | PNone => Err (TypeError "int() argument must be a string, a bytes-like object or a real number, not 'NoneType'")
  | PBool b => Ok (if b then 1 else 0)
  | PInt z => Ok z
  | PStr s =>
      match parse_int s with
      | Some z => Ok z
      | None => Err (ValueError ("invalid literal for int() with base 10: '" ++ s ++ "'"))
      end
  | PFloat r => rt_float_trunc R r
  end.

(** A Python [dict] as an association list in insertion order; keys are
    unique in a well-formed dict. *)
Abbreviation dict K V := (list (K * V)) (only parsing).

Section Dict.
Context {K V : Type} `{EqDecision K}.

(** [d.get(k)]. *)
Fixpoint dict_get (k : K) (d : dict K V) : option V :=
  match d with
  | [] => None
  | (k', v) :: d' => if bool_decide (k = k') then Some v else dict_get k d'
  end.

(** [d[k] = v]: overwrite in place, or append a new key at the end. *)
Fixpoint dict_set (k : K) (v : V) (d : dict K V) : dict K V :=
  match d with
  | [] => [(k, v)]
  | (k', v') :: d' =>
      if bool_decide (k = k') then (k', v) :: d' else (k', v') :: dict_set k v d'
  end.

(** [del d[k]]. *)
Fixpoint dict_del (k : K) (d : dict K V) : dict K V :=
  match d with
  | [] => []
  | (k', v') :: d' => if bool_decide (k = k') then d' else (k', v') :: dict_del k d'
  end.

(** [k in d]. *)
Definition dict_mem (k : K) (d : dict K V) : bool :=
  match dict_get k d with Some _ => true | None => false end.

End Dict.

End Py.

(* ------------------------------------------------------------------ *)
(** ** [build_cli_args] (executor.py, lines 21-46) *)

Module Marshal.
Import Py.

(** One schema entry's metadata dict: the keys [flag], [type],
    [required], each possibly missing. *)
Record meta := {
  m_flag : option pyval;
  m_type : option pyval;
  m_required : option pyval
}.

Definition get_or {A} (o : option A) (d : A) : A :=
  match o with Some a => a | None => d end.

(** [meta.get('flag')], [meta.get('type', 'str')],
    [meta.get('required', False)]. *)
Definition flag_of (m : meta) : pyval := get_or (m_flag m) PNone.
Definition type_of (m : meta) : pyval := get_or (m_type m) (PStr "str").
Definition required_of (m : meta) : pyval := get_or (m_required m) (PBool false).

(** [http_params.get(name)]. *)
Definition param_get (p : dict string pyval) (name : string) : pyval :=
  get_or (dict_get name p) PNone.

(** The type dispatch of lines 34-43. *)
Definition coerce (R : float_runtime) (typ val : pyval) : result pyval :=
  if decide (typ = PStr "int") then let! z := py_int R val in Ok (PInt z)
  else if decide (typ = PStr "float") then rt_float R val
  else if decide (typ = PStr "bool") then
    let b := match val with
             | PStr s => bool_decide (lower s ∈ ["true"; "1"; "yes"])
             | _ => truthy val
             end in
    Ok (PInt (if b then 1 else 0))
  else Ok val.

(** The loop of lines 24-45, with [cli] and [effective] as accumulators. *)
Fixpoint go (R : float_runtime) (schema : list (string * meta)) (p : dict string pyval)
    (cli : list pyval) (eff : dict string pyval) : result (list pyval * dict string pyval) :=
  match schema with
  | [] => Ok (cli, eff)
  | (name, m) :: schema' =>
      let val := param_get p name in
      if decide (val = PNone) then
        if truthy (required_of m)
        then Err (ValueError ("missing required param: " ++ name))
        else go R schema' p cli eff
      else
        let! v := coerce R (type_of m) val in
        go R schema' p (cli ++ [flag_of m; PStr (py_str v)]) (dict_set name v eff)
  end.

Definition build_cli_args (R : float_runtime) (schema : list (string * meta))
    (p : dict string pyval) : result (list pyval * dict string pyval) :=
  go R schema p [] [].

End Marshal.

(* ------------------------------------------------------------------ *)
(** ** The process executor (executor.py, lines 17-257) *)

Module Executor.
Import Py Marshal.

Definition pid := Z.

(** A row of the [runs] table, as [insert_run] receives it ([started_at]
    and [finished_at] timestamps are not modelled). *)
Record run_row := {
  r_script_id : Z;
  r_duration_ms : Z;
  r_status : Z;
  r_params : dict string pyval;
  r_stdout_preview : option string;
  r_stderr : option string;
  r_output_file_url : option string
}.

(** The state the executor reads and writes: the module-level
    [running_processes] registry, the operating system's live child
    processes, the database tables it touches, and the artifacts and
    notifications it produces. *)
Record xstate := {
  running_processes : dict Z (pid * string);
  alive : list pid;
  next_pid : pid;
  spawned : list (list pyval);
  runs : list run_row;
  last_run : dict Z Z;
  notified : list (string * string);
  saved_outputs : list (string * string)
}.

(** How [proc.communicate(timeout=...)] ends. As documented for
    [subprocess.Popen.communicate], on [TimeoutExpired] the child is not
    killed: it keeps running. *)
Inductive wait_outcome :=
| Exited (returncode : Z) (out err : string)
| WaitTimeout
| WaitRaises (e : exc).

(** What the outside world contributes to one execution. *)
Record world := {
  w_popen_error : option exc;
  w_wait : wait_outcome;
  (** [out.decode('utf-8')] followed by [json.loads]: the text on success *)
  w_json : string -> option string;
  w_save_error : option exc;
  w_output_url : string;
  w_output_name : string;
  w_elapsed_ms : Z
}.

(** The catalog fields of a script that [_execute_script] reads. *)
Record script := {
  sc_id : Z;
  sc_filename : string;
  sc_script_type : string;
  sc_notify_enabled : option Z
}.

(** The returned result dict. *)
Record xresult := {
  x_status : string;
  x_duration_ms : Z;
  x_data : option string;
  x_file : option (string * string * Z);
  x_stderr : option string;
  x_code : option Z;
  x_run_id : Z
}.

(** State, exceptions and a trace: every state change appends the new
    state, so a run's trace lists every state the registry passes through. *)
Definition M (A : Type) := xstate -> result A * xstate * list xstate.

Definition mret {A} (a : A) : M A := fun s => (Ok a, s, []).

Definition mbind {A B} (m : M A) (k : A -> M B) : M B := fun s =>
  match m s with
  | (Ok a, s1, t1) => let '(r, s2, t2) := k a s1 in (r, s2, t1 ++ t2)
  | (Err e, s1, t1) => (Err e, s1, t1)
  end.

Notation "'mlet' x := m 'in' k" := (mbind m (fun x => k))
  (at level 200, x name, m at level 100, k at level 200).
Notation "'mlet' ' p := m 'in' k" := (mbind m (fun x => match x with p => k end))
  (at level 200, p pattern, m at level 100, k at level 200).
Notation "m ;; k" := (mbind m (fun _ => k)) (at level 100, right associativity).

Definition raise {A} (e : exc) : M A := fun s => (Err e, s, []).

Definition lift {A} (r : result A) : M A :=
  match r with Ok a => mret a | Err e => raise e end.

Definition modify (f : xstate -> xstate) : M unit :=
  fun s => (Ok tt, f s, [f s]).

Definition mget : M xstate := fun s => (Ok s, s, []).

(** [try: m except: h] *)
Definition try_except {A} (m : M A) (h : exc -> M A) : M A := fun s =>
  match m s with
  | (Err e, s1, t1) => let '(r, s2, t2) := h e s1 in (r, s2, t1 ++ t2)
  | x => x
  end.

(** [try: m finally: f] *)
Definition try_finally {A} (m : M A) (f : M unit) : M A := fun s =>
  let '(r, s1, t1) := m s in
  match f s1 with
  | (Ok _, s2, t2) => (r, s2, t1 ++ t2)
  | (Err e, s2, t2) => (Err e, s2, t1 ++ t2)
  end.

Definition set_running (r : dict Z (pid * string)) (s : xstate) : xstate :=
  {| running_processes := r; alive := alive s; next_pid := next_pid s;
     spawned := spawned s; runs := runs s; last_run := last_run s;
     notified := notified s; saved_outputs := saved_outputs s |}.

Definition is_str (v : pyval) : bool := match v with PStr _ => true | _ => false end.

(** [type(v).__name__] *)
Definition py_type_name (v : pyval) : string :=
  match v with
  | PNone => "NoneType"
  | PBool _ => "bool"
  | PInt _ => "int"
  | PStr _ => "str"
  | PFloat _ => "float"
  end.

(** [subprocess.Popen(cmd, ...)]: every argument must be a string; the
    first one that is not names its type in the [TypeError]. *)
Definition popen (W : world) (cmd : list pyval) : M pid := fun s =>
  if negb (forallb is_str cmd) then
    (Err (TypeError ("expected str, bytes or os.PathLike object, not "
                     ++ match List.find (fun v => negb (is_str v)) cmd with
                        | Some v => py_type_name v
                        | None => "str"
                        end)%string), s, [])
  else match w_popen_error W with
  | Some e => (Err e, s, [])
  | None =>
      let p := next_pid s in
      let s' := {| running_processes := running_processes s; alive := p :: alive s;
                   next_pid := p + 1; spawned := spawned s ++ [cmd]; runs := runs s;
                   last_run := last_run s; notified := notified s;
                   saved_outputs := saved_outputs s |} in
      (Ok p, s', [s'])
  end.

(** [proc.communicate(timeout=...)]: on exit the child is reaped. *)
Definition communicate (W : world) (p : pid) : M (Z * string * string) :=
  match w_wait W with
  | Exited rc out err =>
      modify (fun s =>
        {| running_processes := running_processes s;
           alive := filter (fun q => bool_decide (q <> p)) (alive s);
           next_pid := next_pid s; spawned := spawned s; runs := runs s;
           last_run := last_run s; notified := notified s;
           saved_outputs := saved_outputs s |}) ;;
      mret (rc, out, err)
  | WaitTimeout => raise TimeoutExpired
  | WaitRaises e => raise e
  end.

(** [proc.kill()] *)
Definition kill (p : pid) : M unit :=
  modify (fun s =>
    {| running_processes := running_processes s;
       alive := filter (fun q => bool_decide (q <> p)) (alive s);
       next_pid := next_pid s; spawned := spawned s; runs := runs s;
       last_run := last_run s; notified := notified s;
       saved_outputs := saved_outputs s |}).

(** [running_processes[script_id] = (proc, script_name)] *)
Definition reg_add (sid : Z) (h : pid * string) : M unit :=
  modify (fun s => set_running (dict_set sid h (running_processes s)) s).

(** [if script_id in running_processes: del running_processes[script_id]] *)
Definition reg_del (sid : Z) : M unit :=
  mlet s := mget in
  if dict_mem sid (running_processes s)
  then modify (fun s => set_running (dict_del sid (running_processes s)) s)
  else mret tt.

(** [update_last_run(script_id, status)] *)
Definition update_last_run (sid st : Z) : M unit :=
  modify (fun s =>
    {| running_processes := running_processes s; alive := alive s;
       next_pid := next_pid s; spawned := spawned s; runs := runs s;
       last_run := dict_set sid st (last_run s); notified := notified s;
       saved_outputs := saved_outputs s |}).

(** [insert_run(...)] returns the new row's id (autoincrement). *)
Definition insert_run (row : run_row) : M Z :=
  mlet s := mget in
  modify (fun s =>
    {| running_processes := running_processes s; alive := alive s;
       next_pid := next_pid s; spawned := spawned s; runs := runs s ++ [row];
       last_run := last_run s; notified := notified s;
       saved_outputs := saved_outputs s |}) ;;
  mret (Z.of_nat (length (runs s)) + 1).

(** [if script.get('notify_enabled') == 1: send_notify(title, body)];
    [send_notify] swallows its own delivery errors. *)
Definition notify_if (sc : script) (title body : string) : M unit :=
  if bool_decide (sc_notify_enabled sc = Some 1) then
    modify (fun s =>
      {| running_processes := running_processes s; alive := alive s;
         next_pid := next_pid s; spawned := spawned s; runs := runs s;
         last_run := last_run s; notified := notified s ++ [(title, body)];
         saved_outputs := saved_outputs s |})
  else mret tt.

(** [save_binary_output(script_name, data)]: url, filename, size. *)
Definition save_binary_output (W : world) (data : string) : M (string * string * Z) :=
  match w_save_error W with
  | Some e => raise e
  | None =>
      modify (fun s =>
        {| running_processes := running_processes s; alive := alive s;
           next_pid := next_pid s; spawned := spawned s; runs := runs s;
           last_run := last_run s; notified := notified s;
           saved_outputs := saved_outputs s ++ [(w_output_url W, data)] |}) ;;
      mret (w_output_url W, w_output_name W, Z.of_nat (String.length data))
  end.

Definition SCRIPTS_PY_DIR : string := "scripts_repo/python".
Definition SCRIPTS_JS_DIR : string := "scripts_repo/js".

Definition join (d f : string) : string := (d ++ "/" ++ f)%string.

(** Lines 93-119. *)
Definition command (sc : script) (cli : list pyval) : list pyval :=
  if String.eqb (sc_script_type sc) "python"
  then [PStr "python3"; PStr (join SCRIPTS_PY_DIR (sc_filename sc))] ++ cli
  else [PStr "node"; PStr (join SCRIPTS_JS_DIR (sc_filename sc))] ++ cli.

Definition mk_row (sc : script) (dur st : Z) (params : dict string pyval)
    (out err url : option string) : run_row :=
  {| r_script_id := sc_id sc; r_duration_ms := dur; r_status := st;
     r_params := params; r_stdout_preview := out; r_stderr := err;
     r_output_file_url := url |}.

(** Lines 143-177: exit code 0, structured or binary output. *)
Definition on_success (W : world) (sc : script) (params : dict string pyval)
    (out : string) : M xresult :=
  let dur := w_elapsed_ms W in
  mlet '(preview, data, file) :=
    match w_json W out with
    | Some text => mret (Some (substring 0 1000 text), Some text, None)
    | None =>
        mlet meta := save_binary_output W out in
        mret (None, None, Some meta)
    end in
  update_last_run (sc_id sc) 1 ;;
  mlet run_id := insert_run (mk_row sc dur 1 params preview None
                               (option_map (fun m => fst (fst m)) file)) in
  notify_if sc ("【成功】" ++ sc_filename sc) "执行完毕" ;;
  mret {| x_status := "success"; x_duration_ms := dur; x_data := data;
          x_file := file; x_stderr := None; x_code := None; x_run_id := run_id |}.

(** Lines 178-194: non-zero exit. *)
Definition on_failure (W : world) (sc : script) (params : dict string pyval)
    (err : string) : M xresult :=
  let dur := w_elapsed_ms W in
  update_last_run (sc_id sc) 2 ;;
  mlet run_id := insert_run (mk_row sc dur 2 params None (Some err) None) in
  notify_if sc ("【失败】" ++ sc_filename sc)
    (if String.eqb err EmptyString then "执行失败" else err) ;;
  mret {| x_status := "error"; x_duration_ms := dur; x_data := None; x_file := None;
          x_stderr := Some err; x_code := Some 500; x_run_id := run_id |}.

(** Lines 195-213: [except subprocess.TimeoutExpired]. *)
Definition on_timeout (W : world) (sc : script) (params : dict string pyval) : M xresult :=
  reg_del (sc_id sc) ;;
  let dur := w_elapsed_ms W in
  update_last_run (sc_id sc) 2 ;;
  mlet run_id := insert_run (mk_row sc dur 3 params None (Some "timeout") None) in
  notify_if sc ("【失败】" ++ sc_filename sc) "timeout" ;;
  mret {| x_status := "error"; x_duration_ms := dur; x_data := None; x_file := None;
          x_stderr := Some "timeout"; x_code := Some 504; x_run_id := run_id |}.

(** Lines 214-233: [except Exception as e]. *)
Definition on_exception (W : world) (sc : script) (params : dict string pyval)
    (e : exc) : M xresult :=
  reg_del (sc_id sc) ;;
  let dur := w_elapsed_ms W in
  update_last_run (sc_id sc) 2 ;;
  mlet run_id := insert_run (mk_row sc dur 2 params None (Some (exc_str e)) None) in
  notify_if sc ("【失败】" ++ sc_filename sc) (exc_str e) ;;
  mret {| x_status := "error"; x_duration_ms := dur; x_data := None; x_file := None;
          x_stderr := Some (exc_str e); x_code := Some 500; x_run_id := run_id |}.

(** [_execute_script(script, args_schema, processed_params)]. *)
Definition execute_script (R : float_runtime) (W : world) (sc : script)
    (schema : list (string * meta)) (params : dict string pyval) : M xresult :=
  mlet '(cli, _) := lift (build_cli_args R schema params) in
  let cmd := command sc cli in
  try_except
    (mlet p := popen W cmd in
     reg_add (sc_id sc) (p, sc_filename sc) ;;
     mlet '(rc, out, err) := try_finally (communicate W p) (reg_del (sc_id sc)) in
     if rc =? 0 then on_success W sc params out else on_failure W sc params err)
    (fun e => if bool_decide (e = TimeoutExpired)
              then on_timeout W sc params
              else on_exception W sc params e).

(** The returned dict of [terminate_script]. *)
Record tresult := { t_status : string; t_message : string }.

(** How the [try] block of [terminate_script] meets the rest of the
    program: [proc.wait(timeout=5)] may raise, and the [finally] of the
    [_execute_script] call that started the process, woken by the kill,
    may remove the registry entry ([reg_del]) before this thread's [del]. *)
Record term_world := {
  tw_wait_error : option exc;
  tw_executor_cleanup_first : bool
}.

(** [terminate_script(script_id)]; [del d[k]] of a missing key raises
    [KeyError(k)], whose [str] is the key's [repr]. The logger call is not
    modelled. *)
Definition terminate_script (T : term_world) (sid : Z) : M tresult :=
  mlet s := mget in
  match dict_get sid (running_processes s) with
  | None => mret {| t_status := "error"; t_message := "脚本未在运行中" |}
  | Some (p, _) =>
      try_except
        (kill p ;;
         (if tw_executor_cleanup_first T then reg_del sid else mret tt) ;;
         (match tw_wait_error T with Some e => raise e | None => mret tt end) ;;
         mlet s := mget in
         if dict_mem sid (running_processes s) then
           modify (fun s => set_running (dict_del sid (running_processes s)) s) ;;
           mret {| t_status := "success"; t_message := "脚本已中止" |}
         else raise (KeyError (str_int sid)))
        (fun e => mret {| t_status := "error"; t_message := exc_str e |})
  end.

(** [get_running_scripts()] *)
Definition get_running_scripts (s : xstate) : list Z :=
  map fst (running_processes s).

End Executor.

(* ------------------------------------------------------------------ *)
(** ** MD5 ([hashlib.md5]), used for cache keys and file hashes *)

Module MD5.

Definition mask32 : Z := 0xffffffff.
Definition add32 (a b : Z) : Z := Z.land (a + b) mask32.
Definition not32 (x : Z) : Z := Z.lxor x mask32.
Definition rotl32 (x c : Z) : Z :=
  Z.land (Z.lor (Z.shiftl x c) (Z.shiftr x (32 - c))) mask32.

Definition K : list Z :=
  [0xd76aa478; 0xe8c7b756; 0x242070db; 0xc1bdceee; 0xf57c0faf; 0x4787c62a;
   0xa8304613; 0xfd469501; 0x698098d8; 0x8b44f7af; 0xffff5bb1; 0x895cd7be;
   0x6b901122; 0xfd987193; 0xa679438e; 0x49b40821; 0xf61e2562; 0xc040b340;
   0x265e5a51; 0xe9b6c7aa; 0xd62f105d; 0x02441453; 0xd8a1e681; 0xe7d3fbc8;
   0x21e1cde6; 0xc33707d6; 0xf4d50d87; 0x455a14ed; 0xa9e3e905; 0xfcefa3f8;
   0x676f02d9; 0x8d2a4c8a; 0xfffa3942; 0x8771f681; 0x6d9d6122; 0xfde5380c;
   0xa4beea44; 0x4bdecfa9; 0xf6bb4b60; 0xbebfbc70; 0x289b7ec6; 0xeaa127fa;
   0xd4ef3085; 0x04881d05; 0xd9d4d039; 0xe6db99e5; 0x1fa27cf8; 0xc4ac5665;
   0xf4292244; 0x432aff97; 0xab9423a7; 0xfc93a039; 0x655b59c3; 0x8f0ccc92;
   0xffeff47d; 0x85845dd1; 0x6fa87e4f; 0xfe2ce6e0; 0xa3014314; 0x4e0811a1;
   0xf7537e82; 0xbd3af235; 0x2ad7d2bb; 0xeb86d391].

Definition shifts : list Z :=
  [7; 12; 17; 22; 7; 12; 17; 22; 7; 12; 17; 22; 7; 12; 17; 22;
   5; 9; 14; 20; 5; 9; 14; 20; 5; 9; 14; 20; 5; 9; 14; 20;
   4; 11; 16; 23; 4; 11; 16; 23; 4; 11; 16; 23; 4; 11; 16; 23;
   6; 10; 15; 21; 6; 10; 15; 21; 6; 10; 15; 21; 6; 10; 15; 21].

(** One of the 64 operations on the state (A, B, C, D). *)
Definition op (m : list Z) (st : Z * Z * Z * Z) (i : nat) : Z * Z * Z * Z :=
  let '(a, b, c, d) := st in
  let '(f, g) :=
    if (i <? 16)%nat then (Z.lor (Z.land b c) (Z.land (not32 b) d), i)
    else if (i <? 32)%nat then (Z.lor (Z.land d b) (Z.land (not32 d) c), (5 * i + 1) mod 16)%nat
    else if (i <? 48)%nat then (Z.lxor b (Z.lxor c d), (3 * i + 5) mod 16)%nat
    else (Z.lxor c (Z.lor b (not32 d)), (7 * i) mod 16)%nat in
  let f' := add32 (add32 (add32 f a) (nth i K 0)) (nth g m 0) in
  (d, add32 b (rotl32 f' (nth i shifts 0)), b, c).

Definition le32 (b0 b1 b2 b3 : Z) : Z :=
  b0 + Z.shiftl b1 8 + Z.shiftl b2 16 + Z.shiftl b3 24.

Fixpoint words (bs : list Z) : list Z :=
  match bs with
  | b0 :: b1 :: b2 :: b3 :: r => le32 b0 b1 b2 b3 :: words r
  | _ => []
  end.

(** Processing one 64-byte chunk. *)
Definition chunk (st : Z * Z * Z * Z) (bs : list Z) : Z * Z * Z * Z :=
  let m := words bs in
  let '(a, b, c, d) := fold_left (op m) (seq 0 64) st in
  let '(a0, b0, c0, d0) := st in
  (add32 a0 a, add32 b0 b, add32 c0 c, add32 d0 d).

Fixpoint chunks (fuel : nat) (st : Z * Z * Z * Z) (bs : list Z) : Z * Z * Z * Z :=
  match fuel, bs with
  | O, _ | _, [] => st
  | S f, _ => chunks f (chunk st (firstn 64 bs)) (skipn 64 bs)
  end.

Definition le_bytes (n : nat) (x : Z) : list Z :=
  map (fun i => Z.land (Z.shiftr x (8 * Z.of_nat i)) 255) (seq 0 n).

Definition pad (msg : list Z) : list Z :=
  let len := length msg in
  msg ++ [128] ++ repeat 0 (Z.to_nat ((55 - Z.of_nat len) mod 64))
      ++ le_bytes 8 (8 * Z.of_nat len).

Definition digest (msg : list Z) : list Z :=
  let p := pad msg in
  let '(a, b, c, d) :=
    chunks (length p) (0x67452301, 0xefcdab89, 0x98badcfe, 0x10325476) p in
  le_bytes 4 a ++ le_bytes 4 b ++ le_bytes 4 c ++ le_bytes 4 d.

Definition hex_char (d : Z) : ascii :=
  if d <? 10 then ascii_of_nat (48 + Z.to_nat d) else ascii_of_nat (87 + Z.to_nat d).

Fixpoint hex (bs : list Z) : string :=
  match bs with
  | [] => EmptyString
  | b :: r => String (hex_char (Z.shiftr b 4)) (String (hex_char (Z.land b 15)) (hex r))
  end.

(** The bytes of an ASCII string ([str.encode()] on ASCII text). *)
Fixpoint bytes_of (s : string) : list Z :=
  match s with
  | EmptyString => []
  | String c r => Z.of_nat (nat_of_ascii c) :: bytes_of r
  end.

(** [hashlib.md5(data).hexdigest()] *)
Definition hexdigest (data : list Z) : string := hex (digest data).

End MD5.

(* ------------------------------------------------------------------ *)
(** ** The dependency cache manager (deps.py, lines 175-369) *)

Module Deps.
Import Py.

(** One dependency dict [{'name': ..., 'version': ...}] as the manifest
    parsers build it. *)
Record dep := { dep_name : string; dep_version : string }.

#[global] Instance dep_eq_dec : EqDecision dep.
Proof. solve_decision. Defined.

(** [json.dumps] string literal with the default [ensure_ascii=True]
    (text is modelled as one character per code point below 256). *)
Definition hex4 (n : nat) : string :=
  String "0" (String "0" (String (MD5.hex_char (Z.of_nat n / 16))
                            (String (MD5.hex_char (Z.of_nat n mod 16)) EmptyString))).

Definition json_char (c : ascii) : string :=
  let n := nat_of_ascii c in
  if (n =? 34)%nat then String "092" (String "034" EmptyString)
  else if (n =? 92)%nat then "\\"
  else if (n =? 10)%nat then "\n"
  else if (n =? 13)%nat then "\r"
  else if (n =? 9)%nat then "\t"
  else if (n =? 8)%nat then "\b"
  else if (n =? 12)%nat then "\f"
  else if (32 <=? n)%nat && (n <=? 126)%nat then String c EmptyString
  else ("\u" ++ hex4 n)%string.

Fixpoint json_chars (s : string) : string :=
  match s with
  | EmptyString => EmptyString
  | String c r => (json_char c ++ json_chars r)%string
  end.

Definition json_str (s : string) : string := (String "034" (json_chars s) ++ String "034" EmptyString)%string.

(** [json.dumps(d, sort_keys=True)] of one dependency dict: keys sorted,
    default separators [", "] and [": "]. *)
Definition json_dep (d : dep) : string :=
  ("{" ++ json_str "name" ++ ": " ++ json_str (dep_name d) ++ ", "
       ++ json_str "version" ++ ": " ++ json_str (dep_version d) ++ "}")%string.

Fixpoint json_items (ds : list dep) : string :=
  match ds with
  | [] => EmptyString
  | [d] => json_dep d
  | d :: r => (json_dep d ++ ", " ++ json_items r)%string
  end.

Definition json_list (ds : list dep) : string := ("[" ++ json_items ds ++ "]")%string.

(** [sorted(deps, key=lambda x: x['name'])]: a stable sort on [<] of the
    names; insertion keeps equal keys in input order. *)
Fixpoint insert_by_name (x : dep) (l : list dep) : list dep :=
  match l with
  | [] => [x]
  | y :: r =>
      if String.ltb (dep_name x) (dep_name y) then x :: y :: r
      else y :: insert_by_name x r
  end.

Definition sort_by_name (l : list dep) : list dep :=
  fold_left (fun acc x => insert_by_name x acc) l [].

(** [calculate_deps_hash(deps_list)] *)
Definition calculate_deps_hash (deps : list dep) : string :=
  substring 0 16 (MD5.hexdigest (MD5.bytes_of (json_list (sort_by_name deps)))).

(** File system paths as lists of components. *)
Definition path := list string.

Definition path_str (p : path) : string :=
  match p with
  | [] => EmptyString
  | c :: r => fold_left (fun acc x => acc ++ "/" ++ x)%string r c
  end.

(** [get_cache_path(deps_hash, runtime)] *)
Definition get_cache_path (cache_base : path) (h runtime : string) : path :=
  cache_base ++ [if String.eqb runtime "python" then "python" else "nodejs"; h].

(** The file system and the package-manager processes the cache manager
    starts; a package manager whose [communicate(timeout=300)] expired is
    still running, with the files it will still write into its target. *)
Record dstate := {
  d_dirs : list path;
  d_files : list (path * string);
  d_invocations : list (list string);
  d_pm_running : list (path * list (path * string))
}.

Fixpoint is_prefix (p q : path) : bool :=
  match p, q with
  | [], _ => true
  | x :: p', y :: q' => String.eqb x y && is_prefix p' q'
  | _ :: _, [] => false
  end.

(** [os.path.exists(p) and os.path.isdir(p)] *)
Definition is_dir (p : path) (s : dstate) : bool :=
  bool_decide (p ∈ d_dirs s).

(** [is_cache_valid(cache_path)] *)
Definition is_cache_valid (cp : path) (s : dstate) : bool := is_dir cp s.

Definition add_dir (p : path) (ds : list path) : list path :=
  if bool_decide (p ∈ ds) then ds else ds ++ [p].

(** [os.makedirs(p, exist_ok=True)]: [p] and its ancestors. *)
Definition makedirs (p : path) (s : dstate) : dstate :=
  {| d_dirs := fold_left (fun ds n => add_dir (firstn n p) ds) (seq 1 (length p)) (d_dirs s);
     d_files := d_files s; d_invocations := d_invocations s;
     d_pm_running := d_pm_running s |}.

(** Writing a file (its directory is created first). *)
Definition write_file (p : path) (content : string) (s : dstate) : dstate :=
  let s' := makedirs (removelast p) s in
  {| d_dirs := d_dirs s';
     d_files := (p, content) :: filter (fun f => negb (bool_decide (f.1 = p))) (d_files s');
     d_invocations := d_invocations s'; d_pm_running := d_pm_running s' |}.

Definition write_files (dir : path) (fs : list (path * string)) (s : dstate) : dstate :=
  fold_left (fun s f => write_file (dir ++ f.1) f.2 s) fs s.

(** [shutil.rmtree(p, ignore_errors=True)] *)
Definition rmtree (p : path) (s : dstate) : dstate :=
  {| d_dirs := filter (fun d => negb (is_prefix p d)) (d_dirs s);
     d_files := filter (fun f => negb (is_prefix p f.1)) (d_files s);
     d_invocations := d_invocations s; d_pm_running := d_pm_running s |}.

(** A successful [subprocess.Popen] of a package manager. *)
Definition invoke (cmd : list string) (s : dstate) : dstate :=
  {| d_dirs := d_dirs s; d_files := d_files s;
     d_invocations := d_invocations s ++ [cmd]; d_pm_running := d_pm_running s |}.

Definition leave_running (target : path) (later : list (path * string)) (s : dstate) : dstate :=
  {| d_dirs := d_dirs s; d_files := d_files s; d_invocations := d_invocations s;
     d_pm_running := d_pm_running s ++ [(target, later)] |}.

(** How the package manager's [communicate(timeout=300)] ends. *)
Inductive pm_outcome :=
| PmExited (returncode : Z) (out : string)
| PmTimeout
| PmRaises (e : exc).

(** What the outside world contributes to one install attempt. *)
Record install_world := {
  iw_makedirs_error : option exc;
  iw_pkg_json_error : option exc;
  iw_popen_error : option exc;
  iw_partial : list (path * string);
  iw_outcome : pm_outcome;
  iw_later : list (path * string);
  iw_meta_error : option exc
}.

(** The returned dict. *)
Record iresult := {
  i_success : bool;
  i_cache_path : option path;
  i_from_cache : option bool;
  i_error : option string
}.

Definition hit (cp : path) : iresult :=
  {| i_success := true; i_cache_path := Some cp; i_from_cache := Some true; i_error := None |}.
Definition installed (cp : path) : iresult :=
  {| i_success := true; i_cache_path := Some cp; i_from_cache := Some false; i_error := None |}.
Definition failed (msg : string) : iresult :=
  {| i_success := false; i_cache_path := None; i_from_cache := None; i_error := Some msg |}.

Definition META : string := ".deps_meta.json".

(** [dep['name'] + (dep['version'] if dep['version'] else '')] *)
Definition dep_spec (d : dep) : string := (dep_name d ++ dep_version d)%string.

(** Lines 285-309 and 346-369: waiting for the package manager, writing
    the manifest on success, and removing the directory otherwise. *)
Definition finish (W : install_world) (cp : path) (s : dstate) : iresult * dstate :=
  let fail msg s := (failed msg, rmtree cp s) in
  match iw_outcome W with
  | PmTimeout => fail "安装超时" (leave_running cp (iw_later W) s)
  | PmRaises e => fail (exc_str e) s
  | PmExited rc out =>
      if rc =? 0 then
        match iw_meta_error W with
        | Some e => fail (exc_str e) s
        | None => (installed cp, write_file (cp ++ [META]) out s)
        end
      else fail out s
  end.

(** [_install_python_deps_with_cache(deps, force_reinstall)] *)
Definition install_python (W : install_world) (cache_base : path) (deps : list dep)
    (force_reinstall : bool) (s : dstate) : iresult * dstate :=
  let cp := get_cache_path cache_base (calculate_deps_hash deps) "python" in
  if negb force_reinstall && is_cache_valid cp s then (hit cp, s) else
  match iw_makedirs_error W with
  | Some e => (failed (exc_str e), rmtree cp s)
  | None =>
      let s1 := makedirs cp s in
      let cmd := ["python3"; "-m"; "pip"; "install"; "--target"; path_str cp]
                   ++ map dep_spec deps in
      match iw_popen_error W with
      | Some e => (failed (exc_str e), rmtree cp s1)
      | None => finish W cp (write_files cp (iw_partial W) (invoke cmd s1))
      end
  end.

(** [_install_nodejs_deps_with_cache(deps, force_reinstall)] *)
Definition install_nodejs (W : install_world) (cache_base : path) (deps : list dep)
    (force_reinstall : bool) (s : dstate) : iresult * dstate :=
  let cp := get_cache_path cache_base (calculate_deps_hash deps) "nodejs" in
  if negb force_reinstall && is_cache_valid cp s then (hit cp, s) else
  match iw_makedirs_error W with
  | Some e => (failed (exc_str e), rmtree cp s)
  | None =>
      let s1 := makedirs cp s in
      match iw_pkg_json_error W with
      | Some e => (failed (exc_str e), rmtree cp s1)
      | None =>
          let s2 := write_file (cp ++ ["package.json"]) "script-deps" s1 in
          let cmd := ["npm"; "install"; "--prefix"; path_str cp] in
          match iw_popen_error W with
          | Some e => (failed (exc_str e), rmtree cp s2)
          | None => finish W cp (write_files cp (iw_partial W) (invoke cmd s2))
          end
      end
  end.

(** A package manager left running by a timed-out install finishing:
    pip's [--target] and npm's [--prefix] create the target directory and
    move the installed packages into it. *)
Definition pm_complete (target : path) (s : dstate) : dstate :=
  match find (fun r => bool_decide (r.1 = target)) (d_pm_running s) with
  | None => s
  | Some (_, later) =>
      let s' := write_files target later (makedirs target s) in
      {| d_dirs := d_dirs s'; d_files := d_files s'; d_invocations := d_invocations s';
         d_pm_running := filter (fun r => negb (bool_decide (r.1 = target))) (d_pm_running s') |}
  end.

End Deps.

(* ------------------------------------------------------------------ *)
(** ** The schema registrar (scanner.py, lines 17-138) *)

Module Scanner.
Import Py.

Fixpoint starts_with (p s : string) : bool :=
  match p, s with
  | EmptyString, _ => true
  | String a p', String b s' => Ascii.eqb a b && starts_with p' s'
  | String _ _, EmptyString => false
  end.

(** [p in s] for strings. *)
Fixpoint contains (p s : string) : bool :=
  starts_with p s ||
  match s with EmptyString => false | String _ s' => contains p s' end.

Definition ends_with (suf s : string) : bool :=
  starts_with (rev_str suf EmptyString) (rev_str s EmptyString).

(** [detect_script_type(path)] *)
Definition detect_script_type (path : string) : option string :=
  if ends_with ".py" path then Some "python"
  else if ends_with ".js" path then Some "js"
  else None.

(** Matching the regex
    [if\s+__name__\s*==\s*["']__main__["']\s*:] at the start of a string;
    the literal after each [\s*] is not whitespace, so the greedy match
    is the only one. *)
Definition lit (p s : string) : option string :=
  if starts_with p s then Some (substring (String.length p) (String.length s) s) else None.

Fixpoint ws_star (s : string) : string :=
  match s with
  | String c s' => if is_space c then ws_star s' else s
  | EmptyString => EmptyString
  end.

Definition ws_plus (s : string) : option string :=
  match s with
  | String c s' => if is_space c then Some (ws_star s') else None
  | EmptyString => None
  end.

Definition quote (s : string) : option string :=
  match s with
  | String c s' =>
      if Ascii.eqb c (ascii_of_nat 34) || Ascii.eqb c (ascii_of_nat 39) then Some s' else None
  | EmptyString => None
  end.

Definition obind {A B} (o : option A) (f : A -> option B) : option B :=
  match o with Some a => f a | None => None end.

Definition main_guard_at (s : string) : bool :=
  match obind (lit "if" s) (fun s =>
        obind (ws_plus s) (fun s =>
        obind (lit "__name__" (ws_star s)) (fun s =>
        obind (lit "==" (ws_star s)) (fun s =>
        obind (quote (ws_star s)) (fun s =>
        obind (lit "__main__" s) (fun s =>
        obind (quote s) (fun s =>
        lit ":" (ws_star s)))))))) with
  | Some _ => true
  | None => false
  end.

(** [re.search(pattern, text)]: a match at some position. *)
Fixpoint main_guard_search (s : string) : bool :=
  main_guard_at s ||
  match s with EmptyString => false | String _ s' => main_guard_search s' end.

(** A catalog row of the [scripts] table, as [upsert_script] writes it. *)
Record srow := {
  row_script_type : string;
  row_file_hash : string;
  row_status_load : Z;
  row_load_error_msg : option string;
  row_args_schema : option string
}.

(** Script files (their text; [None]: unreadable as UTF-8), the catalog
    and the discovery subprocesses started so far. *)
Record sstate := {
  s_files : dict string string;
  s_unreadable : list string;
  s_scripts : dict string srow;
  s_discoveries : list (list string)
}.

(** [has_entrypoint(path, stype)]: a read failure yields [False]. *)
Definition has_entrypoint (path stype : string) (s : sstate) : bool :=
  if bool_decide (path ∈ s_unreadable s) then false else
  match dict_get path (s_files s) with
  | None => false
  | Some text =>
      if String.eqb stype "python" then main_guard_search text
      else if String.eqb stype "js" then
        contains "module.exports" text || contains "export default" text
      else false
  end.

(** [md5_file(path)] *)
Definition md5_file (path : string) (s : sstate) : string :=
  MD5.hexdigest (MD5.bytes_of (Marshal.get_or (dict_get path (s_files s)) EmptyString)).

(** How the discovery subprocess [cmd] ends ([communicate(timeout=30)]). *)
Inductive disc_outcome :=
| DExited (returncode : Z) (out err : string)
| DRaises (e : exc).

(** How writing the sidecar ends: [open(sidecar, 'w')] raises and the
    file is left as it was, or [f.write] raises after the open truncated
    the file, leaving what it wrote so far. *)
Inductive write_outcome :=
| WriteOk
| OpenRaises (e : exc)
| WriteRaises (e : exc) (written : string).

(** What the outside world contributes to a scan: the discovery outcome
    per script path, [json.loads] followed by [json.dumps] of its output
    (the dumped text, or the exception [json.loads] raises), and the
    outcome of writing a sidecar path. *)
Record sworld := {
  sw_discover : string -> disc_outcome;
  sw_json : string -> result string;
  sw_sidecar : string -> write_outcome
}.

Definition SCRIPTS_PY_DIR : string := "scripts_repo/python".
Definition SCRIPTS_JS_DIR : string := "scripts_repo/js".

(** [os.path.relpath(path, root)] for a path under [root]. *)
Definition relpath (path root : string) : string :=
  match lit (root ++ "/") path with Some r => r | None => path end.

(** [mapjson_sidecar_path(path)] *)
Definition sidecar_path (path : string) : string :=
  (substring 0 (String.length path - 3) path ++ "._map.json")%string.

(** [run_get_schema(cmd)]: records the spawned command. *)
Definition run_get_schema (W : sworld) (path : string) (cmd : list string) (s : sstate)
    : (bool * option string * option string) * sstate :=
  let s' := {| s_files := s_files s; s_unreadable := s_unreadable s;
               s_scripts := s_scripts s; s_discoveries := s_discoveries s ++ [cmd] |} in
  match sw_discover W path with
  | DExited rc out err =>
      if rc =? 0 then ((true, Some out, None), s') else ((false, None, Some err), s')
  | DRaises e => ((false, None, Some (exc_str e)), s')
  end.

(** [upsert_script(...)]: an existing row keeps its [script_type]. *)
Definition upsert_script (filename stype hash : string) (st : Z) (err schema : option string)
    (s : sstate) : sstate :=
  let ty := match dict_get filename (s_scripts s) with
            | Some r => row_script_type r | None => stype end in
  {| s_files := s_files s; s_unreadable := s_unreadable s;
     s_scripts := dict_set filename
                    {| row_script_type := ty; row_file_hash := hash; row_status_load := st;
                       row_load_error_msg := err; row_args_schema := schema |} (s_scripts s);
     s_discoveries := s_discoveries s |}.

Definition write_text (p text : string) (s : sstate) : sstate :=
  {| s_files := dict_set p text (s_files s); s_unreadable := s_unreadable s;
     s_scripts := s_scripts s; s_discoveries := s_discoveries s |}.

(** Lines 124-128: [with open(sidecar, 'w', ...) as f: f.write(args_schema)];
    the exception it raises, if any. *)
Definition write_sidecar (W : sworld) (p text : string) (s : sstate) : option exc * sstate :=
  match sw_sidecar W p with
  | WriteOk => (None, write_text p text s)
  | OpenRaises e => (Some e, s)
  | WriteRaises e written => (Some e, write_text p written s)
  end.

(** [schema_text[:500] + "..." if len(schema_text) > 500 else schema_text] *)
Definition preview (schema_text : string) : string :=
  if (500 <? String.length schema_text)%nat
  then (substring 0 500 schema_text ++ "...")%string else schema_text.

(** [f"Invalid schema JSON: {e}\n原始输出内容:\n{preview}"] *)
Definition invalid_schema_msg (e : exc) (schema_text : string) : string :=
  ("Invalid schema JSON: " ++ exc_str e
     ++ String "010" ("原始输出内容:" ++ String "010" (preview schema_text)))%string.

(** [parse_and_register(path)]: [args_schema] is set before the sidecar
    is written, so a failing write keeps it. *)
Definition parse_and_register (W : sworld) (path : string) (s : sstate) : sstate :=
  match detect_script_type path with
  | None => s
  | Some stype =>
      let relative_path :=
        if String.eqb stype "python" then relpath path SCRIPTS_PY_DIR
        else relpath path SCRIPTS_JS_DIR in
      if negb (has_entrypoint path stype s) then s else
      let file_hash := md5_file path s in
      let cmd := if String.eqb stype "python"
                 then ["python3"; path; "--_sys_get_schema"]
                 else ["node"; path; "--_sys_get_schema"] in
      let '((ok, schema_text, err), s1) := run_get_schema W path cmd s in
      if ok then
        let text := Marshal.get_or schema_text EmptyString in
        match sw_json W text with
        | Ok args_schema =>
            let '(werr, s2) := write_sidecar W (sidecar_path path) args_schema s1 in
            match werr with
            | None => upsert_script relative_path stype file_hash 1 None (Some args_schema) s2
            | Some e =>
                upsert_script relative_path stype file_hash 0
                  (Some (invalid_schema_msg e text)) (Some args_schema) s2
            end
        | Err e =>
            upsert_script relative_path stype file_hash 0
              (Some (invalid_schema_msg e text)) None s1
        end
      else
        upsert_script relative_path stype file_hash 0
          (Some (match err with
                 | Some e => if String.eqb e EmptyString then "unknown error" else e
                 | None => "unknown error"
                 end)) None s1
  end.

End Scanner.

(* ------------------------------------------------------------------ *)
(** ** Requirement texts and install commands (deps.py, lines 15-121 and 480-554) *)

Module DepsText.
Import Py Deps.

(** Line boundaries of [str.splitlines()] on the ASCII range:
    [\n], [\v], [\f], [\r], [\x1c], [\x1d], [\x1e]. *)
Definition is_line_break (c : ascii) : bool :=
  let n := nat_of_ascii c in
  ((10 <=? n)%nat && (n <=? 13)%nat) || ((28 <=? n)%nat && (n <=? 30)%nat).

(** Cutting a text at the characters [brk] accepts, [\r\n] counting as
    one boundary and no empty line after a final boundary; [cur] is the
    line read so far. *)
Fixpoint split_lines_by (brk : ascii -> bool) (s cur : string) : list string :=
  match s with
  | EmptyString => if String.eqb cur EmptyString then [] else [cur]
  | String c s' =>
      if brk c then
        if Ascii.eqb c "013" then
          match s' with
          | String d s'' =>
              if Ascii.eqb d "010" then cur :: split_lines_by brk s'' EmptyString
              else cur :: split_lines_by brk s' EmptyString
          | EmptyString => [cur]
          end
        else cur :: split_lines_by brk s' EmptyString
      else split_lines_by brk s' (cur ++ String c EmptyString)
  end.

(** [text.splitlines()] *)
Definition splitlines (s : string) : list string := split_lines_by is_line_break s EmptyString.

(** The lines of [for line in f] on a file opened in text mode (universal
    newlines: [\n], [\r] and [\r\n] end a line), without their line end;
    every caller strips the line, which removes that end anyway. *)
Definition file_lines (s : string) : list string :=
  split_lines_by (fun c => Ascii.eqb c "010" || Ascii.eqb c "013") s EmptyString.

(** [s.split(sep, 1)[0]] for [sep = '=='], and [s.replace('==', '')]. *)
Fixpoint before_eqeq (s : string) : string :=
  match s with
  | String c r =>
      if Ascii.eqb c "=" && Scanner.starts_with "=" r then EmptyString
      else String c (before_eqeq r)
  | EmptyString => EmptyString
  end.

Fixpoint after_eqeq (s : string) : string :=
  match s with
  | String c r =>
      if Ascii.eqb c "=" && Scanner.starts_with "=" r then substring 1 (String.length r) r
      else after_eqeq r
  | EmptyString => EmptyString
  end.

Fixpoint remove_eqeq (s : string) : string :=
  match s with
  | String c r =>
      if Ascii.eqb c "=" then
        match r with
        | String d r' => if Ascii.eqb d "=" then remove_eqeq r' else String c (remove_eqeq r)
        | EmptyString => String c EmptyString
        end
      else String c (remove_eqeq r)
  | EmptyString => EmptyString
  end.

(** [list_python_deps()], from the output of [pip freeze]. *)
Fixpoint freeze_deps (lines : list string) : list dep :=
  match lines with
  | [] => []
  | ln :: r =>
      if Scanner.contains "==" ln
      then {| dep_name := before_eqeq ln; dep_version := after_eqeq ln |} :: freeze_deps r
      else freeze_deps r
  end.

Definition list_python_deps (out : string) : list dep := freeze_deps (splitlines out).

(** The regex [^([A-Za-z0-9_.\-]+)([<>=!~]{1,2}[=]?)(.+)$] of
    [parse_requirements_text], matched with backtracking. *)
Definition is_name_char (c : ascii) : bool :=
  let n := nat_of_ascii c in
  ((65 <=? n)%nat && (n <=? 90)%nat) || ((97 <=? n)%nat && (n <=? 122)%nat)
  || is_digit c || Ascii.eqb c "_" || Ascii.eqb c "." || Ascii.eqb c "-".

Definition is_op_char (c : ascii) : bool :=
  Ascii.eqb c "<" || Ascii.eqb c ">" || Ascii.eqb c "=" || Ascii.eqb c "!" || Ascii.eqb c "~".

(** [(.+)$]: the greedy [.+] stops at the first newline, and [$] then
    needs the end of the text or a final newline; [seen] tells whether
    [.+] has consumed a character. *)
Fixpoint dot_plus_end (r : string) (seen : bool) : bool :=
  match r with
  | EmptyString => seen
  | String c r' =>
      if Ascii.eqb c "010" then seen && String.eqb r' EmptyString
      else dot_plus_end r' true
  end.

(** [[=]?(.+)$] *)
Definition opt_eq_rest (r : string) : bool :=
  match r with
  | String c r' =>
      if Ascii.eqb c "=" then dot_plus_end r' false || dot_plus_end r false
      else dot_plus_end r false
  | EmptyString => dot_plus_end r false
  end.

(** [([<>=!~]{1,2}[=]?)(.+)$]: two operator characters are tried first. *)
Definition ops_rest (t : string) : bool :=
  match t with
  | String o1 r =>
      is_op_char o1 &&
      ((match r with String o2 r' => is_op_char o2 && opt_eq_rest r' | EmptyString => false end)
       || opt_eq_rest r)
  | EmptyString => false
  end.

(** The length of the longest prefix of name characters. *)
Fixpoint name_run (s : string) : nat :=
  match s with
  | String c r => if is_name_char c then S (name_run r) else O
  | EmptyString => O
  end.

(** Group 1 gives back characters one at a time until the rest matches. *)
Fixpoint req_search (k : nat) (ln : string) : option nat :=
  match k with
  | O => None
  | S k' =>
      if ops_rest (substring (S k') (String.length ln) ln) then Some (S k')
      else req_search k' ln
  end.

(** [re.match(...)]: the length of group 1, if the line matches. *)
Definition req_match (ln : string) : option nat := req_search (name_run ln) ln.

(** Lines 37-43, for a stripped requirement line. *)
Definition parse_req_line (ln : string) : dep :=
  match req_match ln with
  | Some k => {| dep_name := substring 0 k ln;
                 dep_version := strip (substring k (String.length ln) ln) |}
  | None => {| dep_name := ln; dep_version := EmptyString |}
  end.

Fixpoint parse_req_lines (lines : list string) : list dep :=
  match lines with
  | [] => []
  | l :: r =>
      let ln := strip l in
      if String.eqb ln EmptyString || Scanner.starts_with "#" ln then parse_req_lines r
      else parse_req_line ln :: parse_req_lines r
  end.

(** [parse_requirements_text(text)] *)
Definition parse_requirements_text (text : string) : list dep := parse_req_lines (splitlines text).

(** A requested package that is installed in another version. *)
Record conflict := { cf_name : string; cf_current : string; cf_target : string }.

#[global] Instance conflict_eq_dec : EqDecision conflict.
Proof. solve_decision. Defined.

(** [{d['name'].lower(): d['version'] for d in installed}] *)
Definition inst_map (installed : list dep) : dict string string :=
  fold_left (fun m d => dict_set (lower (dep_name d)) (dep_version d) m) installed [].

Fixpoint conflicts_go (m : dict string string) (requested : list dep) : list conflict :=
  match requested with
  | [] => []
  | r :: rs =>
      let target := dep_version r in
      match dict_get (lower (dep_name r)) m with
      | Some cur =>
          if negb (String.eqb cur EmptyString) && negb (String.eqb target EmptyString)
             && Scanner.contains "==" target && negb (String.eqb cur (remove_eqeq target))
          then {| cf_name := dep_name r; cf_current := cur; cf_target := target |}
                 :: conflicts_go m rs
          else conflicts_go m rs
      | None => conflicts_go m rs
      end
  end.

(** [detect_conflicts(installed, requested)] *)
Definition detect_conflicts (installed requested : list dep) : list conflict :=
  conflicts_go (inst_map installed) requested.

(** [sorted(...)] of strings. *)
Fixpoint insert_str (x : string) (l : list string) : list string :=
  match l with
  | [] => [x]
  | y :: r => if String.ltb x y then x :: y :: r else y :: insert_str x r
  end.

Definition sort_str (l : list string) : list string :=
  fold_left (fun acc x => insert_str x acc) l [].

(** The key [update_requirements_txt] files an existing line under. *)
Definition req_key (line : string) : string :=
  if Scanner.contains "==" line then lower (before_eqeq line) else lower line.

(** Lines 64-73: the [existing] dict read from [requirements.txt]
    ([None]: the file does not exist). *)
Definition existing_of (old : option string) : dict string string :=
  match old with
  | None => []
  | Some text =>
      fold_left (fun m l =>
          let line := strip l in
          if negb (String.eqb line EmptyString) && negb (Scanner.starts_with "#" line)
          then dict_set (req_key line) line m else m)
        (file_lines text) []
  end.

(** Lines 75-79: merging the new dependencies. *)
Definition merge_deps (existing : dict string string) (new_deps : list dep) : dict string string :=
  fold_left (fun m d => dict_set (lower (dep_name d)) (dep_spec d) m) new_deps existing.

Definition write_lines (l : list string) : string :=
  foldr (fun x acc => x ++ String "010" acc)%string EmptyString l.

(** [update_requirements_txt(new_deps)]: the new text of
    [requirements.txt] from its old text. *)
Definition update_requirements_txt (old : option string) (new_deps : list dep) : string :=
  write_lines (sort_str (map snd (merge_deps (existing_of old) new_deps))).

(** How [proc.communicate()] of [pip install] or [npm install] ends. *)
Inductive proc_outcome :=
| ProcExited (returncode : Z) (out : string)
| ProcRaises (e : exc).

(** A row of the [install_logs] table. *)
Record install_log := {
  log_runtime : string;
  log_requested : list dep;
  log_text : string;
  log_status : Z
}.

(** The global [requirements.txt] (its text, [None]: absent) and the
    install log table. *)
Record gstate := {
  g_requirements : option string;
  g_install_logs : list install_log
}.

Definition add_log (l : install_log) (s : gstate) : gstate :=
  {| g_requirements := g_requirements s; g_install_logs := g_install_logs s ++ [l] |}.

(** [install_python_deps(deps)]; [o]: how the [pip install] process ends
    (or the exception [Popen]/[communicate] raise); [upd_error]: the
    exception [update_requirements_txt] raises, if it does, with the
    [requirements.txt] it leaves behind (unchanged when reading fails,
    possibly cut short when writing fails). *)
Definition install_python_deps (o : proc_outcome) (upd_error : option (exc * option string))
    (deps : list dep) (s : gstate) : (string * Z) * gstate :=
  match o with
  | ProcRaises e =>
      let log := exc_str e in
      ((log, 2), add_log {| log_runtime := "python"; log_requested := deps;
                            log_text := log; log_status := 2 |} s)
  | ProcExited rc out =>
      let status := if rc =? 0 then 1 else 2 in
      let '(log, s1) :=
        if status =? 1 then
          match upd_error with
          | Some (e, after) =>
              ((out ++ String "010" (String "010" EmptyString)
                  ++ "Warning: Failed to update requirements.txt: " ++ exc_str e)%string,
               {| g_requirements := after; g_install_logs := g_install_logs s |})
          | None => (out, {| g_requirements := Some (update_requirements_txt (g_requirements s) deps);
                             g_install_logs := g_install_logs s |})
          end
        else (out, s) in
      ((log, status), add_log {| log_runtime := "python"; log_requested := deps;
                                 log_text := log; log_status := status |} s1)
  end.

(** [parse_package_json(text)] on a text that is not JSON (lines 497-509);
    [rsplit_at ln] is [ln.rsplit('@', 1)] when [ln] has an ['@']. *)
Fixpoint rsplit_at (s : string) : option (string * string) :=
  match s with
  | EmptyString => None
  | String c r =>
      match rsplit_at r with
      | Some (a, b) => Some (String c a, b)
      | None => if Ascii.eqb c "@" then Some (EmptyString, r) else None
      end
  end.

Definition parse_pkg_line (ln : string) : dep :=
  if Scanner.contains "@" ln && negb (Scanner.starts_with "@" ln) then
    match rsplit_at ln with
    | Some (a, b) => {| dep_name := a; dep_version := ("@" ++ b)%string |}
    | None => {| dep_name := ln; dep_version := EmptyString |}
    end
  else {| dep_name := ln; dep_version := EmptyString |}.

Fixpoint parse_pkg_lines (lines : list string) : list dep :=
  match lines with
  | [] => []
  | l :: r =>
      let ln := strip l in
      if String.eqb ln EmptyString || Scanner.starts_with "#" ln || Scanner.starts_with "//" ln
      then parse_pkg_lines r
      else parse_pkg_line ln :: parse_pkg_lines r
  end.

Definition parse_package_lines (text : string) : list dep := parse_pkg_lines (splitlines text).

(** The argument [install_node_deps] passes to npm for one dependency. *)
Definition node_spec (d : dep) : string :=
  if negb (String.eqb (dep_version d) EmptyString) then
    if negb (Scanner.starts_with "@" (dep_version d))
    then (dep_name d ++ "@" ++ dep_version d)%string
    else (dep_name d ++ dep_version d)%string
  else dep_name d.

(** [install_node_deps(deps)]; [o]: how [npm install] ends, a
    [TimeoutExpired] after 300 s among the exceptions. *)
Definition install_node_deps (o : proc_outcome) (deps : list dep) (s : gstate)
    : (string * Z) * gstate :=
  match o with
  | ProcRaises e =>
      let log := exc_str e in
      ((log, 2), add_log {| log_runtime := "javascript"; log_requested := deps;
                            log_text := log; log_status := 2 |} s)
  | ProcExited rc out =>
      let status := if rc =? 0 then 1 else 2 in
      ((out, status), add_log {| log_runtime := "javascript"; log_requested := deps;
                                 log_text := out; log_status := status |} s)
  end.

End DepsText.

(* ------------------------------------------------------------------ *)
(** ** Per-script installs and environments (deps.py, lines 217-257 and 371-401) *)

Module DepsEnv.
Import Py Deps.

(** [os.path.exists(p)]: a directory or a file. *)
Definition path_exists (p : path) (s : dstate) : bool :=
  bool_decide (p ∈ d_dirs s) || bool_decide (p ∈ map fst (d_files s)).

(** The dict [install_script_dependencies] returns; [script_path] and
    [dependencies] are its inputs and are left out. *)
Record script_install := {
  si_installed_python : bool;
  si_installed_nodejs : bool;
  si_cache_python : option path;
  si_cache_nodejs : option path;
  si_errors : list string
}.

(** [if install_result.get('error'): result['errors'].append(...)] *)
Definition error_lines (prefix : string) (r : iresult) : list string :=
  match i_error r with
  | Some e => if String.eqb e EmptyString then [] else [(prefix ++ e)%string]
  | None => []
  end.

(** [install_script_dependencies(script_path, force_reinstall)], with the
    lists [scan_script_dependencies] found given as [py] and [js]; [Wp],
    [Wj]: the worlds of the two installs. *)
Definition install_script_dependencies (Wp Wj : install_world) (base : path)
    (py js : list dep) (force : bool) (s : dstate) : script_install * dstate :=
  let '(ip, cp, ep, s1) :=
    match py with
    | [] => (false, None, [], s)
    | _ => let '(r, s1) := install_python Wp base py force s in
           (i_success r, i_cache_path r, error_lines "Python依赖安装失败: " r, s1)
    end in
  let '(ij, cj, ej, s2) :=
    match js with
    | [] => (false, None, [], s1)
    | _ => let '(r, s2) := install_nodejs Wj base js force s1 in
           (i_success r, i_cache_path r, error_lines "Node.js依赖安装失败: " r, s2)
    end in
  ({| si_installed_python := ip; si_installed_nodejs := ij;
      si_cache_python := cp; si_cache_nodejs := cj; si_errors := ep ++ ej |}, s2).

(** The dict [get_execution_environment] returns. *)
Record env_info := {
  env_python_path : option path;
  env_node_path : option path;
  env_extra : dict string path
}.

(** [get_execution_environment(script_path)], with the scanned lists given. *)
Definition get_execution_environment (base : path) (py js : list dep) (s : dstate) : env_info :=
  let '(pp, extra) :=
    match py with
    | [] => (None, [])
    | _ => let cp := get_cache_path base (calculate_deps_hash py) "python" in
           if is_cache_valid cp s then (Some cp, dict_set "PYTHONPATH" cp []) else (None, [])
    end in
  let '(np, extra) :=
    match js with
    | [] => (None, extra)
    | _ => let cp := get_cache_path base (calculate_deps_hash js) "nodejs" in
           if is_cache_valid cp s then
             let nm := cp ++ ["node_modules"] in
             if path_exists nm s then (Some nm, dict_set "NODE_PATH" nm extra) else (None, extra)
           else (None, extra)
    end in
  {| env_python_path := pp; env_node_path := np; env_extra := extra |}.

End DepsEnv.

(* ================================================================== *)
(** * Properties *)

(* ------------------------------------------------------------------ *)
(** ** The argument marshaler *)

Module MarshalFacts.
Import Py Marshal.

(** A float runtime for concrete runs: [float()] rejects every value. *)
Definition R0 : float_runtime :=
  {| rt_float := fun _ => Err (ValueError "could not convert string to float");
     rt_float_trunc := fun _ => Err (ValueError "cannot convert float") |}.

Definition m_int_req : meta :=
  {| m_flag := Some (PStr "--n"); m_type := Some (PStr "int"); m_required := Some (PBool true) |}.

Example marshal_n_5 :
  build_cli_args R0 [("n", m_int_req)] [("n", PStr "5")]
  = Ok ([PStr "--n"; PStr "5"], [("n", PInt 5)]).
Proof. reflexivity. Qed.

Example marshal_n_missing :
  build_cli_args R0 [("n", m_int_req)] []
  = Err (ValueError "missing required param: n").
Proof. reflexivity. Qed.

Example marshal_bool_tokens :
  build_cli_args R0
    [("v", {| m_flag := Some (PStr "-v"); m_type := Some (PStr "bool"); m_required := None |});
     ("w", {| m_flag := Some (PStr "-w"); m_type := Some (PStr "bool"); m_required := None |})]
    [("w", PStr "on"); ("v", PStr "YeS")]
  = Ok ([PStr "-v"; PStr "1"; PStr "-w"; PStr "0"], [("v", PInt 1); ("w", PInt 0)]).
Proof. reflexivity. Qed.

(** The argv pair that one marshaled parameter contributes. *)
Definition tokens (e : (string * meta) * pyval) : list pyval :=
  [flag_of e.1.2; PStr (py_str e.2)].

Definition present (p : dict string pyval) (nm : string * meta) : Prop :=
  param_get p nm.1 <> PNone.

#[global] Instance present_dec p nm : Decision (present p nm).
Proof. unfold present. apply _. Defined.

Lemma go_app R s1 s2 p cli eff :
  go R (s1 ++ s2) p cli eff
  = bind (go R s1 p cli eff) (fun r => go R s2 p r.1 r.2).
Proof.
  revert cli eff. induction s1 as [|[n m] s1 IH]; intros cli eff; [done|].
  simpl. destruct (decide _); [destruct (truthy _); auto|].
  destruct (coerce R (type_of m) (param_get p n)); simpl; auto.
Qed.

(** What a successful marshaling returns: the pairs of the present
    declared parameters, in declaration order, each with its coerced
    value. *)
Lemma go_ok_shape R s p cli eff cli' eff' :
  go R s p cli eff = Ok (cli', eff') ->
  exists sub : list ((string * meta) * pyval),
    map fst sub = filter (present p) s /\
    cli' = cli ++ concat (map tokens sub) /\
    Forall (fun e => coerce R (type_of e.1.2) (param_get p e.1.1) = Ok e.2) sub.
Proof.
  revert cli eff. induction s as [|[n m] s IH]; intros cli eff H; simpl in H.
  - injection H as <- <-. exists []. by rewrite app_nil_r.
  - destruct (decide (param_get p n = PNone)) as [Hn|Hn].
    + destruct (truthy (required_of m)); [discriminate|].
      destruct (IH _ _ H) as (sub & Hf & Hc & Hv). exists sub.
      rewrite filter_cons_False; [done|]. unfold present; simpl; auto.
    + destruct (coerce R (type_of m) (param_get p n)) as [v|e] eqn:Hc; [|discriminate].
      simpl in H. destruct (IH _ _ H) as (sub & Hf & Hcl & Hv).
      exists (((n, m), v) :: sub). split; [|split].
      * rewrite filter_cons_True; [|done]. simpl. by rewrite Hf.
      * rewrite Hcl. simpl. by rewrite <- app_assoc.
      * by constructor.
Qed.

Lemma go_ext R s p1 p2 cli eff :
  (forall k, dict_get k p1 = dict_get k p2) ->
  go R s p1 cli eff = go R s p2 cli eff.
Proof.
  intros Hk. revert cli eff. induction s as [|[n m] s IH]; intros cli eff; [done|].
  simpl. unfold param_get. rewrite Hk.
  destruct (decide _); [destruct (truthy _); auto|].
  destruct (coerce _ _ _); simpl; auto.
Qed.

Lemma dict_get_perm {V} (l1 l2 : dict string V) k :
  NoDup (map fst l1) -> l1 ≡ₚ l2 -> dict_get k l1 = dict_get k l2.
Proof.
  intros Hnd Hp. induction Hp as [|[k1 v1] l1 l2 Hp IH|[k1 v1] [k2 v2] l|l1 l2 l3 H12 IH12 H23 IH23].
  - done.
  - simpl in *. apply NoDup_cons in Hnd as [_ Hnd].
    destruct (bool_decide _); auto.
  - simpl in *. apply NoDup_cons in Hnd as [Hn _].
    destruct (bool_decide (k = k2)) eqn:E2, (bool_decide (k = k1)) eqn:E1; auto.
    apply bool_decide_eq_true in E1, E2. subst. simpl in Hn. set_solver.
  - rewrite IH12 by done. apply IH23.
    assert (map fst l1 ≡ₚ map fst l2) as Hm by (by apply Permutation_map).
    by rewrite <- Hm.
Qed.

Lemma dict_get_filter {V} (D : list string) (p : dict string V) k :
  k ∈ D -> dict_get k (filter (fun kv => kv.1 ∈ D) p) = dict_get k p.
Proof.
  intros Hk. induction p as [|[k' v] p IH]; [done|].
  destruct (decide (k' ∈ D)) as [Hin|Hin].
  - rewrite filter_cons_True by done. simpl. by rewrite IH.
  - rewrite filter_cons_False by done. simpl. rewrite IH.
    destruct (bool_decide (k = k')) eqn:E; [|done].
    apply bool_decide_eq_true in E. subst. contradiction.
Qed.

Lemma go_filter R (D : list string) s p cli eff :
  Forall (fun nm => nm.1 ∈ D) s ->
  go R s p cli eff = go R s (filter (fun kv => kv.1 ∈ D) p) cli eff.
Proof.
  intros HD. revert cli eff. induction HD as [|[n m] s Hn HD IH]; intros cli eff; [done|].
  simpl. unfold param_get. rewrite (dict_get_filter D p n Hn).
  destruct (decide _); [destruct (truthy _); auto|].
  destruct (coerce _ _ _); simpl; auto.
Qed.

Lemma dict_set_keys {V} (k : string) (v : V) (d : dict string V) x :
  x ∈ map fst (dict_set k v d) -> x = k \/ x ∈ map fst d.
Proof.
  induction d as [|[k' v'] d IH]; simpl; [set_solver|].
  destruct (bool_decide (k = k')); simpl; [set_solver|].
  rewrite !elem_of_cons. intros [->|H]; [auto|]. destruct (IH H); auto.
Qed.

Lemma go_eff_keys R s p cli eff cli' eff' :
  go R s p cli eff = Ok (cli', eff') ->
  forall x, x ∈ map fst eff' -> x ∈ map fst eff \/ x ∈ map fst s.
Proof.
  revert cli eff. induction s as [|[n m] s IH]; intros cli eff H x Hx; simpl in H.
  - injection H as <- <-. auto.
  - destruct (decide _).
    + destruct (truthy _); [discriminate|].
      destruct (IH _ _ H x Hx); simpl; set_solver.
    + destruct (coerce _ _ _); [|discriminate]. simpl in H.
      destruct (IH _ _ H x Hx) as [Hk|Hk]; simpl; [|set_solver].
      destruct (dict_set_keys _ _ _ _ Hk); set_solver.
Qed.

Lemma coerce_bool R str :
  coerce R (PStr "bool") (PStr str)
  = Ok (PInt (if bool_decide (lower str ∈ ["true"; "1"; "yes"]) then 1 else 0)).
Proof.
  unfold coerce. rewrite decide_False by discriminate.
  rewrite decide_False by discriminate. rewrite decide_True by done. done.
Qed.

Lemma concat_elem_infix (sub : list ((string * meta) * pyval)) e :
  e ∈ sub -> exists l1 l2, concat (map tokens sub) = l1 ++ tokens e ++ l2.
Proof.
  intros He. apply list_elem_of_split in He as (sub1 & sub2 & ->).
  exists (concat (map tokens sub1)), (concat (map tokens sub2)).
  by rewrite map_app, concat_app.
Qed.

(** C1 (as stated): marshaling fails whenever the input map holds a key
    the schema does not declare -- refuted: the undeclared key is
    ignored and marshaling succeeds. *)
Lemma C1_counterexample :
  ~ (forall R s p k, dict_get k p <> None -> k ∉ map fst s ->
       exists e, build_cli_args R s p = Err e).
Proof.
  intros H.
  destruct (H R0 [("n", m_int_req)] [("n", PStr "5"); ("x", PStr "--evil")] "x")
    as [e He].
  - discriminate.
  - vm_compute. intros Hx. inversion Hx as [|? ? ? Hx']; inversion Hx'.
  - vm_compute in He. discriminate.
Qed.

(** C1 (amended): [build_cli_args] ignores every parameter the schema
    does not declare: its outcome on [p] is its outcome on [p] with the
    undeclared keys removed, so no undeclared parameter reaches argv,
    and the effective map only has declared names as keys. *)
Theorem C1_undeclared_ignored R (s : list (string * meta)) (p : dict string pyval) :
  build_cli_args R s p = build_cli_args R s (filter (fun kv => kv.1 ∈ map fst s) p) /\
  (forall cli eff, build_cli_args R s p = Ok (cli, eff) ->
     forall x, x ∈ map fst eff -> x ∈ map fst s).
Proof.
  split.
  - apply go_filter. apply Forall_forall. intros nm Hnm.
    by apply (list_elem_of_fmap_2 fst).
  - intros cli eff H x Hx. destruct (go_eff_keys _ _ _ _ _ _ _ H x Hx) as [Hn|Hn]; [|done].
    simpl in Hn. set_solver.
Qed.

Lemma C1_witness :
  build_cli_args R0 [("n", m_int_req)] [("n", PStr "5"); ("x", PStr "--evil")]
    = Ok ([PStr "--n"; PStr "5"], [("n", PInt 5)]) /\
  (forall x, x ∈ map fst [("n", PInt 5)] -> x ∈ map fst [("n", m_int_req)]).
Proof.
  split; [reflexivity|].
  apply (proj2 (C1_undeclared_ignored R0 [("n", m_int_req)]
                 [("n", PStr "5"); ("x", PStr "--evil")]) [PStr "--n"; PStr "5"]).
  reflexivity.
Defined.

(** C4: on success the argv consists of one [flag, value] pair per
    declared parameter that is present in the input, in the schema's
    declaration order; and two input maps holding the same key-value
    pairs in different orders give the same outcome. *)
Theorem C4_declaration_order R (s : list (string * meta)) (p : dict string pyval) :
  (forall cli eff, build_cli_args R s p = Ok (cli, eff) ->
     exists sub : list ((string * meta) * pyval),
       map fst sub = filter (present p) s /\ cli = concat (map tokens sub)) /\
  (forall p' : dict string pyval, NoDup (map fst p) -> p ≡ₚ p' ->
     build_cli_args R s p = build_cli_args R s p').
Proof.
  split.
  - intros cli eff H. destruct (go_ok_shape _ _ _ _ _ _ _ H) as (sub & Hf & Hc & _).
    by exists sub.
  - intros p' Hnd Hp. apply go_ext. intros k. by apply dict_get_perm.
Qed.

Definition m_flag_only (f : string) : meta :=
  {| m_flag := Some (PStr f); m_type := None; m_required := Some (PBool true) |}.

Lemma C4_witness :
  NoDup (map fst [("a", PStr "1"); ("b", PStr "2")]) /\
  [("a", PStr "1"); ("b", PStr "2")] ≡ₚ [("b", PStr "2"); ("a", PStr "1")] /\
  build_cli_args R0 [("b", m_flag_only "--b"); ("a", m_flag_only "--a")]
                 [("a", PStr "1"); ("b", PStr "2")]
  = build_cli_args R0 [("b", m_flag_only "--b"); ("a", m_flag_only "--a")]
                 [("b", PStr "2"); ("a", PStr "1")].
Proof.
  assert (NoDup (map fst [("a", PStr "1"); ("b", PStr "2")])) as Hnd.
  { simpl. constructor; [set_solver|]. constructor; [set_solver|constructor]. }
  assert ([("a", PStr "1"); ("b", PStr "2")] ≡ₚ [("b", PStr "2"); ("a", PStr "1")]) as Hp.
  { apply perm_swap. }
  split; [exact Hnd|]. split; [exact Hp|].
  exact (proj2 (C4_declaration_order R0 [("b", m_flag_only "--b"); ("a", m_flag_only "--a")]
                  [("a", PStr "1"); ("b", PStr "2")]) _ Hnd Hp).
Defined.

(** C9: a declared [bool] parameter supplied as a string contributes the
    pair [flag, "1"] when the lowercased string is one of ["true"], ["1"],
    ["yes"], and [flag, "0"] for every other string. *)
Theorem C9_bool_canonical R (s : list (string * meta)) (p : dict string pyval)
    cli eff n m str :
  (n, m) ∈ s -> type_of m = PStr "bool" -> param_get p n = PStr str ->
  build_cli_args R s p = Ok (cli, eff) ->
  exists l1 l2,
    cli = l1 ++ [flag_of m;
                 PStr (if bool_decide (lower str ∈ ["true"; "1"; "yes"]) then "1" else "0")]
            ++ l2.
Proof.
  intros Hin Hty Hp H.
  destruct (go_ok_shape _ _ _ _ _ _ _ H) as (sub & Hf & Hc & Hv).
  assert ((n, m) ∈ map fst sub) as Hsub.
  { rewrite Hf. apply list_elem_of_filter. split; [|done].
    unfold present; simpl. by rewrite Hp. }
  apply list_elem_of_fmap in Hsub as (e & He1 & He). symmetry in He1.
  rewrite Forall_forall in Hv. specialize (Hv e He).
  rewrite He1 in Hv. simpl in Hv. rewrite Hty, Hp, coerce_bool in Hv.
  destruct (concat_elem_infix sub e He) as (l1 & l2 & Hcat).
  exists l1, l2. rewrite Hc, Hcat. simpl. unfold tokens.
  rewrite He1. simpl. injection Hv as <-.
  by destruct (bool_decide _).
Qed.

Definition m_bool : meta :=
  {| m_flag := Some (PStr "-v"); m_type := Some (PStr "bool"); m_required := None |}.

Lemma C9_witness :
  ("v", m_bool) ∈ [("v", m_bool)] /\ type_of m_bool = PStr "bool" /\
  param_get [("v", PStr "TRUE")] "v" = PStr "TRUE" /\
  build_cli_args R0 [("v", m_bool)] [("v", PStr "TRUE")] = Ok ([PStr "-v"; PStr "1"], [("v", PInt 1)]) /\
  exists l1 l2, [PStr "-v"; PStr "1"] =
    l1 ++ [flag_of m_bool;
           PStr (if bool_decide (lower "TRUE" ∈ ["true"; "1"; "yes"]) then "1" else "0")] ++ l2.
Proof.
  assert (("v", m_bool) ∈ [("v", m_bool)]) as H1 by (left).
  repeat split; try exact H1; try reflexivity.
  apply (C9_bool_canonical R0 [("v", m_bool)] [("v", PStr "TRUE")] _ [("v", PInt 1)] "v" m_bool "TRUE");
    [exact H1|reflexivity|reflexivity|reflexivity].
Defined.

End MarshalFacts.

(* ------------------------------------------------------------------ *)
(** ** The process executor *)

Module ExecutorFacts.
Import Py Marshal Executor MarshalFacts.

Lemma dict_get_set (k : Z) (h : pid * string) d : dict_get k (dict_set k h d) = Some h.
Proof.
  induction d as [|[k' v'] d IH]; cbn [dict_set dict_get].
  - by case_bool_decide.
  - case_bool_decide; cbn [dict_get]; case_bool_decide; done.
Qed.

Lemma dict_mem_set (k : Z) (h : pid * string) d : dict_mem k (dict_set k h d) = true.
Proof. unfold dict_mem. by rewrite dict_get_set. Qed.

Lemma dict_del_set_absent (k : Z) (h : pid * string) d :
  dict_mem k d = false -> dict_del k (dict_set k h d) = d.
Proof.
  unfold dict_mem. induction d as [|[k' v'] d IH]; cbn [dict_set dict_get dict_del].
  - intros _. by case_bool_decide.
  - case_bool_decide; [discriminate|].
    intros Hd. cbn [dict_del]. case_bool_decide; [done|]. f_equal. auto.
Qed.

(** A missing required parameter makes [go] raise, whatever precedes it. *)
Lemma go_missing_raises R s p cli eff n m :
  (n, m) ∈ s -> truthy (required_of m) = true -> param_get p n = PNone ->
  exists e, go R s p cli eff = Err e.
Proof.
  intros Hin Hreq Hp. revert cli eff.
  induction s as [|[n' m'] s IH]; intros cli eff; [inversion Hin|].
  apply elem_of_cons in Hin as [Heq|Hin].
  - injection Heq as -> ->. simpl. rewrite decide_True by done. rewrite Hreq. eauto.
  - cbn [go]. destruct (decide _).
    + destruct (truthy (required_of m')); [eauto|]. apply IH, Hin.
    + destruct (coerce _ _ _); cbn [bind]; [apply IH, Hin|eauto].
Qed.

Definition m_a_req : meta :=
  {| m_flag := Some (PStr "--a"); m_type := Some (PStr "int"); m_required := Some (PBool true) |}.

(** C3 (as stated): with a required parameter absent, marshaling fails
    with the MissingParameter error naming that parameter -- refuted:
    with two required parameters absent, the error names the first one
    in declaration order. *)
Lemma C3_counterexample :
  ~ (forall R s p n m, (n, m) ∈ s -> truthy (required_of m) = true ->
       param_get p n = PNone ->
       build_cli_args R s p = Err (ValueError ("missing required param: " ++ n))).
Proof.
  intros H.
  specialize (H R0 [("a", m_a_req); ("n", m_int_req)] [] "n" m_int_req).
  assert (("n", m_int_req) ∈ [("a", m_a_req); ("n", m_int_req)]) as Hin by (right; left).
  specialize (H Hin eq_refl eq_refl). vm_compute in H. discriminate.
Qed.

(** C3 (amended): a required parameter that is absent (or [None]) makes
    [build_cli_args] raise, so no argv is returned; the error is the
    MissingParameter error naming it whenever the parameters declared
    before it marshal without error; and [_execute_script] then raises
    before spawning anything, with the state untouched. *)
Theorem C3_missing_required R W sc (s : list (string * meta)) (p : dict string pyval)
    pre post n m (st : xstate) :
  s = pre ++ (n, m) :: post -> truthy (required_of m) = true -> param_get p n = PNone ->
  (exists e, build_cli_args R s p = Err e) /\
  ((exists r, go R pre p [] [] = Ok r) ->
     build_cli_args R s p = Err (ValueError ("missing required param: " ++ n))) /\
  (forall e, build_cli_args R s p = Err e -> execute_script R W sc s p st = (Err e, st, [])).
Proof.
  intros Hs Hreq Hp. split; [|split].
  - apply (go_missing_raises R s p [] [] n m); [|done|done].
    rewrite Hs. apply elem_of_app. right. left.
  - intros [[c e] Hpre]. unfold build_cli_args. rewrite Hs, go_app, Hpre. simpl.
    rewrite decide_True by done. by rewrite Hreq.
  - intros e He. unfold execute_script, mbind. rewrite He. reflexivity.
Qed.

Lemma C3_witness :
  [("n", m_int_req)] = [] ++ ("n", m_int_req) :: [] /\
  truthy (required_of m_int_req) = true /\ param_get [] "n" = PNone /\
  build_cli_args R0 [("n", m_int_req)] [] = Err (ValueError "missing required param: n") /\
  build_cli_args R0 [("n", m_int_req)] [("n", PStr "5")] = Ok ([PStr "--n"; PStr "5"], [("n", PInt 5)]) /\
  build_cli_args R0 [("n", m_int_req)] [] = Err (ValueError ("missing required param: " ++ "n")).
Proof.
  do 5 (split; [reflexivity|]).
  apply (proj1 (proj2 (C3_missing_required R0
    {| w_popen_error := None; w_wait := WaitTimeout; w_json := fun _ => None;
       w_save_error := None; w_output_url := EmptyString; w_output_name := EmptyString;
       w_elapsed_ms := 0 |}
    {| sc_id := 1; sc_filename := "n.py"; sc_script_type := "python"; sc_notify_enabled := None |}
    [("n", m_int_req)] [] [] [] "n" m_int_req
    {| running_processes := []; alive := []; next_pid := 100; spawned := []; runs := [];
       last_run := []; notified := []; saved_outputs := [] |}
    eq_refl eq_refl eq_refl))).
  exists ([], []). reflexivity.
Defined.

Lemma dict_mem_not_in (k : Z) (d : dict Z (pid * string)) :
  dict_mem k d = false -> k ∉ map fst d.
Proof.
  unfold dict_mem. induction d as [|[k' v'] d IH]; cbn [dict_get map fst]; [set_solver|].
  case_bool_decide; [discriminate|]. intros Hd. rewrite elem_of_cons. intros [->|Hk]; [done|].
  by apply IH.
Qed.

Lemma dict_get_not_mem (k : Z) (d : dict Z (pid * string)) :
  dict_mem k d = false -> dict_get k d = None.
Proof. unfold dict_mem. by destruct (dict_get k d). Qed.

Ltac run_executor Hfree :=
  unfold execute_script, try_except, try_finally, popen, communicate, reg_add, reg_del,
    on_success, on_failure, on_timeout, on_exception, update_last_run, insert_run,
    notify_if, save_binary_output, mbind, mret, raise, modify, mget, set_running, lift;
  repeat first [ progress cbn -[dict_mem dict_set dict_del dict_get]
               | rewrite dict_mem_set | rewrite (dict_del_set_absent _ _ _ Hfree)
               | rewrite Hfree
               | match goal with
                 | |- context [w_wait ?W] => destruct (w_wait W)
                 | |- context [w_popen_error ?W] => destruct (w_popen_error W)
                 | |- context [w_json ?W ?o] => destruct (w_json W o)
                 | |- context [w_save_error ?W] => destruct (w_save_error W)
                 | |- context [forallb is_str ?c] => destruct (forallb is_str c)
                 | |- context [bool_decide ?P] => destruct (bool_decide P)
                 | |- context [(?a =? ?b)%Z] => destruct (a =? b)%Z
                 end ].

(** C10: started with the script's id absent from [running_processes]
    (no overlapping run of the same script), every outcome of
    [_execute_script] -- marshaling error, spawn error, JSON or binary
    success, non-zero exit, timeout or any other exception -- leaves the
    id absent from [get_running_scripts] when it returns; and every
    intermediate state in which the registry holds the id maps it to the
    child just spawned, before any run-ledger row of the attempt is
    written. *)
Theorem C10_registry_cleared R W sc (schema : list (string * meta)) (p : dict string pyval)
    (st : xstate) :
  dict_mem (sc_id sc) (running_processes st) = false ->
  let '(_, st', tr) := execute_script R W sc schema p st in
  (sc_id sc ∉ get_running_scripts st') /\
  Forall (fun x => dict_mem (sc_id sc) (running_processes x) = true ->
                   runs x = runs st /\
                   dict_get (sc_id sc) (running_processes x) = Some (next_pid st, sc_filename sc)) tr.
Proof.
  intros Hfree.
  destruct (build_cli_args R schema p) as [[cli eff]|e] eqn:Hb;
    unfold execute_script, mbind, lift; rewrite Hb; fold (@mbind); [|cbn; split; [by apply dict_mem_not_in | constructor]].
  run_executor Hfree.
  all: split; [by apply dict_mem_not_in|].
  all: repeat apply Forall_cons_2; try apply Forall_nil_2; cbn [running_processes runs]; intros Hm;
       first [ rewrite Hfree in Hm; discriminate | split; [reflexivity | apply dict_get_set] ].
Qed.

Definition W_exit0 : world :=
  {| w_popen_error := None; w_wait := Exited 0 "{}" EmptyString; w_json := fun t => Some t;
     w_save_error := None; w_output_url := EmptyString; w_output_name := EmptyString;
     w_elapsed_ms := 12 |}.

Definition sc_sleep : script :=
  {| sc_id := 7; sc_filename := "sleepy.py"; sc_script_type := "python";
     sc_notify_enabled := None |}.

Definition st0 : xstate :=
  {| running_processes := []; alive := []; next_pid := 100; spawned := []; runs := [];
     last_run := []; notified := []; saved_outputs := [] |}.

Lemma C10_witness :
  dict_mem (sc_id sc_sleep) (running_processes st0) = false /\
  (let '(_, st', tr) := execute_script R0 W_exit0 sc_sleep [] [] st0 in
   (sc_id sc_sleep ∉ get_running_scripts st') /\
   Forall (fun x => dict_mem (sc_id sc_sleep) (running_processes x) = true ->
                    runs x = runs st0 /\
                    dict_get (sc_id sc_sleep) (running_processes x) =
                      Some (next_pid st0, sc_filename sc_sleep)) tr).
Proof.
  split; [reflexivity|].
  exact (C10_registry_cleared R0 W_exit0 sc_sleep [] [] st0 eq_refl).
Defined.

Definition W_timeout : world :=
  {| w_popen_error := None; w_wait := WaitTimeout; w_json := fun _ => None;
     w_save_error := None; w_output_url := EmptyString; w_output_name := EmptyString;
     w_elapsed_ms := 600000 |}.

(** C2 (code bug): when the child outlives the timeout, [_execute_script]
    records the attempt as timed out -- result stderr "timeout", code 504,
    exactly one run row with status 3 and stderr "timeout", no payload --
    but never kills the child: [communicate] does not kill it on
    [TimeoutExpired] and no handler does, so its pid is still alive when
    the call returns, and since the registry entry is gone,
    [terminate_script] can no longer reach it. *)
Theorem C2_timeout_child_not_killed R W sc (schema : list (string * meta))
    (p : dict string pyval) (st : xstate) cli eff :
  build_cli_args R schema p = Ok (cli, eff) ->
  forallb is_str (command sc cli) = true ->
  w_popen_error W = None -> w_wait W = WaitTimeout ->
  dict_mem (sc_id sc) (running_processes st) = false ->
  let '(r, st', _) := execute_script R W sc schema p st in
  r = Ok {| x_status := "error"; x_duration_ms := w_elapsed_ms W; x_data := None;
            x_file := None; x_stderr := Some "timeout"; x_code := Some 504;
            x_run_id := Z.of_nat (length (runs st)) + 1 |} /\
  runs st' = runs st ++ [mk_row sc (w_elapsed_ms W) 3 p None (Some "timeout") None] /\
  saved_outputs st' = saved_outputs st /\
  next_pid st ∈ alive st' /\
  dict_get (sc_id sc) (running_processes st') = None /\
  (forall T, (terminate_script T (sc_id sc) st').1.1 =
    Ok {| t_status := "error"; t_message := "脚本未在运行中" |}).
Proof.
  intros Hb Hc Hpop Hw Hfree.
  unfold execute_script, mbind, lift. rewrite Hb. fold (@mbind).
  unfold try_except, try_finally, popen, communicate, reg_add, reg_del, on_timeout,
    update_last_run, insert_run, notify_if, mbind, mret, raise, modify, mget, set_running.
  rewrite Hc, Hpop, Hw.
  repeat first [ progress cbn -[dict_mem dict_set dict_del dict_get]
               | rewrite dict_mem_set | rewrite (dict_del_set_absent _ _ _ Hfree)
               | rewrite Hfree | rewrite bool_decide_true by done ].
  destruct (bool_decide (sc_notify_enabled sc = Some 1));
    cbn -[dict_mem dict_set dict_del dict_get];
    (split; [reflexivity|]); (split; [reflexivity|]); (split; [reflexivity|]);
    (split; [apply elem_of_cons; by left|]).
  all: unfold terminate_script, mbind, mget, mret; rewrite (dict_get_not_mem _ _ Hfree);
       split; [reflexivity|]; intros T; reflexivity.
Qed.

Lemma C2_witness :
  build_cli_args R0 [] [] = Ok ([], []) /\
  forallb is_str (command sc_sleep []) = true /\
  w_popen_error W_timeout = None /\ w_wait W_timeout = WaitTimeout /\
  dict_mem (sc_id sc_sleep) (running_processes st0) = false /\
  (let '(r, st', _) := execute_script R0 W_timeout sc_sleep [] [] st0 in
   r = Ok {| x_status := "error"; x_duration_ms := w_elapsed_ms W_timeout; x_data := None;
             x_file := None; x_stderr := Some "timeout"; x_code := Some 504;
             x_run_id := Z.of_nat (length (runs st0)) + 1 |} /\
   runs st' = runs st0 ++ [mk_row sc_sleep (w_elapsed_ms W_timeout) 3 [] None (Some "timeout") None] /\
   saved_outputs st' = saved_outputs st0 /\
   next_pid st0 ∈ alive st' /\
   dict_get (sc_id sc_sleep) (running_processes st') = None /\
   (forall T, (terminate_script T (sc_id sc_sleep) st').1.1 =
     Ok {| t_status := "error"; t_message := "脚本未在运行中" |})).
Proof.
  do 5 (split; [reflexivity|]).
  exact (C2_timeout_child_not_killed R0 W_timeout sc_sleep [] [] st0 [] []
           eq_refl eq_refl eq_refl eq_refl eq_refl).
Defined.

End ExecutorFacts.

(* ------------------------------------------------------------------ *)
(** ** The dependency cache *)

Module DepsFacts.
Import Py Deps.

Lemma is_prefix_refl (p : path) : is_prefix p p = true.
Proof. induction p as [|x p IH]; [done|]. cbn. by rewrite String.eqb_refl, IH. Qed.

Lemma rmtree_not_dir (p : path) (s : dstate) : is_dir p (rmtree p s) = false.
Proof.
  unfold is_dir, rmtree. cbn [d_dirs]. apply bool_decide_eq_false_2.
  rewrite list_elem_of_filter, is_prefix_refl. by intros [? _].
Qed.

Lemma fold_add_mono (f : nat -> path) (l : list nat) (ds : list path) (x : path) :
  x ∈ ds -> x ∈ fold_left (fun ds n => add_dir (f n) ds) l ds.
Proof.
  revert ds. induction l as [|n l IH]; intros ds Hx; [done|]. cbn. apply IH.
  unfold add_dir. case_bool_decide; [done|]. rewrite elem_of_app. by left.
Qed.

Lemma fold_add_in (f : nat -> path) (l : list nat) (ds : list path) (n : nat) :
  n ∈ l -> f n ∈ fold_left (fun ds n => add_dir (f n) ds) l ds.
Proof.
  revert ds. induction l as [|m l IH]; intros ds Hn; [inversion Hn|]. cbn.
  apply elem_of_cons in Hn as [->|Hn]; [|by apply IH].
  apply fold_add_mono. unfold add_dir. case_bool_decide; [done|].
  rewrite elem_of_app, list_elem_of_singleton. by right.
Qed.

Lemma makedirs_mono (p : path) (s : dstate) (x : path) :
  x ∈ d_dirs s -> x ∈ d_dirs (makedirs p s).
Proof. intros Hx. unfold makedirs. cbn [d_dirs]. by apply (fold_add_mono (fun n => firstn n p)). Qed.

Lemma makedirs_self (p : path) (s : dstate) : p <> [] -> p ∈ d_dirs (makedirs p s).
Proof.
  intros Hp. unfold makedirs. cbn [d_dirs].
  rewrite <- (firstn_all p) at 1.
  apply (fold_add_in (fun n => firstn n p)).
  apply elem_of_seq. destruct p; [done|]. cbn. lia.
Qed.

Lemma write_files_mono (dir : path) (fs : list (path * string)) (s : dstate) (x : path) :
  x ∈ d_dirs s -> x ∈ d_dirs (write_files dir fs s).
Proof.
  unfold write_files. revert s. induction fs as [|f fs IH]; intros s Hx; [done|].
  cbn. apply IH. unfold write_file. cbn [d_dirs]. by apply makedirs_mono.
Qed.

Lemma pm_complete_dir (target : path) (later : list (path * string)) (s : dstate) :
  target <> [] -> (target, later) ∈ d_pm_running s ->
  is_dir target (pm_complete target s) = true.
Proof.
  intros Ht Hin. unfold pm_complete.
  destruct (find _ _) as [[t l]|] eqn:Hf.
  - unfold is_dir. cbn [d_dirs]. apply bool_decide_eq_true_2.
    apply write_files_mono, makedirs_self, Ht.
  - exfalso. eapply find_none in Hf; [|apply list_elem_of_In, Hin].
    cbn in Hf. by rewrite bool_decide_true in Hf.
Qed.

Lemma get_cache_path_nonempty (base : path) (h rt : string) : get_cache_path base h rt <> [].
Proof. unfold get_cache_path. intros H. apply (f_equal length) in H. rewrite length_app in H. cbn in H. lia. Qed.

Lemma finish_failed_removes (W : install_world) (cp : path) (s : dstate) :
  let '(r, s') := finish W cp s in i_success r = false -> is_cache_valid cp s' = false.
Proof.
  unfold finish. destruct (iw_outcome W) as [rc out| |e]; cbn; try (intros _; apply rmtree_not_dir).
  destruct (rc =? 0); [|intros _; apply rmtree_not_dir].
  destruct (iw_meta_error W); [intros _; apply rmtree_not_dir|done].
Qed.

Ltac fail_paths :=
  repeat match goal with
  | |- context [match ?x with Some _ => _ | None => _ end] =>
      lazymatch x with
      | context [finish] => fail
      | _ => destruct x
      end
  end;
  first [ intros _; apply rmtree_not_dir | apply finish_failed_removes ].

Lemma install_python_failed_removes W base deps force s :
  let cp := get_cache_path base (calculate_deps_hash deps) "python" in
  let '(r, s') := install_python W base deps force s in
  i_success r = false -> is_cache_valid cp s' = false.
Proof.
  cbv zeta. unfold install_python.
  destruct (negb force && is_cache_valid _ s); [done|]. fail_paths.
Qed.

Lemma install_nodejs_failed_removes W base deps force s :
  let cp := get_cache_path base (calculate_deps_hash deps) "nodejs" in
  let '(r, s') := install_nodejs W base deps force s in
  i_success r = false -> is_cache_valid cp s' = false.
Proof.
  cbv zeta. unfold install_nodejs.
  destruct (negb force && is_cache_valid _ s); [done|]. fail_paths.
Qed.

(** C5 (code bug): every failure path of [_install_python_deps_with_cache]
    and [_install_nodejs_deps_with_cache] removes the cache directory
    before returning (lemmas [install_python_failed_removes] and
    [install_nodejs_failed_removes]), but on a timeout the cache manager
    does not kill pip: [communicate(timeout=300)] leaves it running, the
    directory is removed under it, and when pip finishes it recreates the
    [--target] directory. After a timed-out, failed install the entry is
    then reported valid by [is_cache_valid], and the next request without
    [force_reinstall] returns it as a cache hit, although the install it
    came from failed and never wrote its [.deps_meta.json]. *)
Theorem C5_timeout_leaves_valid_entry (W W' : install_world) (base : path) (deps : list dep)
    (force : bool) (s : dstate) (cp : path) :
  cp = get_cache_path base (calculate_deps_hash deps) "python" ->
  iw_makedirs_error W = None -> iw_popen_error W = None -> iw_outcome W = PmTimeout ->
  (force = true \/ is_cache_valid cp s = false) ->
  let '(r, s') := install_python W base deps force s in
  i_success r = false /\ is_cache_valid cp s' = false /\
  is_cache_valid cp (pm_complete cp s') = true /\
  install_python W' base deps false (pm_complete cp s') = (hit cp, pm_complete cp s').
Proof.
  intros Hcp Hmk Hpop Hout Hforce.
  pose proof (install_python_failed_removes W base deps force s) as Hrm. cbv zeta in Hrm.
  rewrite <- Hcp in Hrm.
  unfold install_python in *. rewrite <- Hcp in *.
  assert (negb force && is_cache_valid cp s = false) as Hn
    by (destruct Hforce as [->| ->]; [done|by destruct force]).
  rewrite Hn in Hrm |- *. rewrite Hmk, Hpop in Hrm |- *.
  unfold finish in Hrm |- *. rewrite Hout in Hrm |- *. cbn [fst snd] in Hrm.
  assert (is_cache_valid cp
           (pm_complete cp (rmtree cp (leave_running cp (iw_later W)
              (write_files cp (iw_partial W)
                 (invoke (["python3"; "-m"; "pip"; "install"; "--target"; path_str cp]
                          ++ map dep_spec deps) (makedirs cp s)))))) = true) as Hv.
  { apply (pm_complete_dir cp (iw_later W)); [rewrite Hcp; apply get_cache_path_nonempty|].
    cbn [rmtree leave_running d_pm_running]. rewrite elem_of_app. right. by left. }
  split; [done|]. split; [by apply Hrm|]. split; [done|].
  rewrite Hv. reflexivity.
Qed.


Definition req20 : dep := {| dep_name := "requests"; dep_version := "==2.0" |}.
Definition req10 : dep := {| dep_name := "requests"; dep_version := ">=1.0" |}.
Definition flask20 : dep := {| dep_name := "flask"; dep_version := "==2.0" |}.

Definition W_pip_timeout : install_world :=
  {| iw_makedirs_error := None; iw_pkg_json_error := None; iw_popen_error := None;
     iw_partial := [(["requests"; "__init__.py"], "partial")];
     iw_outcome := PmTimeout;
     iw_later := [(["requests"; "__init__.py"], "import api"); (["requests"; "api.py"], "def get(): pass")];
     iw_meta_error := None |}.

Definition d_empty : dstate :=
  {| d_dirs := []; d_files := []; d_invocations := []; d_pm_running := [] |}.

Definition base0 : path := ["deps_cache"].

Lemma C5_witness :
  get_cache_path base0 (calculate_deps_hash [req20]) "python" =
    get_cache_path base0 (calculate_deps_hash [req20]) "python" /\
  iw_makedirs_error W_pip_timeout = None /\ iw_popen_error W_pip_timeout = None /\
  iw_outcome W_pip_timeout = PmTimeout /\
  (false = true \/
   is_cache_valid (get_cache_path base0 (calculate_deps_hash [req20]) "python") d_empty = false) /\
  (let '(r, s') := install_python W_pip_timeout base0 [req20] false d_empty in
   i_success r = false /\
   is_cache_valid (get_cache_path base0 (calculate_deps_hash [req20]) "python") s' = false /\
   is_cache_valid (get_cache_path base0 (calculate_deps_hash [req20]) "python")
     (pm_complete (get_cache_path base0 (calculate_deps_hash [req20]) "python") s') = true /\
   install_python W_pip_timeout base0 [req20] false
     (pm_complete (get_cache_path base0 (calculate_deps_hash [req20]) "python") s') =
   (hit (get_cache_path base0 (calculate_deps_hash [req20]) "python"),
    pm_complete (get_cache_path base0 (calculate_deps_hash [req20]) "python") s')).
Proof.
  do 4 (split; [reflexivity|]). split; [right; reflexivity|].
  exact (C5_timeout_leaves_valid_entry W_pip_timeout W_pip_timeout base0 [req20] false d_empty
           _ eq_refl eq_refl eq_refl eq_refl (or_intror eq_refl)).
Defined.

Definition name_le (a b : dep) : Prop := String.le (dep_name a) (dep_name b).

#[local] Instance name_le_trans : Transitive name_le.
Proof. intros a b c. unfold name_le. apply (transitivity (R:=String.le)). Qed.

Lemma ltb_le (a b : string) : String.ltb a b = true -> String.le a b.
Proof.
  unfold String.ltb, String.le, String.leb. destruct (String.compare a b); done.
Qed.

Lemma not_ltb_le (a b : string) : String.ltb a b = false -> String.le b a.
Proof.
  unfold String.ltb, String.le, String.leb. rewrite String.compare_antisym.
  destruct (String.compare b a); done.
Qed.

Lemma insert_by_name_perm (x : dep) (l : list dep) : insert_by_name x l ≡ₚ x :: l.
Proof.
  induction l as [|y l IH]; [done|]. cbn. destruct (String.ltb _ _); [done|].
  rewrite IH. constructor.
Qed.

Lemma insert_by_name_sorted (x : dep) (l : list dep) :
  StronglySorted name_le l -> StronglySorted name_le (insert_by_name x l).
Proof.
  induction l as [|y l IH]; intros Hl; cbn; [by repeat constructor|].
  inversion Hl as [|? ? Hl' Hy]; subst.
  destruct (String.ltb (dep_name x) (dep_name y)) eqn:Hxy.
  - constructor; [done|]. constructor; [apply ltb_le, Hxy|].
    eapply Forall_impl; [exact Hy|]. intros z Hz. etrans; [apply ltb_le, Hxy|exact Hz].
  - constructor; [by apply IH|]. rewrite (insert_by_name_perm x l).
    constructor; [apply not_ltb_le, Hxy|done].
Qed.

Lemma sort_go_perm (l acc : list dep) :
  fold_left (fun acc x => insert_by_name x acc) l acc ≡ₚ l ++ acc.
Proof.
  revert acc. induction l as [|x l IH]; intros acc; [done|]. cbn.
  rewrite IH, insert_by_name_perm. symmetry. apply Permutation_middle.
Qed.

Lemma sort_go_sorted (l acc : list dep) :
  StronglySorted name_le acc ->
  StronglySorted name_le (fold_left (fun acc x => insert_by_name x acc) l acc).
Proof.
  revert acc. induction l as [|x l IH]; intros acc Hacc; [done|]. cbn.
  apply IH, insert_by_name_sorted, Hacc.
Qed.

Lemma sort_by_name_perm (l : list dep) : sort_by_name l ≡ₚ l.
Proof. unfold sort_by_name. rewrite sort_go_perm. by rewrite app_nil_r. Qed.

Lemma sort_by_name_sorted (l : list dep) : StronglySorted name_le (sort_by_name l).
Proof. apply sort_go_sorted. constructor. Qed.

Lemma NoDup_map_eq {A B} (f : A -> B) (l : list A) (x y : A) :
  NoDup (map f l) -> x ∈ l -> y ∈ l -> f x = f y -> x = y.
Proof.
  induction l as [|z l IH]; intros Hnd Hx Hy Hf; [inversion Hx|].
  cbn in Hnd. apply NoDup_cons in Hnd as [Hz Hnd].
  apply elem_of_cons in Hx as [->|Hx]; apply elem_of_cons in Hy as [->|Hy]; [done| | |by apply IH].
  - exfalso. apply Hz. rewrite Hf. apply list_elem_of_In, in_map, list_elem_of_In, Hy.
  - exfalso. apply Hz. rewrite <- Hf. apply list_elem_of_In, in_map, list_elem_of_In, Hx.
Qed.

Lemma sort_by_name_unique (l1 l2 : list dep) :
  NoDup (map dep_name l1) -> l1 ≡ₚ l2 -> sort_by_name l1 = sort_by_name l2.
Proof.
  intros Hnd Hp. apply (StronglySorted_unique_strong name_le).
  - intros x1 x2 H1 H2 H12 H21.
    rewrite sort_by_name_perm in H1. rewrite sort_by_name_perm, <- Hp in H2.
    apply (NoDup_map_eq dep_name l1); [done..|].
    unfold name_le in *. by apply (anti_symm String.le).
  - apply sort_by_name_sorted.
  - apply sort_by_name_sorted.
  - by rewrite !sort_by_name_perm.
Qed.

(** C6 (as stated): two dependency lists holding the same (name, version)
    pairs in different orders get the same cache key -- refuted: the
    sort is by name only and stable, so two entries for the same package
    (which the requirements parser does not merge) keep their input
    order, and the serialised lists, hence the keys, differ. *)
Lemma C6_counterexample :
  ~ (forall l1 l2 : list dep, l1 ≡ₚ l2 -> calculate_deps_hash l1 = calculate_deps_hash l2).
Proof.
  intros H. specialize (H [req20; req10] [req10; req20] (perm_swap _ _ _)).
  vm_compute in H. discriminate.
Qed.

(** C6 (amended): [calculate_deps_hash] takes only the dependency list,
    and for a list whose package names are pairwise distinct any
    reordering gives the same cache key. *)
Theorem C6_order_independent (l1 l2 : list dep) :
  NoDup (map dep_name l1) -> l1 ≡ₚ l2 -> calculate_deps_hash l1 = calculate_deps_hash l2.
Proof. intros Hnd Hp. unfold calculate_deps_hash. by rewrite (sort_by_name_unique l1 l2). Qed.

Lemma C6_witness :
  NoDup (map dep_name [req20; flask20]) /\ [req20; flask20] ≡ₚ [flask20; req20] /\
  calculate_deps_hash [req20; flask20] = calculate_deps_hash [flask20; req20].
Proof.
  assert (NoDup (map dep_name [req20; flask20])) as Hnd
    by (apply (bool_decide_unpack _); vm_compute; exact I).
  split; [exact Hnd|]. split; [apply perm_swap|].
  exact (C6_order_independent [req20; flask20] [flask20; req20] Hnd (perm_swap _ _ _)).
Defined.

(** C7: without [force_reinstall], when the cache directory for the
    dependency set already exists ([is_cache_valid]), both installers
    return success from cache ([success], [cache_path], [from_cache=True])
    with the state unchanged, so no package-manager command is invoked. *)
Theorem C7_cache_hit_no_invocation (W : install_world) (base : path) (deps : list dep)
    (s : dstate) :
  (is_cache_valid (get_cache_path base (calculate_deps_hash deps) "python") s = true ->
   install_python W base deps false s =
     (hit (get_cache_path base (calculate_deps_hash deps) "python"), s) /\
   d_invocations (install_python W base deps false s).2 = d_invocations s) /\
  (is_cache_valid (get_cache_path base (calculate_deps_hash deps) "nodejs") s = true ->
   install_nodejs W base deps false s =
     (hit (get_cache_path base (calculate_deps_hash deps) "nodejs"), s) /\
   d_invocations (install_nodejs W base deps false s).2 = d_invocations s).
Proof.
  split; intros Hv.
  - assert (install_python W base deps false s =
              (hit (get_cache_path base (calculate_deps_hash deps) "python"), s)) as He
      by (unfold install_python; by rewrite Hv).
    by rewrite He.
  - assert (install_nodejs W base deps false s =
              (hit (get_cache_path base (calculate_deps_hash deps) "nodejs"), s)) as He
      by (unfold install_nodejs; by rewrite Hv).
    by rewrite He.
Qed.

Definition d_cached : dstate :=
  {| d_dirs := [get_cache_path base0 (calculate_deps_hash [req20]) "python";
                get_cache_path base0 (calculate_deps_hash [req20]) "nodejs"];
     d_files := []; d_invocations := []; d_pm_running := [] |}.

Lemma C7_witness :
  is_cache_valid (get_cache_path base0 (calculate_deps_hash [req20]) "python") d_cached = true /\
  install_python W_pip_timeout base0 [req20] false d_cached =
    (hit (get_cache_path base0 (calculate_deps_hash [req20]) "python"), d_cached) /\
  is_cache_valid (get_cache_path base0 (calculate_deps_hash [req20]) "nodejs") d_cached = true /\
  install_nodejs W_pip_timeout base0 [req20] false d_cached =
    (hit (get_cache_path base0 (calculate_deps_hash [req20]) "nodejs"), d_cached).
Proof.
  assert (is_cache_valid (get_cache_path base0 (calculate_deps_hash [req20]) "python") d_cached = true)
    as Hp by (vm_compute; reflexivity).
  assert (is_cache_valid (get_cache_path base0 (calculate_deps_hash [req20]) "nodejs") d_cached = true)
    as Hn by (vm_compute; reflexivity).
  split; [exact Hp|]. split; [exact (proj1 (proj1 (C7_cache_hit_no_invocation W_pip_timeout base0 [req20] d_cached) Hp))|].
  split; [exact Hn|]. exact (proj1 (proj2 (C7_cache_hit_no_invocation W_pip_timeout base0 [req20] d_cached) Hn)).
Defined.

End DepsFacts.

(* ------------------------------------------------------------------ *)
(** ** The schema registrar *)

Module ScannerFacts.
Import Py Scanner.

(** The discovery command of lines 104-108. *)
Definition discovery_cmd (t path : string) : list string :=
  if String.eqb t "python" then ["python3"; path; "--_sys_get_schema"]
  else ["node"; path; "--_sys_get_schema"].

Definition a_path : string := "scripts_repo/python/a.py".
Definition a_text : string := "if __name__ == '__main__': main()".

Definition W_schema : sworld :=
  {| sw_discover := fun _ => DExited 0 "{}" EmptyString; sw_json := fun t => Ok t;
     sw_sidecar := fun _ => WriteOk |}.

Definition a_row : srow :=
  {| row_script_type := "python"; row_file_hash := MD5.hexdigest (MD5.bytes_of a_text);
     row_status_load := 1; row_load_error_msg := None; row_args_schema := Some "{}" |}.

(** The catalog after a first scan of [a.py]: its row records the hash
    of the unchanged file. *)
Definition s_scanned : sstate :=
  {| s_files := [(a_path, a_text)]; s_unreadable := [];
     s_scripts := [("a.py", a_row)];
     s_discoveries := [["python3"; a_path; "--_sys_get_schema"]] |}.

(** C8 (as stated): when the file's hash equals the one recorded in its
    catalog row, [parse_and_register] does not run the discovery
    subprocess again -- refuted: [a.py], unchanged since the scan that
    recorded its hash, is discovered again. *)
Lemma C8_counterexample :
  ~ (forall W path s t r,
       detect_script_type path = Some t ->
       dict_get (relpath path (if String.eqb t "python" then SCRIPTS_PY_DIR else SCRIPTS_JS_DIR))
                (s_scripts s) = Some r ->
       row_file_hash r = md5_file path s ->
       s_discoveries (parse_and_register W path s) = s_discoveries s).
Proof.
  intros H.
  assert (dict_get (relpath a_path SCRIPTS_PY_DIR) (s_scripts s_scanned) = Some a_row) as Hr
    by reflexivity.
  assert (row_file_hash a_row = md5_file a_path s_scanned) as Hh by (vm_compute; reflexivity).
  assert (detect_script_type a_path = Some "python") as Hd by reflexivity.
  specialize (H W_schema a_path s_scanned "python" a_row Hd Hr Hh).
  clear Hd Hr Hh. vm_compute in H. discriminate H.
Qed.

(** C8 (amended): [parse_and_register] never compares the file's hash
    with the recorded one: for any script of a known type whose
    entrypoint check passes it runs the discovery command exactly once,
    whatever the catalog holds; without an entrypoint, or for a file of
    another type, it runs none. *)
Theorem C8_discovery_every_scan (W : sworld) (path : string) (s : sstate) :
  match detect_script_type path with
  | Some t =>
      (has_entrypoint path t s = true ->
       s_discoveries (parse_and_register W path s) = s_discoveries s ++ [discovery_cmd t path]) /\
      (has_entrypoint path t s = false ->
       s_discoveries (parse_and_register W path s) = s_discoveries s)
  | None => s_discoveries (parse_and_register W path s) = s_discoveries s
  end.
Proof.
  unfold parse_and_register. destruct (detect_script_type path) as [t|]; [|done].
  split; intros He; rewrite He; [|done].
  cbn [negb]. unfold run_get_schema, write_sidecar, discovery_cmd.
  destruct (sw_discover W path) as [rc out err|e]; [destruct (rc =? 0)|];
    cbn [fst snd]; try destruct (sw_json W _); try destruct (sw_sidecar W _);
    destruct (String.eqb t "python"); reflexivity.
Qed.

Lemma C8_witness :
  has_entrypoint a_path "python" s_scanned = true /\
  s_discoveries (parse_and_register W_schema a_path s_scanned) =
    s_discoveries s_scanned ++ [discovery_cmd "python" a_path] /\
  s_discoveries (parse_and_register W_schema "scripts_repo/python/notes.txt" s_scanned) =
    s_discoveries s_scanned.
Proof.
  assert (He : has_entrypoint a_path "python" s_scanned = true) by (vm_compute; reflexivity).
  assert (Hd : detect_script_type a_path = Some "python") by reflexivity.
  assert (Hn : detect_script_type "scripts_repo/python/notes.txt" = None) by reflexivity.
  pose proof (C8_discovery_every_scan W_schema a_path s_scanned) as H1.
  pose proof (C8_discovery_every_scan W_schema "scripts_repo/python/notes.txt" s_scanned) as H2.
  rewrite Hd in H1. rewrite Hn in H2.
  split; [exact He|]. split; [exact (proj1 H1 He)|exact H2].
Defined.

End ScannerFacts.

Module DepsTextFacts.
Import Py Deps DepsText.

(** The first character of [s], if any, is not whitespace. *)
Definition head_ok (s : string) : bool :=
  match s with String c _ => negb (is_space c) | EmptyString => true end.

Lemma str_app_cons (c : ascii) (x y : string) :
  (String c x ++ y)%string = String c (x ++ y)%string.
Proof. reflexivity. Qed.

Lemma str_app_nil_l (x : string) : (EmptyString ++ x)%string = x.
Proof. reflexivity. Qed.

Lemma str_app_assoc (x y z : string) : (x ++ (y ++ z))%string = ((x ++ y) ++ z)%string.
Proof. induction x as [|c x IH]; [done|]. rewrite !str_app_cons. by rewrite IH. Qed.

Lemma str_app_nil_r (x : string) : (x ++ EmptyString)%string = x.
Proof. induction x as [|c x IH]; [done|]. rewrite str_app_cons. by rewrite IH. Qed.

Lemma str_length_app (x y : string) :
  String.length (x ++ y) = (String.length x + String.length y)%nat.
Proof. induction x as [|c x IH]; [done|]. rewrite str_app_cons. cbn. by rewrite IH. Qed.

Lemma rev_str_acc (s acc : string) : rev_str s acc = (rev_str s EmptyString ++ acc)%string.
Proof.
  revert acc; induction s as [|c s IH]; intros acc; [done|].
  cbn. rewrite IH, (IH (String c EmptyString)), <- str_app_assoc. done.
Qed.

Lemma rev_str_app (x y : string) :
  rev_str (x ++ y) EmptyString = (rev_str y EmptyString ++ rev_str x EmptyString)%string.
Proof.
  revert y; induction x as [|c x IH]; intros y.
  - cbn. by rewrite str_app_nil_r.
  - rewrite str_app_cons. cbn [rev_str].
    rewrite rev_str_acc, IH, (rev_str_acc x (String c EmptyString)), str_app_assoc. done.
Qed.

Lemma rev_str_involutive (s : string) : rev_str (rev_str s EmptyString) EmptyString = s.
Proof.
  induction s as [|c s IH]; [done|]. cbn [rev_str].
  rewrite (rev_str_acc s), rev_str_app, IH. reflexivity.
Qed.

Lemma rev_str_length (s : string) : String.length (rev_str s EmptyString) = String.length s.
Proof.
  induction s as [|c s IH]; [done|]. cbn [rev_str].
  rewrite rev_str_acc, str_length_app, IH. cbn. lia.
Qed.

Lemma lstrip_head_ok (s : string) : head_ok s = true -> lstrip s = s.
Proof. destruct s as [|c s]; cbn; [done|]. by destruct (is_space c). Qed.

Lemma head_ok_lstrip (s : string) : head_ok (lstrip s) = true.
Proof.
  induction s as [|c s IH]; [done|]. cbn.
  destruct (is_space c) eqn:E; [done|]. cbn. by rewrite E.
Qed.

Lemma lstrip_suffix (s : string) : exists p, s = (p ++ lstrip s)%string.
Proof.
  induction s as [|c s [p Hp]]; [by exists EmptyString|]. cbn.
  destruct (is_space c).
  - exists (String c p). rewrite str_app_cons. by rewrite <- Hp.
  - by exists EmptyString.
Qed.

Lemma head_ok_app (x y : string) : x <> EmptyString -> head_ok (x ++ y) = head_ok x.
Proof. by destruct x. Qed.

(** A string whose two ends are not whitespace is its own [strip]. *)
Lemma strip_id (s : string) :
  head_ok s = true -> head_ok (rev_str s EmptyString) = true -> strip s = s.
Proof.
  intros H1 H2. unfold strip.
  rewrite (lstrip_head_ok s H1), (lstrip_head_ok _ H2). apply rev_str_involutive.
Qed.

(** Both ends of [strip s] are not whitespace. *)
Lemma strip_ends (s : string) :
  head_ok (strip s) = true /\ head_ok (rev_str (strip s) EmptyString) = true.
Proof.
  unfold strip. rewrite rev_str_involutive. split; [|apply head_ok_lstrip].
  set (v := lstrip s). set (u := lstrip (rev_str v EmptyString)).
  destruct (lstrip_suffix (rev_str v EmptyString)) as [p Hp]. fold u in Hp.
  assert (Hv : v = (rev_str u EmptyString ++ rev_str p EmptyString)%string).
  { rewrite <- (rev_str_involutive v), Hp, rev_str_app. done. }
  assert (Hh : head_ok v = true) by apply head_ok_lstrip.
  destruct (decide (rev_str u EmptyString = EmptyString)) as [E|E]; [by rewrite E|].
  rewrite Hv, head_ok_app in Hh; done.
Qed.

Lemma strip_idem (s : string) : strip (strip s) = strip s.
Proof. destruct (strip_ends s). by apply strip_id. Qed.

Lemma substring_all (s : string) (m : nat) :
  (String.length s <= m)%nat -> substring 0 m s = s.
Proof.
  revert m; induction s as [|c s IH]; intros [|m] Hm; cbn in *; try done; [lia|].
  rewrite IH; [done|lia].
Qed.

Lemma substring_split (s : string) (k m : nat) :
  (String.length s <= k + m)%nat -> (substring 0 k s ++ substring k m s)%string = s.
Proof.
  revert k; induction s as [|c s IH]; intros [|k] Hm.
  - by destruct m.
  - by destruct m.
  - rewrite str_app_nil_l. apply substring_all. done.
  - cbn [substring]. rewrite str_app_cons, IH; [done|cbn in Hm; lia].
Qed.

Lemma req_search_some (k j : nat) (ln : string) :
  req_search k ln = Some j -> ops_rest (substring j (String.length ln) ln) = true.
Proof.
  induction k as [|k IH]; cbn [req_search]; [intros H; discriminate H|].
  destruct (ops_rest (substring (S k) _ ln)) eqn:E; [|exact IH]. intros H. injection H as <-. exact E.
Qed.

Lemma ops_rest_head (t : string) :
  ops_rest t = true -> exists o r, t = String o r /\ is_op_char o = true.
Proof.
  destruct t as [|o r]; cbn; [done|]. intros H. exists o, r. split; [done|].
  by apply andb_prop in H as [? _].
Qed.

Lemma op_not_space (c : ascii) : is_op_char c = true -> is_space c = false.
Proof.
  unfold is_op_char. intros H.
  repeat (apply orb_prop in H as [H|H]); apply Ascii.eqb_eq in H; subst; reflexivity.
Qed.

Lemma name_not_op (c : ascii) : is_name_char c = true -> is_op_char c = false.
Proof.
  intros H. destruct (is_op_char c) eqn:E; [|done].
  unfold is_op_char in E.
  repeat (apply orb_prop in E as [E|E]); apply Ascii.eqb_eq in E; subst; discriminate H.
Qed.

Lemma substring_suffix_cons (s : string) (j n : nat) :
  (j < name_run s)%nat -> (String.length s <= j + n)%nat ->
  exists c r, substring j n s = String c r /\ is_name_char c = true.
Proof.
  revert j n; induction s as [|c s IH]; intros j n Hj Hn; cbn in Hj; [lia|].
  destruct (is_name_char c) eqn:Ec; [|lia].
  destruct j as [|j].
  - cbn in Hn. destruct n as [|n]; [lia|]. by exists c, (substring 0 n s).
  - cbn [substring]. apply IH; cbn in Hn; lia.
Qed.

Lemma req_search_short (k : nat) (ln : string) :
  (k < name_run ln)%nat -> req_search k ln = None.
Proof.
  induction k as [|k IH]; intros Hk; cbn [req_search]; [done|].
  destruct (substring_suffix_cons ln (S k) (String.length ln)) as (c & r & Hs & Hc);
    [lia|lia|].
  rewrite Hs. cbn [ops_rest]. rewrite (name_not_op c Hc). cbn. apply IH. lia.
Qed.

(** Group 1 is the whole leading run of name characters, or nothing matches. *)
Lemma req_match_run (ln : string) :
  req_match ln = None \/ req_match ln = Some (name_run ln).
Proof.
  unfold req_match. destruct (name_run ln) as [|k] eqn:E; [by left|].
  cbn [req_search]. destruct (ops_rest _); [by right|].
  left. apply req_search_short. lia.
Qed.

Lemma version_strip (ln : string) (k : nat) :
  strip ln = ln -> ops_rest (substring k (String.length ln) ln) = true ->
  strip (substring k (String.length ln) ln) = substring k (String.length ln) ln.
Proof.
  intros Hs E.
  destruct (ops_rest_head _ E) as (o & r & Hb & Ho).
  set (b := substring k (String.length ln) ln) in *.
  set (a := substring 0 k ln).
  assert (Hab : (a ++ b)%string = ln) by (apply substring_split; lia).
  destruct (strip_ends ln) as [_ Hr]. rewrite Hs in Hr.
  apply strip_id.
  - rewrite Hb. cbn. by rewrite op_not_space.
  - rewrite <- Hab, rev_str_app, head_ok_app in Hr; [done|].
    intros Hn. apply (f_equal String.length) in Hn.
    rewrite rev_str_length, Hb in Hn. done.
Qed.

Lemma parse_req_lines_spec (lines : list string) :
  map dep_spec (parse_req_lines lines) =
  List.filter (fun ln => negb (String.eqb ln EmptyString || Scanner.starts_with "#" ln))
    (map strip lines).
Proof.
  induction lines as [|l r IH]; [done|]. cbn [parse_req_lines map List.filter].
  destruct (String.eqb (strip l) EmptyString || Scanner.starts_with "#" (strip l)); cbn;
    [done|].
  f_equal; [|done].
  unfold parse_req_line, dep_spec.
  destruct (req_match (strip l)) as [k|] eqn:E; cbn; [|apply str_app_nil_r].
  unfold req_match in E. apply req_search_some in E.
  rewrite version_strip; [|apply strip_idem|done].
  apply substring_split. lia.
Qed.

(** X1: [parse_requirements_text] keeps every non-blank line of the text
    that does not start with ['#'], stripped, in order, and splits it so
    that name and version put back together give the stripped line. *)
Theorem parse_requirements_roundtrip (text : string) :
  map dep_spec (parse_requirements_text text) =
  List.filter (fun ln => negb (String.eqb ln EmptyString || Scanner.starts_with "#" ln))
    (map strip (splitlines text)).
Proof. apply parse_req_lines_spec. Qed.

(** X2: on a stripped line, [parse_req_line] either keeps the whole line
    as the name with an empty version, or splits it after the non-empty run
    of name characters, the version starting at the operator character
    that follows the name. *)
Theorem parse_req_line_split (ln : string) :
  strip ln = ln ->
  parse_req_line ln = {| dep_name := ln; dep_version := EmptyString |} \/
  ((0 < name_run ln)%nat /\
   exists o v, substring (name_run ln) (String.length ln) ln = String o v /\
     is_op_char o = true /\
     parse_req_line ln = {| dep_name := substring 0 (name_run ln) ln;
                            dep_version := String o v |}).
Proof.
  intros Hs. unfold parse_req_line.
  destruct (req_match_run ln) as [E|E]; rewrite E; [by left|right].
  unfold req_match in E.
  assert (Hk : (0 < name_run ln)%nat).
  { destruct (name_run ln); [discriminate E|lia]. }
  apply req_search_some in E. split; [done|].
  destruct (ops_rest_head _ E) as (o & v & Hb & Ho).
  exists o, v. rewrite version_strip by done. rewrite Hb. done.
Qed.

Lemma parse_req_line_split_witness :
  strip "flask>=2.0" = "flask>=2.0" /\
  (parse_req_line "flask>=2.0" = {| dep_name := "flask>=2.0"; dep_version := EmptyString |} \/
  ((0 < name_run "flask>=2.0")%nat /\
   exists o v, substring (name_run "flask>=2.0") (String.length "flask>=2.0") "flask>=2.0" = String o v /\
     is_op_char o = true /\
     parse_req_line "flask>=2.0" = {| dep_name := substring 0 (name_run "flask>=2.0") "flask>=2.0";
                            dep_version := String o v |})).
Proof.
  assert (H : strip "flask>=2.0" = "flask>=2.0") by reflexivity.
  split; [exact H|]. exact (parse_req_line_split "flask>=2.0" H).
Defined.


Section DictFacts.
Context {K V : Type} `{EqDecision K}.

Lemma dict_get_set_eq (k : K) (v : V) (d : dict K V) : dict_get k (dict_set k v d) = Some v.
Proof.
  induction d as [|[k' v'] d IH]; cbn; [by rewrite bool_decide_true|].
  case_bool_decide as Hkk; cbn; [by rewrite bool_decide_true|]. by rewrite bool_decide_false.
Qed.

Lemma dict_get_set_ne (k k' : K) (v : V) (d : dict K V) :
  k <> k' -> dict_get k (dict_set k' v d) = dict_get k d.
Proof.
  intros Hne. induction d as [|[k0 v0] d IH]; cbn.
  - by rewrite bool_decide_false.
  - case_bool_decide as Hkk; subst; cbn.
    + by rewrite !bool_decide_false.
    + case_bool_decide as Hk2; [done|apply IH].
Qed.

Lemma dict_get_values (k : K) (v : V) (d : dict K V) : dict_get k d = Some v -> v ∈ map snd d.
Proof.
  induction d as [|[k' v'] d IH]; cbn; [done|].
  case_bool_decide as Hkk; [intros [= ->]; apply elem_of_cons; by left|].
  intros H. apply elem_of_cons. right. by apply IH.
Qed.

Lemma dict_set_values (k : K) (v x : V) (d : dict K V) :
  x ∈ map snd (dict_set k v d) -> x = v \/ x ∈ map snd d.
Proof.
  induction d as [|[k' v'] d IH]; cbn.
  - intros H. apply list_elem_of_singleton in H. by left.
  - case_bool_decide as Hkk; cbn; rewrite !elem_of_cons.
    + intros [->|H]; [by left|by right; right].
    + intros [->|H]; [by right; left|].
      destruct (IH H) as [?|?]; [by left|by right; right].
Qed.

Lemma dict_get_fold_notin {A} (f : A -> K) (g : A -> V) (l : list A) (m : dict K V) (k : K) :
  k ∉ map f l ->
  dict_get k (fold_left (fun m a => dict_set (f a) (g a) m) l m) = dict_get k m.
Proof.
  revert m; induction l as [|a l IH]; intros m Hk; cbn; [done|].
  cbn in Hk. rewrite elem_of_cons in Hk. rewrite IH by tauto. apply dict_get_set_ne. tauto.
Qed.

Lemma dict_get_fold_in {A} (f : A -> K) (g : A -> V) (l : list A) (m : dict K V) (a : A) :
  NoDup (map f l) -> a ∈ l ->
  dict_get (f a) (fold_left (fun m a => dict_set (f a) (g a) m) l m) = Some (g a).
Proof.
  revert m; induction l as [|b l IH]; intros m Hnd Ha; cbn; [by apply elem_of_nil in Ha|].
  cbn in Hnd. apply NoDup_cons in Hnd as [Hb Hnd].
  apply elem_of_cons in Ha as [->|Ha].
  - rewrite dict_get_fold_notin by done. apply dict_get_set_eq.
  - by apply IH.
Qed.

Lemma dict_get_fold_some {A} (f : A -> K) (g : A -> V) (l : list A) (m : dict K V) (k : K) (v : V) :
  dict_get k (fold_left (fun m a => dict_set (f a) (g a) m) l m) = Some v ->
  dict_get k m = Some v \/ exists a, a ∈ l /\ f a = k /\ g a = v.
Proof.
  revert m; induction l as [|a l IH]; intros m H; cbn in H; [by left|].
  destruct (IH _ H) as [H'|(b & Hb & ? & ?)].
  - destruct (decide (k = f a)) as [->|Hne].
    + rewrite dict_get_set_eq in H'. injection H' as <-.
      right. exists a. split; [apply elem_of_cons; by left|done].
    + rewrite dict_get_set_ne in H' by done. by left.
  - right. exists b. split; [apply elem_of_cons; by right|done].
Qed.

Lemma fold_set_values {A} (f : A -> K) (g : A -> V) (l : list A) (m : dict K V) (x : V) :
  x ∈ map snd (fold_left (fun m a => dict_set (f a) (g a) m) l m) ->
  x ∈ map snd m \/ exists a, a ∈ l /\ x = g a.
Proof.
  revert m; induction l as [|a l IH]; intros m H; cbn in H; [by left|].
  destruct (IH _ H) as [H'|(b & Hb & ->)].
  - apply dict_set_values in H' as [->|H'].
    + right. exists a. split; [apply elem_of_cons; by left|done].
    + by left.
  - right. exists b. split; [apply elem_of_cons; by right|done].
Qed.

End DictFacts.

(** [inst_map]: the version found for a name comes from an installed
    entry of that name. *)
Lemma inst_map_get (installed : list dep) (k v : string) :
  dict_get k (inst_map installed) = Some v ->
  exists d, d ∈ installed /\ lower (dep_name d) = k /\ dep_version d = v.
Proof.
  unfold inst_map. intros H.
  apply (dict_get_fold_some (fun d => lower (dep_name d)) dep_version) in H as [H|H];
    [discriminate H|exact H].
Qed.

Lemma contains_cons (p : string) (c : ascii) (r : string) :
  Scanner.contains p (String c r) = Scanner.starts_with p (String c r) || Scanner.contains p r.
Proof. reflexivity. Qed.

Lemma remove_eqeq_id (v : string) : Scanner.contains "==" v = false -> remove_eqeq v = v.
Proof.
  induction v as [|c r IH]; [done|]. rewrite contains_cons.
  intros [Hs Hc]%orb_false_elim. cbn [remove_eqeq]. rewrite (IH Hc).
  destruct (Ascii.eqb c "=") eqn:Ec; [|done].
  apply Ascii.eqb_eq in Ec. subst c.
  destruct r as [|d r']; [done|].
  destruct (Ascii.eqb d "=") eqn:Ed; [|done].
  apply Ascii.eqb_eq in Ed. subst d. discriminate Hs.
Qed.

Lemma remove_eqeq_pin (v : string) : remove_eqeq ("==" ++ v) = remove_eqeq v.
Proof. reflexivity. Qed.

(** X3: every conflict [detect_conflicts] reports is a requested
    dependency pinned with ['=='] whose name matches an installed one
    (case-insensitively) with a non-empty version different from the
    target with its ['=='] removed; the conflict shows the requested name,
    the installed version and the requested version. *)
Theorem detect_conflicts_sound (installed requested : list dep) (c : conflict) :
  c ∈ detect_conflicts installed requested ->
  exists r d, r ∈ requested /\ d ∈ installed /\
    c = {| cf_name := dep_name r; cf_current := dep_version d; cf_target := dep_version r |} /\
    lower (dep_name d) = lower (dep_name r) /\
    dep_version d <> EmptyString /\
    Scanner.contains "==" (dep_version r) = true /\
    dep_version d <> remove_eqeq (dep_version r).
Proof.
  unfold detect_conflicts. induction requested as [|r rs IH]; cbn [conflicts_go];
    [by intros ?%elem_of_nil|].
  destruct (dict_get (lower (dep_name r)) (inst_map installed)) as [cur|] eqn:Eg.
  2:{ intros H. destruct (IH H) as (r' & d & ? & ?). exists r', d.
      split; [apply elem_of_cons; by right|done]. }
  destruct (negb (String.eqb cur EmptyString) && negb (String.eqb (dep_version r) EmptyString)
            && Scanner.contains "==" (dep_version r)
            && negb (String.eqb cur (remove_eqeq (dep_version r)))) eqn:Ec.
  - intros [->|H]%elem_of_cons.
    + destruct (inst_map_get _ _ _ Eg) as (d & Hd & Hn & Hv).
      exists r, d. rewrite Hv.
      apply andb_prop in Ec as [Ec H4]. apply andb_prop in Ec as [Ec H3].
      apply andb_prop in Ec as [H1 _].
      apply negb_true_iff, String.eqb_neq in H1. apply negb_true_iff, String.eqb_neq in H4.
      repeat split; try done. apply elem_of_cons; by left.
    + destruct (IH H) as (r' & d & ? & ?). exists r', d.
      split; [apply elem_of_cons; by right|done].
  - intros H. destruct (IH H) as (r' & d & ? & ?). exists r', d.
    split; [apply elem_of_cons; by right|done].
Qed.

(** X4: [detect_conflicts] reports nothing when every requested version
    either has no ['=='] or is exactly ['=='] followed by the version of
    each installed package of the same name (a version without ['==']). *)
Theorem detect_conflicts_pinned_ok (installed requested : list dep) :
  Forall (fun r =>
    Scanner.contains "==" (dep_version r) = false \/
    Forall (fun d => lower (dep_name d) = lower (dep_name r) ->
              dep_version r = ("==" ++ dep_version d)%string /\
              Scanner.contains "==" (dep_version d) = false) installed) requested ->
  detect_conflicts installed requested = [].
Proof.
  unfold detect_conflicts. induction requested as [|r rs IH]; intros Hall; [done|].
  apply Forall_cons in Hall as [Hr Hrs]. cbn [conflicts_go].
  destruct (dict_get (lower (dep_name r)) (inst_map installed)) as [cur|] eqn:Eg; [|by apply IH].
  destruct (inst_map_get _ _ _ Eg) as (d & Hd & Hn & Hv).
  enough (Scanner.contains "==" (dep_version r)
          && negb (String.eqb cur (remove_eqeq (dep_version r))) = false) as E.
  { rewrite <- andb_assoc, E, andb_false_r. by apply IH. }
  destruct Hr as [Hr|Hr]; [by rewrite Hr|].
  rewrite Forall_forall in Hr. destruct (Hr d Hd Hn) as [Hp Hc].
  rewrite Hp, remove_eqeq_pin, remove_eqeq_id, <- Hv, String.eqb_refl by done.
  apply andb_false_r.
Qed.


Lemma insert_str_perm (x : string) (l : list string) : insert_str x l ≡ₚ x :: l.
Proof.
  induction l as [|y l IH]; [done|]. cbn. destruct (String.ltb _ _); [done|].
  rewrite IH. constructor.
Qed.

Lemma insert_str_sorted (x : string) (l : list string) :
  StronglySorted String.le l -> StronglySorted String.le (insert_str x l).
Proof.
  induction l as [|y l IH]; intros Hl; cbn; [by repeat constructor|].
  inversion Hl as [|? ? Hl' Hy]; subst.
  destruct (String.ltb x y) eqn:Hxy.
  - constructor; [done|]. constructor; [apply DepsFacts.ltb_le, Hxy|].
    eapply Forall_impl; [exact Hy|]. intros z Hz.
    apply (transitivity (R:=String.le)) with y; [apply DepsFacts.ltb_le, Hxy|exact Hz].
  - constructor; [by apply IH|]. rewrite (insert_str_perm x l).
    constructor; [apply DepsFacts.not_ltb_le, Hxy|done].
Qed.

Lemma sort_str_perm (l : list string) : sort_str l ≡ₚ l.
Proof.
  unfold sort_str. enough (forall acc, fold_left (fun acc x => insert_str x acc) l acc ≡ₚ l ++ acc)
    as H by (rewrite H; by rewrite app_nil_r).
  induction l as [|x l IH]; intros acc; [done|]. cbn.
  rewrite IH, insert_str_perm. symmetry. apply Permutation_middle.
Qed.

Lemma sort_str_sorted (l : list string) : StronglySorted String.le (sort_str l).
Proof.
  unfold sort_str. enough (forall acc, StronglySorted String.le acc ->
    StronglySorted String.le (fold_left (fun acc x => insert_str x acc) l acc)) as H
    by (apply H; constructor).
  induction l as [|x l IH]; intros acc Hacc; [done|]. cbn.
  apply IH, insert_str_sorted, Hacc.
Qed.

(** The lines of [existing] come from the old file, stripped. *)
Lemma existing_of_values (t : string) (x : string) :
  x ∈ map snd (existing_of (Some t)) -> x ∈ map strip (file_lines t).
Proof.
  unfold existing_of.
  enough (forall m, x ∈ map snd (fold_left (fun m l =>
      if negb (String.eqb (strip l) EmptyString) && negb (Scanner.starts_with "#" (strip l))
      then dict_set (req_key (strip l)) (strip l) m else m) (file_lines t) m) ->
      x ∈ map snd m \/ x ∈ map strip (file_lines t)) as H.
  { intros Hx. destruct (H [] Hx) as [Hn|Hn]; [by apply elem_of_nil in Hn|done]. }
  induction (file_lines t) as [|l ls IH]; intros m Hx; cbn in Hx; [by left|].
  destruct (IH _ Hx) as [Hm|Hm]; [|right; cbn; apply elem_of_cons; by right].
  destruct (_ && _); [|by left].
  apply dict_set_values in Hm as [->|Hm]; [|by left].
  right. cbn. apply elem_of_cons. by left.
Qed.

(** X5: for new dependencies with distinct lower-cased names,
    [update_requirements_txt] writes a sorted list of lines, one per line,
    holding the spec of every new dependency and every kept line of the old
    file whose key no new dependency replaces; every line written is a new
    spec or a stripped line of the old file. *)
Theorem update_requirements_txt_lines (old : option string) (new_deps : list dep) :
  NoDup (map (fun d => lower (dep_name d)) new_deps) ->
  exists L, update_requirements_txt old new_deps = write_lines L /\
    StronglySorted String.le L /\
    (forall d, d ∈ new_deps -> dep_spec d ∈ L) /\
    (forall k v, dict_get k (existing_of old) = Some v ->
       k ∉ map (fun d => lower (dep_name d)) new_deps -> v ∈ L) /\
    (forall x, x ∈ L -> (exists d, d ∈ new_deps /\ x = dep_spec d) \/
                     (exists t, old = Some t /\ x ∈ map strip (file_lines t))).
Proof.
  intros Hnd. eexists. split; [reflexivity|].
  split; [apply sort_str_sorted|]. unfold merge_deps.
  split; [|split].
  - intros d Hd. rewrite sort_str_perm.
    apply (dict_get_values (lower (dep_name d))).
    apply (dict_get_fold_in (fun d => lower (dep_name d)) dep_spec); done.
  - intros k v Hk Hn. rewrite sort_str_perm.
    apply (dict_get_values k). rewrite dict_get_fold_notin; done.
  - intros x Hx. rewrite sort_str_perm in Hx.
    apply fold_set_values in Hx as [Hx|Hx]; [right|by left].
    destruct old as [t|]; [|by apply elem_of_nil in Hx].
    exists t. split; [done|]. by apply existing_of_values.
Qed.


Lemma lower_length (s : string) : String.length (lower s) = String.length s.
Proof. induction s as [|c s IH]; cbn; [done|]. by rewrite IH. Qed.

Lemma contains_single_false (c : ascii) (s : string) :
  Scanner.contains (String c EmptyString) s = false ->
  forall c' r, s = String c' r -> c' <> c /\ Scanner.contains (String c EmptyString) r = false.
Proof.
  intros H c' r ->. rewrite contains_cons in H. apply orb_false_elim in H as [H1 H2].
  cbn in H1. rewrite andb_true_r in H1. split; [|done].
  intros ->. by rewrite Ascii.eqb_refl in H1.
Qed.

Lemma file_lines_go (s cur : string) :
  Scanner.contains (String "010" EmptyString) s = false ->
  Scanner.contains (String "013" EmptyString) s = false ->
  split_lines_by (fun c => Ascii.eqb c "010" || Ascii.eqb c "013")
    (s ++ String "010" EmptyString) cur = [(cur ++ s)%string].
Proof.
  revert cur; induction s as [|c r IH]; intros cur Hn Hr.
  - cbn. by rewrite str_app_nil_r.
  - destruct (contains_single_false _ _ Hn c r eq_refl) as [Hn1 Hn2].
    destruct (contains_single_false _ _ Hr c r eq_refl) as [Hr1 Hr2].
    rewrite str_app_cons. cbn [split_lines_by].
    replace (Ascii.eqb c "010" || Ascii.eqb c "013") with false.
    + rewrite IH by done. by rewrite <- str_app_assoc.
    + symmetry. apply orb_false_intro; by apply Ascii.eqb_neq.
Qed.

Lemma contains_app_starts (p x y : string) :
  Scanner.starts_with p y = true -> Scanner.contains p (x ++ y) = true.
Proof.
  intros H. induction x as [|c x IH].
  - rewrite str_app_nil_l. destruct y as [|c r].
    + cbn [Scanner.contains]. by rewrite H.
    + rewrite contains_cons, H. done.
  - rewrite str_app_cons, contains_cons, IH. apply orb_true_r.
Qed.

Lemma before_eqeq_pin (n w : string) :
  Scanner.contains "=" n = false -> before_eqeq (n ++ "==" ++ w) = n.
Proof.
  induction n as [|c r IH]; intros Hn; [reflexivity|].
  destruct (contains_single_false _ _ Hn c r eq_refl) as [Hc Hr].
  rewrite str_app_cons. cbn [before_eqeq].
  apply Ascii.eqb_neq in Hc. rewrite Hc, IH by done. reflexivity.
Qed.

Lemma string_compare_refl (s : string) : String.compare s s = Eq.
Proof.
  induction s as [|c s IH]; [done|]. cbn [String.compare].
  unfold Ascii.compare. rewrite N.compare_refl. exact IH.
Qed.

Lemma string_ltb_irrefl (s : string) : String.ltb s s = false.
Proof. unfold String.ltb. by rewrite string_compare_refl. Qed.

Lemma update_from_none (d : dep) :
  update_requirements_txt None [d] = write_lines [dep_spec d].
Proof. reflexivity. Qed.

Lemma existing_of_one (x : string) :
  x <> EmptyString -> strip x = x -> Scanner.starts_with "#" x = false ->
  Scanner.contains (String "010" EmptyString) x = false ->
  Scanner.contains (String "013" EmptyString) x = false ->
  existing_of (Some (write_lines [x])) = [(req_key x, x)].
Proof.
  intros Hne Hs Hh Hn Hr. unfold existing_of, file_lines.
  assert (Hw : write_lines [x] = (x ++ String "010" EmptyString)%string) by reflexivity.
  rewrite Hw, file_lines_go by done. cbn [fold_left]. rewrite str_app_nil_l, Hs, Hh.
  apply String.eqb_neq in Hne. by rewrite Hne.
Qed.

(** X6: for a dependency written on a line of its own, installing it
    twice leaves [requirements.txt] as after the first time when it is
    pinned with ['=='], but gives the line twice when its version has no
    ['=='] ([flask>=2.0]), because the old line is keyed by the whole line
    and the new one by the name. *)
Theorem update_requirements_twice (d : dep) :
  dep_spec d <> EmptyString -> strip (dep_spec d) = dep_spec d ->
  Scanner.starts_with "#" (dep_spec d) = false ->
  Scanner.contains (String "010" EmptyString) (dep_spec d) = false ->
  Scanner.contains (String "013" EmptyString) (dep_spec d) = false ->
  ((exists w, dep_version d = ("==" ++ w)%string) -> Scanner.contains "=" (dep_name d) = false ->
   update_requirements_txt (Some (update_requirements_txt None [d])) [d]
   = update_requirements_txt None [d]) /\
  (dep_version d <> EmptyString -> Scanner.contains "==" (dep_spec d) = false ->
   update_requirements_txt (Some (update_requirements_txt None [d])) [d]
   = write_lines [dep_spec d; dep_spec d]).
Proof.
  intros Hne Hs Hh Hn Hr. rewrite update_from_none.
  unfold update_requirements_txt. rewrite existing_of_one by done.
  unfold merge_deps. cbn [fold_left dict_set].
  split.
  - intros [w Hw] He.
    assert (Hk : req_key (dep_spec d) = lower (dep_name d)).
    { unfold req_key, dep_spec. rewrite Hw, contains_app_starts, before_eqeq_pin by done.
      reflexivity. }
    rewrite Hk, bool_decide_true by done. reflexivity.
  - intros Hv Hc.
    assert (Hk : req_key (dep_spec d) = lower (dep_spec d)).
    { unfold req_key. by rewrite Hc. }
    rewrite Hk, bool_decide_false.
    + cbn. unfold sort_str. cbn. by rewrite string_ltb_irrefl.
    + intros He. apply (f_equal String.length) in He.
      rewrite !lower_length in He. unfold dep_spec in He.
      rewrite str_length_app in He.
      destruct (dep_version d); [done|cbn in He; lia].
Qed.


Lemma rsplit_at_some (s a b : string) :
  rsplit_at s = Some (a, b) -> s = (a ++ String "@" b)%string.
Proof.
  revert a b; induction s as [|c r IH]; intros a b; cbn [rsplit_at]; [done|].
  destruct (rsplit_at r) as [[a' b']|] eqn:E.
  - intros [= <- <-]. rewrite str_app_cons. by rewrite <- (IH a' b').
  - destruct (Ascii.eqb c "@") eqn:Ec; [|done].
    intros [= <- <-]. apply Ascii.eqb_eq in Ec. by subst c.
Qed.

Lemma node_spec_line (ln : string) : node_spec (parse_pkg_line ln) = ln.
Proof.
  unfold parse_pkg_line.
  destruct (Scanner.contains "@" ln && negb (Scanner.starts_with "@" ln)).
  - destruct (rsplit_at ln) as [[a b]|] eqn:E; [|reflexivity].
    apply rsplit_at_some in E. subst ln. reflexivity.
  - reflexivity.
Qed.

Lemma starts_at_app (a b : string) :
  a <> EmptyString -> Scanner.starts_with "@" (a ++ b) = Scanner.starts_with "@" a.
Proof. destruct a as [|c r]; [done|]. intros _. reflexivity. Qed.

Lemma scoped_line (ln : string) :
  Scanner.starts_with "@" (dep_name (parse_pkg_line ln)) = true ->
  dep_version (parse_pkg_line ln) = EmptyString.
Proof.
  unfold parse_pkg_line.
  destruct (Scanner.contains "@" ln && negb (Scanner.starts_with "@" ln)) eqn:Hc; [|done].
  destruct (rsplit_at ln) as [[a b]|] eqn:E; [|done].
  cbn [dep_name]. intros Ha.
  apply andb_prop in Hc as [_ Hn]. apply rsplit_at_some in E. subst ln.
  destruct (decide (a = EmptyString)) as [->|Hne]; [discriminate Hn|].
  rewrite starts_at_app, Ha in Hn by done. discriminate Hn.
Qed.

(** X7: on a text that is not JSON, [parse_package_json] keeps every
    non-blank line not starting with ['#'] or ['//'], stripped, in order;
    the argument [install_node_deps] passes to npm for each result is that
    line again. *)
Theorem parse_package_lines_roundtrip (text : string) :
  map node_spec (parse_package_lines text) =
  List.filter (fun ln => negb (String.eqb ln EmptyString || Scanner.starts_with "#" ln
                               || Scanner.starts_with "//" ln))
    (map strip (splitlines text)).
Proof.
  unfold parse_package_lines. induction (splitlines text) as [|l r IH]; [done|].
  cbn [parse_pkg_lines map List.filter].
  destruct (_ || _ || _); cbn; [done|]. by rewrite node_spec_line, IH.
Qed.

(** X8: on a text that is not JSON, a package whose name starts with
    ['@'] (a scoped package) gets an empty version from
    [parse_package_json]. *)
Theorem parse_package_lines_scoped (text : string) :
  Forall (fun d => Scanner.starts_with "@" (dep_name d) = true -> dep_version d = EmptyString)
    (parse_package_lines text).
Proof.
  unfold parse_package_lines. induction (splitlines text) as [|l r IH]; [constructor|].
  cbn [parse_pkg_lines]. destruct (_ || _ || _); [done|].
  constructor; [apply scoped_line|done].
Qed.

Lemma before_eqeq_head (r : string) :
  Scanner.starts_with "=" (before_eqeq r) = true -> Scanner.starts_with "=" r = true.
Proof.
  destruct r as [|d r']; cbn [before_eqeq]; [done|].
  destruct (Ascii.eqb d "=" && _); [done|]. done.
Qed.

Lemma eqeq_split (s : string) :
  Scanner.contains "==" s = true ->
  (before_eqeq s ++ "==" ++ after_eqeq s)%string = s /\
  Scanner.contains "==" (before_eqeq s) = false.
Proof.
  induction s as [|c r IH]; [done|]. rewrite contains_cons. intros H.
  cbn [before_eqeq after_eqeq].
  destruct (Ascii.eqb c "=" && Scanner.starts_with "=" r) eqn:E.
  - apply andb_prop in E as [Ec Er]. apply Ascii.eqb_eq in Ec. subst c.
    destruct r as [|d r']; [discriminate Er|].
    cbn [Scanner.starts_with] in Er. apply andb_prop in Er as [Er _].
    apply Ascii.eqb_eq in Er. subst d. split; [|reflexivity].
    cbn [String.length]. replace (substring 1 (S (String.length r')) (String "=" r'))
      with (substring 0 (S (String.length r')) r') by reflexivity.
    rewrite substring_all by lia. reflexivity.
  - assert (Hs : Scanner.starts_with "==" (String c r) = false).
    { cbn [Scanner.starts_with].
      destruct (Ascii.eqb_spec "=" c) as [<-|]; [|done]. by rewrite Ascii.eqb_refl in E. }
    rewrite Hs in H. destruct (IH H) as [H1 H2].
    rewrite str_app_cons, H1. split; [done|].
    rewrite contains_cons, H2, orb_false_r. cbn [Scanner.starts_with].
    destruct (Ascii.eqb_spec "=" c) as [<-|]; [|done].
    rewrite Ascii.eqb_refl, andb_true_l in E.
    destruct (Scanner.starts_with "=" (before_eqeq r)) eqn:Eb; [|done].
    apply before_eqeq_head in Eb. by rewrite Eb in E.
Qed.

(** X9: [list_python_deps] keeps exactly the lines of the [pip freeze]
    output that contain ['=='], in order, splitting each at its first
    ['==']: the names contain no ['=='] and name, ['=='] and version give
    the line back. *)
Theorem list_python_deps_roundtrip (out : string) :
  map (fun d => dep_name d ++ "==" ++ dep_version d)%string (list_python_deps out) =
  List.filter (Scanner.contains "==") (splitlines out) /\
  Forall (fun d => Scanner.contains "==" (dep_name d) = false) (list_python_deps out).
Proof.
  unfold list_python_deps. induction (splitlines out) as [|l r [IH1 IH2]]; [done|].
  cbn [freeze_deps List.filter]. destruct (Scanner.contains "==" l) eqn:E; [|done].
  destruct (eqeq_split l E) as [H1 H2]. cbn. rewrite H1, IH1. split; [done|].
  by constructor.
Qed.

Definition requests_10 : dep := {| dep_name := "Requests"; dep_version := "1.0" |}.
Definition requests_20 : dep := {| dep_name := "requests"; dep_version := "2.0" |}.

Lemma detect_conflicts_sound_witness :
  {| cf_name := "requests"; cf_current := "1.0"; cf_target := "==2.0" |}
    ∈ detect_conflicts [requests_10] [DepsFacts.req20] /\
  exists r d, r ∈ [DepsFacts.req20] /\ d ∈ [requests_10] /\
    dep_version d <> remove_eqeq (dep_version r).
Proof.
  assert (H : {| cf_name := "requests"; cf_current := "1.0"; cf_target := "==2.0" |}
                ∈ detect_conflicts [requests_10] [DepsFacts.req20])
    by (vm_compute; left).
  split; [exact H|].
  destruct (detect_conflicts_sound [requests_10] [DepsFacts.req20] _ H)
    as (r & d & Hr & Hd & _ & _ & _ & _ & Hne).
  exists r, d. done.
Defined.

Lemma detect_conflicts_pinned_ok_witness :
  Forall (fun r =>
    Scanner.contains "==" (dep_version r) = false \/
    Forall (fun d => lower (dep_name d) = lower (dep_name r) ->
              dep_version r = ("==" ++ dep_version d)%string /\
              Scanner.contains "==" (dep_version d) = false) [requests_20])
    [DepsFacts.req20; DepsFacts.req10] /\
  detect_conflicts [requests_20] [DepsFacts.req20; DepsFacts.req10] = [].
Proof.
  assert (H : Forall (fun r =>
    Scanner.contains "==" (dep_version r) = false \/
    Forall (fun d => lower (dep_name d) = lower (dep_name r) ->
              dep_version r = ("==" ++ dep_version d)%string /\
              Scanner.contains "==" (dep_version d) = false) [requests_20])
    [DepsFacts.req20; DepsFacts.req10]).
  { constructor; [right; constructor; [intros _; split; reflexivity|constructor]|].
    constructor; [left; reflexivity|constructor]. }
  split; [exact H|]. exact (detect_conflicts_pinned_ok _ _ H).
Defined.

Definition old_requirements : string :=
  "numpy==1.0" ++ String "010" ("flask==1.0" ++ String "010" EmptyString).

Lemma update_requirements_txt_lines_witness :
  NoDup (map (fun d => lower (dep_name d)) [DepsFacts.req20; DepsFacts.flask20]) /\
  exists L, update_requirements_txt (Some old_requirements)
              [DepsFacts.req20; DepsFacts.flask20] = write_lines L /\
    StronglySorted String.le L /\ dep_spec DepsFacts.flask20 ∈ L.
Proof.
  assert (H : NoDup (map (fun d => lower (dep_name d)) [DepsFacts.req20; DepsFacts.flask20])).
  { vm_compute. constructor; [|constructor; [|constructor]]; [|intros Hin; inversion Hin].
    intros Hin. apply elem_of_cons in Hin as [Hin|Hin]; [discriminate Hin|inversion Hin]. }
  split; [exact H|].
  destruct (update_requirements_txt_lines (Some old_requirements) _ H)
    as (L & HL & Hs & Hn & _ & _).
  exists L. split; [exact HL|]. split; [exact Hs|]. apply Hn. right. left.
Defined.

Lemma update_requirements_twice_witness :
  dep_spec DepsFacts.req20 <> EmptyString /\
  strip (dep_spec DepsFacts.req20) = dep_spec DepsFacts.req20 /\
  Scanner.starts_with "#" (dep_spec DepsFacts.req20) = false /\
  Scanner.contains (String "010" EmptyString) (dep_spec DepsFacts.req20) = false /\
  Scanner.contains (String "013" EmptyString) (dep_spec DepsFacts.req20) = false /\
  update_requirements_txt (Some (update_requirements_txt None [DepsFacts.req20])) [DepsFacts.req20]
    = update_requirements_txt None [DepsFacts.req20] /\
  update_requirements_txt (Some (update_requirements_txt None [DepsFacts.req10])) [DepsFacts.req10]
    = write_lines [dep_spec DepsFacts.req10; dep_spec DepsFacts.req10].
Proof.
  assert (H1 : dep_spec DepsFacts.req20 <> EmptyString) by discriminate.
  assert (H2 : strip (dep_spec DepsFacts.req20) = dep_spec DepsFacts.req20) by reflexivity.
  assert (H3 : Scanner.starts_with "#" (dep_spec DepsFacts.req20) = false) by reflexivity.
  assert (H4 : Scanner.contains (String "010" EmptyString) (dep_spec DepsFacts.req20) = false)
    by reflexivity.
  assert (H5 : Scanner.contains (String "013" EmptyString) (dep_spec DepsFacts.req20) = false)
    by reflexivity.
  assert (G1 : dep_spec DepsFacts.req10 <> EmptyString) by discriminate.
  assert (G2 : strip (dep_spec DepsFacts.req10) = dep_spec DepsFacts.req10) by reflexivity.
  assert (G3 : Scanner.starts_with "#" (dep_spec DepsFacts.req10) = false) by reflexivity.
  assert (G4 : Scanner.contains (String "010" EmptyString) (dep_spec DepsFacts.req10) = false)
    by reflexivity.
  assert (G5 : Scanner.contains (String "013" EmptyString) (dep_spec DepsFacts.req10) = false)
    by reflexivity.
  do 5 (split; [assumption|]). split.
  - apply (proj1 (update_requirements_twice DepsFacts.req20 H1 H2 H3 H4 H5)).
    + exists "2.0". reflexivity.
    + reflexivity.
  - apply (proj2 (update_requirements_twice DepsFacts.req10 G1 G2 G3 G4 G5)).
    + discriminate.
    + reflexivity.
Defined.

End DepsTextFacts.

Module ExecutorRunFacts.
Import Py Marshal Executor.

Section DictFacts.
Context {K V : Type} `{EqDecision K}.

Lemma dict_get_del_ne (k k' : K) (d : dict K V) :
  k <> k' -> dict_get k (dict_del k' d) = dict_get k d.
Proof.
  intros Hne. induction d as [|[k0 v0] d IH]; cbn; [done|].
  case_bool_decide as H1; subst; cbn.
  - by rewrite bool_decide_false.
  - case_bool_decide as H2; [done|apply IH].
Qed.

Lemma dict_get_some_key (k : K) (v : V) (d : dict K V) :
  dict_get k d = Some v -> k ∈ map fst d.
Proof.
  induction d as [|[k0 v0] d IH]; cbn; [done|].
  case_bool_decide as H1; subst; intros Hg; rewrite elem_of_cons; [by left|right; auto].
Qed.

Lemma dict_del_keys (k : K) (d : dict K V) :
  NoDup (map fst d) -> k ∉ map fst (dict_del k d).
Proof.
  induction d as [|[k0 v0] d IH]; cbn; intros Hnd; [by apply not_elem_of_nil|].
  apply NoDup_cons in Hnd as [Hk0 Hnd].
  case_bool_decide as H1; subst; [done|].
  cbn. rewrite elem_of_cons. intros [->|Hin]; [done|by apply IH].
Qed.

End DictFacts.

Ltac step_executor :=
  unfold execute_script, try_except, try_finally, popen, communicate, reg_add, reg_del,
    on_success, on_failure, on_timeout, on_exception, update_last_run, insert_run,
    notify_if, save_binary_output, mbind, mret, raise, modify, mget, set_running, lift;
  repeat first [ progress cbn -[dict_mem dict_set dict_del dict_get]
               | match goal with
                 | |- context [w_wait ?W] => destruct (w_wait W)
                 | |- context [w_popen_error ?W] => destruct (w_popen_error W)
                 | |- context [w_json ?W ?o] => destruct (w_json W o)
                 | |- context [w_save_error ?W] => destruct (w_save_error W)
                 | |- context [forallb is_str ?c] => destruct (forallb is_str c)
                 | |- context [bool_decide ?P] => destruct (bool_decide P)
                 | |- context [dict_mem ?k ?d] => destruct (dict_mem k d)
                 | |- context [(?a =? ?b)%Z] => destruct (a =? b)%Z eqn:?
                 end ].

(** X10: once the parameters marshal, [_execute_script] returns a result
    and appends exactly one row to the runs table, with the script's id,
    the parameters and the duration it reports; the run id is the row's
    number, [last_run] records 1 for a successful run and 2 otherwise, and
    the row's status is 1 ([success]), 2 ([error], code 500) or 3
    ([error], code 504). *)
Theorem execute_script_one_run R W sc (schema : list (string * meta)) (p : dict string pyval)
    (st : xstate) cli eff :
  build_cli_args R schema p = Ok (cli, eff) ->
  let '(r, st', _) := execute_script R W sc schema p st in
  exists x row, r = Ok x /\ runs st' = runs st ++ [row] /\
    r_script_id row = sc_id sc /\ r_params row = p /\
    r_duration_ms row = x_duration_ms x /\
    x_run_id x = Z.of_nat (length (runs st)) + 1 /\
    dict_get (sc_id sc) (last_run st') = Some (if r_status row =? 1 then 1 else 2) /\
    ((r_status row = 1 /\ x_status x = "success" /\ x_code x = None) \/
     (r_status row = 2 /\ x_status x = "error" /\ x_code x = Some 500) \/
     (r_status row = 3 /\ x_status x = "error" /\ x_code x = Some 504)).
Proof.
  intros Hb.
  unfold execute_script, mbind, lift. rewrite Hb. fold (@mbind).
  step_executor.
  all: eexists _, _; split; [reflexivity|]; split; [reflexivity|].
  all: cbn; do 4 (split; [reflexivity|]); split; [apply DepsTextFacts.dict_get_set_eq|].
  all: first [left; done | right; left; done | right; right; done].
Qed.

(** X11: [_execute_script] sends exactly one notification when the script
    has notifications enabled and its parameters marshal, and none
    otherwise; it never removes earlier notifications. *)
Theorem execute_script_notify R W sc (schema : list (string * meta)) (p : dict string pyval)
    (st : xstate) :
  let '(_, st', _) := execute_script R W sc schema p st in
  exists n, notified st' = notified st ++ n /\
    length n = (if bool_decide (sc_notify_enabled sc = Some 1) then
                  match build_cli_args R schema p with Ok _ => 1%nat | Err _ => 0%nat end
                else 0%nat).
Proof.
  destruct (build_cli_args R schema p) as [[cli eff]|e] eqn:Hb;
    unfold execute_script, mbind, lift; rewrite Hb; fold (@mbind).
  2:{ cbn. exists []. rewrite app_nil_r. by destruct (bool_decide _). }
  unfold on_success, on_failure, on_timeout, on_exception, notify_if.
  destruct (bool_decide (sc_notify_enabled sc = Some 1)) eqn:En.
  all: step_executor.
  all: first [ eexists; split; [reflexivity|]; reflexivity
             | exists []; rewrite app_nil_r; split; reflexivity ].
Qed.


(** X12: when the script exits with 0, its JSON output is returned as
    [data] and previewed (1000 characters) in the run row; other output is
    saved as a binary file whose URL goes into the row and whose URL, name
    and size are returned; when saving fails, the run is recorded as
    failed with the exception's text as its stderr. *)
Theorem execute_script_output R W sc (schema : list (string * meta)) (p : dict string pyval)
    (st : xstate) cli eff out err :
  build_cli_args R schema p = Ok (cli, eff) ->
  forallb is_str (command sc cli) = true ->
  w_popen_error W = None -> w_wait W = Exited 0 out err ->
  let '(r, st', _) := execute_script R W sc schema p st in
  let dur := w_elapsed_ms W in
  exists x, r = Ok x /\
  match w_json W out with
  | Some text =>
      runs st' = runs st ++ [mk_row sc dur 1 p (Some (substring 0 1000 text)) None None] /\
      saved_outputs st' = saved_outputs st /\ x_data x = Some text /\ x_file x = None
  | None =>
      match w_save_error W with
      | None =>
          runs st' = runs st ++ [mk_row sc dur 1 p None None (Some (w_output_url W))] /\
          saved_outputs st' = saved_outputs st ++ [(w_output_url W, out)] /\
          x_data x = None /\
          x_file x = Some (w_output_url W, w_output_name W, Z.of_nat (String.length out))
      | Some e =>
          e <> TimeoutExpired ->
          runs st' = runs st ++ [mk_row sc dur 2 p None (Some (exc_str e)) None] /\
          saved_outputs st' = saved_outputs st /\ x_status x = "error" /\
          x_stderr x = Some (exc_str e)
      end
  end.
Proof.
  intros Hb Hc Hpop Hw.
  unfold execute_script, mbind, lift. rewrite Hb. fold (@mbind).
  unfold try_except, try_finally, popen, communicate, reg_add, reg_del,
    on_success, on_failure, on_timeout, on_exception, update_last_run, insert_run,
    notify_if, save_binary_output, mbind, mret, raise, modify, mget, set_running.
  rewrite Hc, Hpop, Hw.
  repeat first [ progress cbn -[dict_mem dict_set dict_del dict_get]
               | rewrite ExecutorFacts.dict_mem_set ].
  destruct (w_json W out); [|destruct (w_save_error W)];
    repeat first [ progress cbn -[dict_mem dict_set dict_del dict_get]
                 | rewrite ExecutorFacts.dict_mem_set
                 | match goal with
                   | |- context [bool_decide ?P] => destruct (bool_decide P) eqn:?
                   | |- context [dict_mem ?k ?d] => destruct (dict_mem k d)
                   end ].
  all: eexists; split; [reflexivity|]; try intros Hne; repeat split.
  all: match goal with H : bool_decide (?e = TimeoutExpired) = true |- _ =>
         apply bool_decide_eq_true_1 in H; contradiction end.
Qed.

(** X13: [terminate_script] of a running script always kills its
    process and touches no other registry entry, process or run table. It
    answers success and removes the entry unless [proc.wait] raises (the
    answer is the error with the exception's text, and the entry is left
    unless the executor's own cleanup removed it) or the executor's
    [finally] removed the entry before the [del] (the answer is the error
    with the [KeyError]'s text, the id). For a script that is not
    running it answers the error and changes nothing. *)
Theorem terminate_script_effect (T : term_world) (sid : Z) (st : xstate) :
  NoDup (map fst (running_processes st)) ->
  let '(r, st', _) := terminate_script T sid st in
  match dict_get sid (running_processes st) with
  | Some (p, _) =>
      (p ∉ alive st') /\ (forall q, q <> p -> q ∈ alive st' <-> q ∈ alive st) /\
      (forall k, k <> sid -> dict_get k (running_processes st') = dict_get k (running_processes st)) /\
      runs st' = runs st /\ last_run st' = last_run st /\
      match tw_wait_error T with
      | Some e =>
          r = Ok {| t_status := "error"; t_message := exc_str e |} /\
          (sid ∈ get_running_scripts st' <-> tw_executor_cleanup_first T = false)
      | None =>
          (sid ∉ get_running_scripts st') /\
          r = Ok (if tw_executor_cleanup_first T
                  then {| t_status := "error"; t_message := str_int sid |}
                  else {| t_status := "success"; t_message := "脚本已中止" |})
      end
  | None => r = Ok {| t_status := "error"; t_message := "脚本未在运行中" |} /\ st' = st
  end.
Proof.
  intros Hnd.
  unfold terminate_script, try_except, kill, reg_del, mbind, mget, mret, raise, modify,
    set_running. cbn.
  destruct (dict_get sid (running_processes st)) as [[q nm]|] eqn:E; cbn; [|done].
  assert (Hm : dict_mem sid (running_processes st) = true) by (unfold dict_mem; by rewrite E).
  assert (Hk : sid ∈ map fst (running_processes st)) by (by eapply dict_get_some_key).
  assert (Hdel : dict_mem sid (dict_del sid (running_processes st)) = false).
  { unfold dict_mem. destruct (dict_get sid (dict_del sid (running_processes st))) eqn:Ed; [|done].
    exfalso. apply (dict_del_keys sid _ Hnd). by eapply dict_get_some_key. }
  assert (Hq : q ∉ filter (fun q' => bool_decide (q' <> q)) (alive st)).
  { intros Hq%list_elem_of_filter. destruct Hq as [Hq _]. by apply bool_decide_unpack in Hq. }
  assert (Ha : forall q', q' <> q ->
            q' ∈ filter (fun q'' => bool_decide (q'' <> q)) (alive st) <-> q' ∈ alive st).
  { intros q' Hne. rewrite list_elem_of_filter. split; [tauto|]. intros Hq'.
    split; [|done]. by apply bool_decide_pack. }
  assert (Hne : forall k, k <> sid ->
            dict_get k (dict_del sid (running_processes st)) = dict_get k (running_processes st))
    by (intros k Hk'; by apply dict_get_del_ne).
  destruct (tw_executor_cleanup_first T); cbn; rewrite ?Hm; cbn;
    destruct (tw_wait_error T) as [e|]; cbn; rewrite ?Hm, ?Hdel; cbn.
  all: refine (conj Hq (conj Ha (conj _ (conj eq_refl (conj eq_refl _))))); cbn;
       [try exact Hne; done|].
  all: unfold get_running_scripts; cbn.
  - split; [done|]. split; [|done]. intros H. exfalso. by apply (dict_del_keys sid _ Hnd).
  - split; [|done]. by apply dict_del_keys.
  - split; [done|]. split; [done|]. intros _. exact Hk.
  - split; [|done]. by apply dict_del_keys.
Qed.

Lemma execute_script_one_run_witness :
  build_cli_args MarshalFacts.R0 [] [] = Ok ([], []) /\
  exists x, (execute_script MarshalFacts.R0 ExecutorFacts.W_exit0 ExecutorFacts.sc_sleep [] [] ExecutorFacts.st0).1.1
              = Ok x /\ x_run_id x = 1.
Proof.
  assert (Hb : build_cli_args MarshalFacts.R0 [] [] = Ok ([], [])) by reflexivity.
  split; [exact Hb|].
  pose proof (execute_script_one_run MarshalFacts.R0 ExecutorFacts.W_exit0 ExecutorFacts.sc_sleep [] []
                ExecutorFacts.st0 [] [] Hb) as H.
  destruct (execute_script MarshalFacts.R0 ExecutorFacts.W_exit0 ExecutorFacts.sc_sleep [] [] ExecutorFacts.st0)
    as [[r st'] tr].
  destruct H as (x & row & Hr & _ & _ & _ & _ & Hid & _).
  exists x. split; [exact Hr|]. rewrite Hid. reflexivity.
Defined.

Lemma execute_script_output_witness :
  build_cli_args MarshalFacts.R0 [] [] = Ok ([], []) /\
  forallb is_str (command ExecutorFacts.sc_sleep []) = true /\
  w_popen_error ExecutorFacts.W_exit0 = None /\
  w_wait ExecutorFacts.W_exit0 = Exited 0 "{}" EmptyString /\
  exists x, (execute_script MarshalFacts.R0 ExecutorFacts.W_exit0 ExecutorFacts.sc_sleep [] [] ExecutorFacts.st0).1.1
              = Ok x /\ x_data x = Some "{}".
Proof.
  assert (Hb : build_cli_args MarshalFacts.R0 [] [] = Ok ([], [])) by reflexivity.
  assert (Hc : forallb is_str (command ExecutorFacts.sc_sleep []) = true) by reflexivity.
  assert (Hp : w_popen_error ExecutorFacts.W_exit0 = None) by reflexivity.
  assert (Hw : w_wait ExecutorFacts.W_exit0 = Exited 0 "{}" EmptyString) by reflexivity.
  do 4 (split; [assumption|]).
  pose proof (execute_script_output MarshalFacts.R0 ExecutorFacts.W_exit0 ExecutorFacts.sc_sleep [] []
                ExecutorFacts.st0 [] [] "{}" EmptyString Hb Hc Hp Hw) as H.
  destruct (execute_script MarshalFacts.R0 ExecutorFacts.W_exit0 ExecutorFacts.sc_sleep [] [] ExecutorFacts.st0)
    as [[r st'] tr].
  destruct H as (x & Hr & _ & _ & Hd & _).
  exists x. split; assumption.
Defined.

Definition st_running : xstate :=
  {| running_processes := [(7, (100, "sleepy.py"))]; alive := [100; 101]; next_pid := 102;
     spawned := []; runs := []; last_run := []; notified := []; saved_outputs := [] |}.

Definition T_clean : term_world := {| tw_wait_error := None; tw_executor_cleanup_first := false |}.
Definition T_raced : term_world := {| tw_wait_error := None; tw_executor_cleanup_first := true |}.

Lemma terminate_script_effect_witness :
  NoDup (map fst (running_processes st_running)) /\
  (terminate_script T_clean 7 st_running).1.1 = Ok {| t_status := "success"; t_message := "脚本已中止" |} /\
  101 ∈ alive (terminate_script T_clean 7 st_running).1.2 /\
  (terminate_script T_raced 7 st_running).1.1 = Ok {| t_status := "error"; t_message := "7" |}.
Proof.
  assert (Hn : NoDup (map fst (running_processes st_running))).
  { cbn. constructor; [apply not_elem_of_nil|constructor]. }
  split; [exact Hn|].
  pose proof (terminate_script_effect T_clean 7 st_running Hn) as H.
  pose proof (terminate_script_effect T_raced 7 st_running Hn) as H'.
  destruct (terminate_script T_clean 7 st_running) as [[r st'] tr]. cbn in H.
  destruct (terminate_script T_raced 7 st_running) as [[r' st''] tr']. cbn in H'.
  destruct H as (_ & Ha & _ & _ & _ & _ & Hr). destruct H' as (_ & _ & _ & _ & _ & _ & Hr').
  split; [exact Hr|]. split; [apply Ha; [discriminate|]; right; left|rewrite Hr'; reflexivity].
Defined.

End ExecutorRunFacts.

Module MarshalTokenFacts.
Import Py Marshal.

Lemma digit_char_is_digit (d : N) :
  (d < 10)%N -> is_digit (digit_char d) = true /\ (Z.of_nat (nat_of_ascii (digit_char d) - 48) = Z.of_N d).
Proof.
  intros Hd.
  assert (H : d = 0%N \/ d = 1%N \/ d = 2%N \/ d = 3%N \/ d = 4%N \/ d = 5%N \/ d = 6%N
              \/ d = 7%N \/ d = 8%N \/ d = 9%N) by lia.
  repeat destruct H as [->|H]; [..|subst d]; split; reflexivity.
Qed.

(** [dec_go] puts the decimal digits of [n] in front of [acc]; reading
    them back continues the number being read. *)
Lemma digits_dec_go (f : nat) (n : N) (acc : string) (b : bool) (a : Z) :
  (n < 10 ^ N.of_nat (S f))%N ->
  exists k : nat, digits_go (dec_go (S f) n acc) b a = digits_go acc true (a * 10 ^ Z.of_nat k + Z.of_N n).
Proof.
  revert n acc a. induction f as [|f IH]; intros n acc a Hn.
  all: cbn [dec_go].
  all: assert (Hm : (n mod 10 < 10)%N) by (apply N.mod_lt; lia).
  all: destruct (digit_char_is_digit _ Hm) as [Hd Hv].
  all: destruct (n <? 10)%N eqn:Hlt.
  1,3: exists 1%nat; cbn [digits_go]; rewrite Hd, Hv;
       apply N.ltb_lt in Hlt; rewrite N.mod_small by done; f_equal; lia.
  - apply N.ltb_ge in Hlt. cbn in Hn. lia.
  - apply N.ltb_ge in Hlt.
    destruct (IH (n / 10)%N (String (digit_char (n mod 10)) acc) a) as [k Hk].
    { apply N.Div0.div_lt_upper_bound.
      rewrite (Nat2N.inj_succ (S f)), N.pow_succ_r' in Hn. lia. }
    exists (S k). cbn [dec_go] in Hk. rewrite Hk. cbn [digits_go]. rewrite Hd, Hv. f_equal.
    rewrite Nat2Z.inj_succ, Z.pow_succ_r by lia.
    rewrite (N.div_mod n 10) at 3 by lia. lia.
Qed.

Lemma size_nat_bound (n : N) : (n < 10 ^ N.of_nat (S (N.size_nat n)))%N.
Proof.
  destruct n as [|p]; [cbn; lia|].
  assert (H : (N.pos p < 2 ^ N.of_nat (N.size_nat (N.pos p)))%N).
  { cbn [N.size_nat]. induction p as [p IH|p IH|]; cbn [Pos.size_nat].
    - rewrite Nat2N.inj_succ, N.pow_succ_r'. lia.
    - rewrite Nat2N.inj_succ, N.pow_succ_r'. lia.
    - cbn. lia. }
  assert (H2 : forall m : nat, (2 ^ N.of_nat m <= 10 ^ N.of_nat m)%N).
  { intros m. apply N.pow_le_mono_l. lia. }
  specialize (H2 (N.size_nat (N.pos p))).
  rewrite Nat2N.inj_succ, N.pow_succ_r'. lia.
Qed.

Lemma digits_dec_N (n : N) : exists k : nat, digits_go (dec_N n) false 0 = Some (Z.of_N n).
Proof.
  unfold dec_N. destruct (digits_dec_go (N.size_nat n) n EmptyString false 0) as [k Hk];
    [apply size_nat_bound|].
  exists k. rewrite Hk. cbn. done.
Qed.


Lemma digit_not_space (c : ascii) : is_digit c = true -> is_space c = false.
Proof.
  unfold is_digit, is_space. intros H. apply andb_prop in H as [H1 H2].
  apply Nat.leb_le in H1, H2.
  apply orb_false_intro; apply andb_false_iff;
    right; apply Nat.leb_gt; lia.
Qed.

Lemma chars_app (x y : string) :
  list_ascii_of_string (x ++ y)%string = list_ascii_of_string x ++ list_ascii_of_string y.
Proof. induction x as [|a x IHx]; [done|]. rewrite DepsTextFacts.str_app_cons. cbn. by rewrite IHx. Qed.

Lemma chars_rev_str (s : string) :
  list_ascii_of_string (rev_str s EmptyString) = rev (list_ascii_of_string s).
Proof.
  induction s as [|c s IH]; [done|]. cbn [rev_str list_ascii_of_string].
  rewrite DepsTextFacts.rev_str_acc, chars_app, IH. done.
Qed.

Lemma strip_nonspace (s : string) :
  Forall (fun c => is_space c = false) (list_ascii_of_string s) -> strip s = s.
Proof.
  intros H. apply DepsTextFacts.strip_id.
  - destruct s as [|c r]; [done|]. cbn in *. apply Forall_cons in H as [H _]. by rewrite H.
  - destruct (rev_str s EmptyString) as [|c r] eqn:E; [done|].
    apply (f_equal list_ascii_of_string) in E. rewrite chars_rev_str in E.
    apply Forall_rev in H. rewrite E in H. cbn in *.
    apply Forall_cons in H as [H _]. by rewrite H.
Qed.

Lemma dec_go_digits (f : nat) (n : N) (acc : string) :
  Forall (fun c => is_digit c = true) (list_ascii_of_string acc) ->
  Forall (fun c => is_digit c = true) (list_ascii_of_string (dec_go f n acc)).
Proof.
  revert n acc; induction f as [|f IH]; intros n acc H; [done|]. cbn [dec_go].
  assert (Hm : (n mod 10 < 10)%N) by (apply N.mod_lt; lia).
  destruct (digit_char_is_digit _ Hm) as [Hd _].
  destruct (n <? 10)%N; [|apply IH]; cbn; by constructor.
Qed.

Lemma dec_go_head (f : nat) (n : N) (c : ascii) (r : string) :
  is_digit c = true ->
  exists c' r', dec_go f n (String c r) = String c' r' /\ is_digit c' = true.
Proof.
  revert n c r; induction f as [|f IH]; intros n c r Hc; [by eexists _, _|].
  cbn [dec_go].
  assert (Hm : (n mod 10 < 10)%N) by (apply N.mod_lt; lia).
  destruct (digit_char_is_digit _ Hm) as [Hd _].
  destruct (n <? 10)%N; [by eexists _, _|]. by apply IH.
Qed.

Lemma dec_N_head (n : N) : exists c r, dec_N n = String c r /\ is_digit c = true.
Proof.
  unfold dec_N. cbn [dec_go].
  assert (Hm : (n mod 10 < 10)%N) by (apply N.mod_lt; lia).
  destruct (digit_char_is_digit _ Hm) as [Hd _].
  destruct (n <? 10)%N; [by eexists _, _|]. by apply dec_go_head.
Qed.

Lemma dec_N_nonspace (n : N) :
  Forall (fun c => is_space c = false) (list_ascii_of_string (dec_N n)).
Proof.
  eapply Forall_impl; [apply dec_go_digits; constructor|]. apply digit_not_space.
Qed.

(** A digit in front is not a sign: [parse_int] reads the digits. *)
Lemma parse_int_digit_head (c : ascii) (r : string) :
  is_digit c = true -> strip (String c r) = String c r ->
  parse_int (String c r) = digits_go (String c r) false 0.
Proof.
  intros Hc Hs. unfold parse_int. rewrite Hs.
  unfold is_digit in Hc. apply andb_prop in Hc as [H1 H2].
  apply Nat.leb_le in H1, H2.
  rewrite <- (ascii_nat_embedding c).
  assert (Hn : forall k : nat, (48 <= k <= 57)%nat -> (k = 48 \/ k = 49 \/ k = 50 \/ k = 51
     \/ k = 52 \/ k = 53 \/ k = 54 \/ k = 55 \/ k = 56 \/ k = 57)%nat) by lia.
  destruct (Hn (nat_of_ascii c)) as [E|[E|[E|[E|[E|[E|[E|[E|[E|E]]]]]]]]]; [lia|..];
    rewrite E; reflexivity.
Qed.

Lemma parse_int_str_int (z : Z) : parse_int (str_int z) = Some z.
Proof.
  unfold str_int. destruct (z <? 0) eqn:Hz.
  - apply Z.ltb_lt in Hz. unfold parse_int.
    rewrite strip_nonspace.
    2:{ cbn. constructor; [reflexivity|]. apply dec_N_nonspace. }
    rewrite DepsTextFacts.str_app_cons, DepsTextFacts.str_app_nil_l. cbn [option_map].
    destruct (digits_dec_N (Z.to_N (- z))) as [k ->]. cbn. f_equal. lia.
  - apply Z.ltb_ge in Hz.
    destruct (dec_N_head (Z.to_N z)) as (c & r & Ed & Hc).
    rewrite Ed, parse_int_digit_head, <- Ed.
    + destruct (digits_dec_N (Z.to_N z)) as [k ->]. f_equal. lia.
    + done.
    + rewrite <- Ed. apply strip_nonspace, dec_N_nonspace.
Qed.

(** X14: an [int] parameter given as the decimal text of [z] is passed on
    the command line as that same text and recorded as the integer [z]. *)
Theorem int_param_roundtrip (R : float_runtime) (name : string) (m : meta)
    (schema' : list (string * meta)) (p : dict string pyval) (cli : list pyval)
    (eff : dict string pyval) (z : Z) :
  type_of m = PStr "int" -> param_get p name = PStr (str_int z) ->
  go R ((name, m) :: schema') p cli eff
  = go R schema' p (cli ++ [flag_of m; PStr (str_int z)]) (dict_set name (PInt z) eff).
Proof.
  intros Ht Hp. cbn [go]. rewrite Hp, decide_False by discriminate.
  unfold coerce. rewrite Ht, decide_True by reflexivity. cbn [py_int].
  rewrite parse_int_str_int. reflexivity.
Qed.

Lemma int_param_roundtrip_witness :
  type_of MarshalFacts.m_int_req = PStr "int" /\
  param_get [("n", PStr (str_int (-42)))] "n" = PStr (str_int (-42)) /\
  build_cli_args MarshalFacts.R0 [("n", MarshalFacts.m_int_req)] [("n", PStr (str_int (-42)))]
  = Ok ([PStr "--n"; PStr (str_int (-42))], [("n", PInt (-42))]).
Proof.
  assert (Ht : type_of MarshalFacts.m_int_req = PStr "int") by reflexivity.
  assert (Hp : param_get [("n", PStr (str_int (-42)))] "n" = PStr (str_int (-42)))
    by reflexivity.
  split; [exact Ht|]. split; [exact Hp|].
  unfold build_cli_args.
  rewrite (int_param_roundtrip MarshalFacts.R0 "n" MarshalFacts.m_int_req [] _ [] [] (-42) Ht Hp).
  reflexivity.
Defined.

End MarshalTokenFacts.
Module HashFacts.
Import Py MD5 Deps.

Definition hex_digits : list ascii := list_ascii_of_string "0123456789abcdef".

Lemma le_bytes_length (n : nat) (x : Z) : length (le_bytes n x) = n.
Proof. unfold le_bytes. by rewrite length_map, length_seq. Qed.

Lemma le_bytes_range (n : nat) (x : Z) : Forall (fun b => 0 <= b < 256) (le_bytes n x).
Proof.
  unfold le_bytes. apply Forall_forall. intros b Hb. apply list_elem_of_In in Hb.
  apply in_map_iff in Hb as (i & <- & _).
  change 255 with (Z.ones 8). rewrite Z.land_ones by lia.
  apply Z.mod_pos_bound. lia.
Qed.

Lemma digest_length (msg : list Z) : length (digest msg) = 16%nat.
Proof.
  unfold digest. destruct (chunks _ _ _) as [[[a b] c] d].
  rewrite !length_app, !le_bytes_length. done.
Qed.

Lemma digest_range (msg : list Z) : Forall (fun b => 0 <= b < 256) (digest msg).
Proof.
  unfold digest. destruct (chunks _ _ _) as [[[a b] c] d].
  rewrite !Forall_app. repeat split; apply le_bytes_range.
Qed.

Lemma hex_char_digit (d : Z) : 0 <= d < 16 -> hex_char d ∈ hex_digits.
Proof.
  intros Hd.
  assert (H : d = 0 \/ d = 1 \/ d = 2 \/ d = 3 \/ d = 4 \/ d = 5 \/ d = 6 \/ d = 7 \/
              d = 8 \/ d = 9 \/ d = 10 \/ d = 11 \/ d = 12 \/ d = 13 \/ d = 14 \/ d = 15) by lia.
  repeat destruct H as [->|H]; [..|subst d]; vm_compute; repeat first [left | right].
Qed.

Lemma hex_length (bs : list Z) : String.length (hex bs) = (2 * length bs)%nat.
Proof. induction bs as [|b bs IH]; [done|]. cbn [hex String.length length]. rewrite IH. lia. Qed.

Lemma hex_chars (bs : list Z) :
  Forall (fun b => 0 <= b < 256) bs ->
  Forall (fun c => c ∈ hex_digits) (list_ascii_of_string (hex bs)).
Proof.
  induction bs as [|b bs IH]; intros H; [constructor|].
  apply Forall_cons in H as [Hb H]. cbn [hex list_ascii_of_string].
  constructor; [|constructor; [|by apply IH]]; apply hex_char_digit.
  - rewrite Z.shiftr_div_pow2 by lia. change (2 ^ 4) with 16. split.
    + apply Z.div_pos; lia.
    + apply Z.div_lt_upper_bound; lia.
  - change 15 with (Z.ones 4). rewrite Z.land_ones by lia. apply Z.mod_pos_bound. lia.
Qed.

Lemma substring_chars (P : ascii -> Prop) (m n : nat) (s : string) :
  Forall P (list_ascii_of_string s) -> Forall P (list_ascii_of_string (substring m n s)).
Proof.
  revert m n; induction s as [|c s IH]; intros m n H; [by destruct m, n|].
  apply Forall_cons in H as [Hc H].
  destruct m as [|m]; [destruct n as [|n]|]; cbn; [constructor| |by apply IH].
  constructor; [done|]. by apply (IH 0%nat).
Qed.

Lemma substring_length (n : nat) (s : string) :
  (n <= String.length s)%nat -> String.length (substring 0 n s) = n.
Proof.
  revert n; induction s as [|c s IH]; intros n H; [cbn in H; by destruct n; [|lia]|].
  destruct n as [|n]; [done|]. cbn in *. rewrite IH; lia.
Qed.

(** X15: [hashlib.md5(...).hexdigest()] is 32 lowercase hexadecimal digits,
    and the dependency hash, its first 16, is 16 of them: the cache
    directory name it gives has no separator or other special character. *)
Theorem deps_hash_hex (data : list Z) (deps : list dep) :
  String.length (hexdigest data) = 32%nat /\
  Forall (fun c => c ∈ hex_digits) (list_ascii_of_string (hexdigest data)) /\
  String.length (calculate_deps_hash deps) = 16%nat /\
  Forall (fun c => c ∈ hex_digits) (list_ascii_of_string (calculate_deps_hash deps)).
Proof.
  unfold calculate_deps_hash, hexdigest.
  split; [by rewrite hex_length, digest_length|].
  split; [apply hex_chars, digest_range|].
  split.
  - apply substring_length. rewrite hex_length, digest_length. lia.
  - apply substring_chars, hex_chars, digest_range.
Qed.

End HashFacts.

Module InstallFacts.
Import Py Deps DepsText.

(** X16: [install_python_deps] answers status 1 or 2, 1 exactly when pip
    exits with 0; it appends one install log row with that status and
    log; [requirements.txt] is left alone unless the install succeeded,
    and is rewritten by [update_requirements_txt] when that succeeds. *)
Theorem install_python_deps_log (o : proc_outcome) (u : option (exc * option string))
    (deps : list dep) (s : gstate) :
  let '((log, st), s') := install_python_deps o u deps s in
  (st = 1 /\ (exists out, o = ProcExited 0 out) \/
   st = 2 /\ (forall out, o <> ProcExited 0 out) /\ g_requirements s' = g_requirements s) /\
  g_install_logs s' = g_install_logs s ++
    [{| log_runtime := "python"; log_requested := deps; log_text := log; log_status := st |}] /\
  (u = None -> st = 1 ->
   g_requirements s' = Some (update_requirements_txt (g_requirements s) deps) /\
   o = ProcExited 0 log).
Proof.
  destruct o as [rc out|e]; cbn [install_python_deps].
  - destruct (rc =? 0) eqn:Hrc; cbn [Z.eqb].
    + apply Z.eqb_eq in Hrc as ->. destruct u as [[e after]|]; cbn.
      * split; [left; split; [done|by eexists]|]. split; [done|]. by intros ?.
      * split; [left; split; [done|by eexists]|]. split; [done|]. done.
    + apply Z.eqb_neq in Hrc. cbn.
      split; [right; split; [done|split; [intros ? [=]; lia|done]]|]. split; [done|].
      intros _ [=].
  - cbn. split; [right; split; [done|split; [by intros ?|done]]|]. split; [done|].
    intros _ [=].
Qed.

(** X17: [install_node_deps] answers status 1 or 2, 1 exactly when npm
    exits with 0, appends one install log row for [javascript] with that
    status and log, and never touches [requirements.txt]. *)
Theorem install_node_deps_log (o : proc_outcome) (deps : list dep) (s : gstate) :
  let '((log, st), s') := install_node_deps o deps s in
  (st = 1 /\ (exists out, o = ProcExited 0 out /\ log = out) \/
   st = 2 /\ (forall out, o <> ProcExited 0 out)) /\
  g_requirements s' = g_requirements s /\
  g_install_logs s' = g_install_logs s ++
    [{| log_runtime := "javascript"; log_requested := deps; log_text := log; log_status := st |}].
Proof.
  destruct o as [rc out|e]; cbn [install_node_deps].
  - destruct (rc =? 0) eqn:Hrc; cbn.
    + apply Z.eqb_eq in Hrc as ->. split; [left; split; [done|by eexists]|]. done.
    + apply Z.eqb_neq in Hrc. split; [right; split; [done|intros ? [=]; lia]|]. done.
  - cbn. split; [right; split; [done|by intros ?]|]. done.
Qed.

Definition g0 : gstate := {| g_requirements := None; g_install_logs := [] |}.

Lemma install_python_deps_log_witness :
  g_requirements (install_python_deps (ProcExited 0 "ok") None [DepsFacts.req20] g0).2
  = Some (update_requirements_txt None [DepsFacts.req20]).
Proof.
  pose proof (install_python_deps_log (ProcExited 0 "ok") None [DepsFacts.req20] g0) as H.
  destruct (install_python_deps (ProcExited 0 "ok") None [DepsFacts.req20] g0)
    as [[log st] s'] eqn:E.
  assert (Hst : st = 1) by (injection E; intros; subst; reflexivity).
  destruct H as (_ & _ & H). exact (proj1 (H eq_refl Hst)).
Defined.

End InstallFacts.

Module CacheFacts.
Import Py Deps.

Lemma write_file_mono (p : path) (c : string) (s : dstate) (x : path) :
  x ∈ d_dirs s -> x ∈ d_dirs (write_file p c s).
Proof. intros Hx. unfold write_file. cbn [d_dirs]. by apply DepsFacts.makedirs_mono. Qed.

Lemma write_files_invocations (dir : path) (fs : list (path * string)) (s : dstate) :
  d_invocations (write_files dir fs s) = d_invocations s.
Proof.
  unfold write_files. revert s. induction fs as [|f fs IH]; intros s; [done|].
  cbn [fold_left]. by rewrite IH.
Qed.

Lemma finish_invocations (W : install_world) (cp : path) (s : dstate) :
  d_invocations (finish W cp s).2 = d_invocations s.
Proof.
  unfold finish. destruct (iw_outcome W) as [rc out| |e]; [|done|done].
  destruct (rc =? 0); [|done]. by destruct (iw_meta_error W).
Qed.

Lemma rmtree_keep (p d : path) (s : dstate) :
  d ∈ d_dirs s -> is_prefix p d = false -> d ∈ d_dirs (rmtree p s).
Proof. intros Hd Hp. unfold rmtree. cbn [d_dirs]. apply list_elem_of_filter. by rewrite Hp. Qed.

Lemma finish_keep (W : install_world) (cp d : path) (s : dstate) :
  d ∈ d_dirs s -> is_prefix cp d = false -> d ∈ d_dirs (finish W cp s).2.
Proof.
  intros Hd Hp. unfold finish.
  destruct (iw_outcome W) as [rc out| |e]; cbn [snd]; [|by apply rmtree_keep|by apply rmtree_keep].
  destruct (rc =? 0); [|by apply rmtree_keep].
  destruct (iw_meta_error W); [by apply rmtree_keep|]. cbn [snd]. by apply write_file_mono.
Qed.

Lemma finish_success (W : install_world) (cp : path) (s : dstate) :
  i_success (finish W cp s).1 = true ->
  (finish W cp s).1 = installed cp /\
  (exists out, (cp ++ [META], out) ∈ d_files (finish W cp s).2) /\
  (cp ∈ d_dirs s -> cp ∈ d_dirs (finish W cp s).2).
Proof.
  unfold finish. destruct (iw_outcome W) as [rc out| |e]; cbn; [|done|done].
  destruct (rc =? 0); [|done]. destruct (iw_meta_error W); [done|]. intros _.
  split; [done|]. split.
  - exists out. cbn. apply elem_of_cons. by left.
  - apply write_file_mono.
Qed.

Lemma hit_again_python (W : install_world) (base : path) (deps : list dep) (s : dstate) :
  is_cache_valid (get_cache_path base (calculate_deps_hash deps) "python") s = true ->
  install_python W base deps false s = (hit (get_cache_path base (calculate_deps_hash deps) "python"), s).
Proof. intros Hv. unfold install_python. by rewrite Hv. Qed.

Lemma hit_again_nodejs (W : install_world) (base : path) (deps : list dep) (s : dstate) :
  is_cache_valid (get_cache_path base (calculate_deps_hash deps) "nodejs") s = true ->
  install_nodejs W base deps false s = (hit (get_cache_path base (calculate_deps_hash deps) "nodejs"), s).
Proof. intros Hv. unfold install_nodejs. by rewrite Hv. Qed.

Lemma install_python_success (W : install_world) (base : path) (deps : list dep)
    (force : bool) (s : dstate) (r : iresult) (s' : dstate) :
  let cp := get_cache_path base (calculate_deps_hash deps) "python" in
  install_python W base deps force s = (r, s') -> i_success r = true ->
  (r = hit cp /\ s' = s \/ r = installed cp /\ exists out, (cp ++ [META], out) ∈ d_files s') /\
  is_cache_valid cp s' = true.
Proof.
  cbv zeta. intros Hrun Hs.
  pose proof (DepsFacts.get_cache_path_nonempty base (calculate_deps_hash deps) "python") as Hne.
  unfold install_python in Hrun.
  destruct (negb force && is_cache_valid _ s) eqn:Hc.
  - injection Hrun as <- <-. apply andb_prop in Hc as [_ Hc]. split; [by left|done].
  - destruct (iw_makedirs_error W); [by injection Hrun as <- _|].
    destruct (iw_popen_error W); [by injection Hrun as <- _|].
    set (s0 := write_files _ _ _) in Hrun.
    assert (Hin : get_cache_path base (calculate_deps_hash deps) "python" ∈ d_dirs s0).
    { apply DepsFacts.write_files_mono. cbn [invoke d_dirs]. by apply DepsFacts.makedirs_self. }
    pose proof (finish_success W (get_cache_path base (calculate_deps_hash deps) "python") s0) as Hf.
    rewrite Hrun in Hf. destruct (Hf Hs) as (Hr & Hm & Hd). cbn in Hr, Hm, Hd.
    split; [right; by split|].
    unfold is_cache_valid, is_dir. apply bool_decide_eq_true_2. by apply Hd.
Qed.

Lemma install_nodejs_success (W : install_world) (base : path) (deps : list dep)
    (force : bool) (s : dstate) (r : iresult) (s' : dstate) :
  let cp := get_cache_path base (calculate_deps_hash deps) "nodejs" in
  install_nodejs W base deps force s = (r, s') -> i_success r = true ->
  (r = hit cp /\ s' = s \/ r = installed cp /\ exists out, (cp ++ [META], out) ∈ d_files s') /\
  is_cache_valid cp s' = true.
Proof.
  cbv zeta. intros Hrun Hs.
  pose proof (DepsFacts.get_cache_path_nonempty base (calculate_deps_hash deps) "nodejs") as Hne.
  unfold install_nodejs in Hrun.
  destruct (negb force && is_cache_valid _ s) eqn:Hc.
  - injection Hrun as <- <-. apply andb_prop in Hc as [_ Hc]. split; [by left|done].
  - destruct (iw_makedirs_error W); [by injection Hrun as <- _|].
    destruct (iw_pkg_json_error W); [by injection Hrun as <- _|].
    destruct (iw_popen_error W); [by injection Hrun as <- _|].
    set (s0 := write_files _ _ _) in Hrun.
    assert (Hin : get_cache_path base (calculate_deps_hash deps) "nodejs" ∈ d_dirs s0).
    { apply DepsFacts.write_files_mono. cbn [invoke d_dirs].
      apply write_file_mono. by apply DepsFacts.makedirs_self. }
    pose proof (finish_success W (get_cache_path base (calculate_deps_hash deps) "nodejs") s0) as Hf.
    rewrite Hrun in Hf. destruct (Hf Hs) as (Hr & Hm & Hd). cbn in Hr, Hm, Hd.
    split; [right; by split|].
    unfold is_cache_valid, is_dir. apply bool_decide_eq_true_2. by apply Hd.
Qed.

(** X18: a successful [_install_python_deps_with_cache] returns the cache
    path of the dependency set, either from cache with nothing changed or
    freshly installed with its [.deps_meta.json] written; after it, a
    request for the same set without [force_reinstall] is a cache hit
    that changes nothing. The same holds for the Node.js installer. *)
Theorem install_success_then_hit (W W' : install_world) (base : path) (deps : list dep)
    (force : bool) (s : dstate) :
  (let cp := get_cache_path base (calculate_deps_hash deps) "python" in
   forall r s', install_python W base deps force s = (r, s') -> i_success r = true ->
   (r = hit cp /\ s' = s \/ r = installed cp /\ exists out, (cp ++ [META], out) ∈ d_files s') /\
   install_python W' base deps false s' = (hit cp, s')) /\
  (let cp := get_cache_path base (calculate_deps_hash deps) "nodejs" in
   forall r s', install_nodejs W base deps force s = (r, s') -> i_success r = true ->
   (r = hit cp /\ s' = s \/ r = installed cp /\ exists out, (cp ++ [META], out) ∈ d_files s') /\
   install_nodejs W' base deps false s' = (hit cp, s')).
Proof.
  split; cbv zeta; intros r s' Hrun Hs.
  - destruct (install_python_success W base deps force s r s' Hrun Hs) as [Hr Hv].
    split; [done|]. by apply hit_again_python.
  - destruct (install_nodejs_success W base deps force s r s' Hrun Hs) as [Hr Hv].
    split; [done|]. by apply hit_again_nodejs.
Qed.

(** X19: one call of [_install_python_deps_with_cache] starts at most one
    package manager: [pip install --target <cache path>] with the
    dependency specs, exactly when the cache is not used and neither
    [os.makedirs] nor [Popen] fails. *)
Theorem install_python_invocations (W : install_world) (base : path) (deps : list dep)
    (force : bool) (s : dstate) :
  let cp := get_cache_path base (calculate_deps_hash deps) "python" in
  d_invocations (install_python W base deps force s).2 =
  d_invocations s ++
    (if negb force && is_cache_valid cp s then []
     else match iw_makedirs_error W, iw_popen_error W with
          | None, None => [["python3"; "-m"; "pip"; "install"; "--target"; path_str cp]
                             ++ map dep_spec deps]
          | _, _ => []
          end).
Proof.
  cbv zeta. unfold install_python.
  destruct (negb force && is_cache_valid _ s); cbn [snd]; [by rewrite app_nil_r|].
  destruct (iw_makedirs_error W); cbn [snd]; [by rewrite app_nil_r|].
  destruct (iw_popen_error W); cbn [snd]; [by rewrite app_nil_r|].
  by rewrite finish_invocations, write_files_invocations.
Qed.

(** X20: the Node.js installer likewise starts at most one [npm install
    --prefix <cache path>], exactly when the cache is not used and none of
    [os.makedirs], the [package.json] write and [Popen] fails. *)
Theorem install_nodejs_invocations (W : install_world) (base : path) (deps : list dep)
    (force : bool) (s : dstate) :
  let cp := get_cache_path base (calculate_deps_hash deps) "nodejs" in
  d_invocations (install_nodejs W base deps force s).2 =
  d_invocations s ++
    (if negb force && is_cache_valid cp s then []
     else match iw_makedirs_error W, iw_pkg_json_error W, iw_popen_error W with
          | None, None, None => [["npm"; "install"; "--prefix"; path_str cp]]
          | _, _, _ => []
          end).
Proof.
  cbv zeta. unfold install_nodejs.
  destruct (negb force && is_cache_valid _ s); cbn [snd]; [by rewrite app_nil_r|].
  destruct (iw_makedirs_error W); cbn [snd]; [by rewrite app_nil_r|].
  destruct (iw_pkg_json_error W); cbn [snd]; [by rewrite app_nil_r|].
  destruct (iw_popen_error W); cbn [snd]; [by rewrite app_nil_r|].
  by rewrite finish_invocations, write_files_invocations.
Qed.

Lemma install_python_keep (W : install_world) (base : path) (deps : list dep)
    (force : bool) (s : dstate) (d : path) :
  d ∈ d_dirs s -> is_prefix (get_cache_path base (calculate_deps_hash deps) "python") d = false ->
  d ∈ d_dirs (install_python W base deps force s).2.
Proof.
  intros Hd Hp. unfold install_python.
  destruct (negb force && is_cache_valid _ s); [done|].
  destruct (iw_makedirs_error W); [by apply rmtree_keep|].
  destruct (iw_popen_error W); [apply rmtree_keep; [by apply DepsFacts.makedirs_mono|done]|].
  apply finish_keep; [|done]. apply DepsFacts.write_files_mono. by apply DepsFacts.makedirs_mono.
Qed.

Lemma install_nodejs_keep (W : install_world) (base : path) (deps : list dep)
    (force : bool) (s : dstate) (d : path) :
  d ∈ d_dirs s -> is_prefix (get_cache_path base (calculate_deps_hash deps) "nodejs") d = false ->
  d ∈ d_dirs (install_nodejs W base deps force s).2.
Proof.
  intros Hd Hp. unfold install_nodejs.
  destruct (negb force && is_cache_valid _ s); [done|].
  destruct (iw_makedirs_error W); [by apply rmtree_keep|].
  destruct (iw_pkg_json_error W); [apply rmtree_keep; [by apply DepsFacts.makedirs_mono|done]|].
  destruct (iw_popen_error W).
  - apply rmtree_keep; [|done]. apply write_file_mono. by apply DepsFacts.makedirs_mono.
  - apply finish_keep; [|done]. apply DepsFacts.write_files_mono.
    apply write_file_mono. by apply DepsFacts.makedirs_mono.
Qed.

(** X21: an install attempt, successful or not, removes no directory
    outside its own cache path: the cache entries of other dependency
    sets survive it. *)
Theorem install_keeps_other_dirs (W : install_world) (base : path) (deps : list dep)
    (force : bool) (s : dstate) (d : path) :
  d ∈ d_dirs s ->
  (is_prefix (get_cache_path base (calculate_deps_hash deps) "python") d = false ->
   d ∈ d_dirs (install_python W base deps force s).2) /\
  (is_prefix (get_cache_path base (calculate_deps_hash deps) "nodejs") d = false ->
   d ∈ d_dirs (install_nodejs W base deps force s).2).
Proof.
  intros Hd. split; intros Hp; [by apply install_python_keep|by apply install_nodejs_keep].
Qed.

Lemma is_prefix_app (b x y : path) : is_prefix (b ++ x) (b ++ y) = is_prefix x y.
Proof. induction b as [|c b IH]; [done|]. cbn. by rewrite String.eqb_refl, IH. Qed.

Lemma cache_paths_apart (base : path) (h h' : string) :
  is_prefix (get_cache_path base h "nodejs") (get_cache_path base h' "python") = false.
Proof. unfold get_cache_path. by rewrite is_prefix_app. Qed.

Definition W_ok : install_world :=
  {| iw_makedirs_error := None; iw_pkg_json_error := None; iw_popen_error := None;
     iw_partial := []; iw_outcome := PmExited 0 "ok"; iw_later := []; iw_meta_error := None |}.

Lemma install_success_then_hit_witness :
  i_success (install_python W_ok DepsFacts.base0 [DepsFacts.req20] false DepsFacts.d_empty).1 = true /\
  install_python W_ok DepsFacts.base0 [DepsFacts.req20] false
    (install_python W_ok DepsFacts.base0 [DepsFacts.req20] false DepsFacts.d_empty).2
  = (hit (get_cache_path DepsFacts.base0 (calculate_deps_hash [DepsFacts.req20]) "python"),
     (install_python W_ok DepsFacts.base0 [DepsFacts.req20] false DepsFacts.d_empty).2).
Proof.
  assert (Hs : i_success (install_python W_ok DepsFacts.base0 [DepsFacts.req20] false
                            DepsFacts.d_empty).1 = true)
    by (vm_compute; reflexivity).
  split; [exact Hs|].
  exact (proj2 (proj1 (install_success_then_hit W_ok W_ok DepsFacts.base0 [DepsFacts.req20]
                         false DepsFacts.d_empty) _ _ (surjective_pairing _) Hs)).
Defined.

Definition d_other : dstate :=
  {| d_dirs := [["deps_cache"; "python"; "0000000000000000"]]; d_files := [];
     d_invocations := []; d_pm_running := [] |}.

Lemma install_keeps_other_dirs_witness :
  ["deps_cache"; "python"; "0000000000000000"] ∈ d_dirs d_other /\
  ["deps_cache"; "python"; "0000000000000000"]
    ∈ d_dirs (install_python W_ok DepsFacts.base0 [DepsFacts.req20] true d_other).2.
Proof.
  assert (Hd : ["deps_cache"; "python"; "0000000000000000"] ∈ d_dirs d_other) by left.
  split; [exact Hd|].
  apply (proj1 (install_keeps_other_dirs W_ok DepsFacts.base0 [DepsFacts.req20] true d_other _ Hd)).
  vm_compute. reflexivity.
Defined.

End CacheFacts.

Module EnvFacts.
Import Py Deps DepsEnv.

Lemma env_python (base : path) (py js : list dep) (s : dstate) :
  py <> [] ->
  is_cache_valid (get_cache_path base (calculate_deps_hash py) "python") s = true ->
  env_python_path (get_execution_environment base py js s)
    = Some (get_cache_path base (calculate_deps_hash py) "python") /\
  dict_get "PYTHONPATH" (env_extra (get_execution_environment base py js s))
    = Some (get_cache_path base (calculate_deps_hash py) "python").
Proof.
  intros Hne Hv. destruct py as [|p0 py']; [done|].
  unfold get_execution_environment. cbv beta iota zeta. rewrite Hv.
  destruct js as [|q0 js']; [done|]. cbv beta iota zeta.
  destruct (is_cache_valid (get_cache_path base (calculate_deps_hash (q0 :: js')) "nodejs") s);
    [destruct (path_exists _ s)|]; cbn.
  all: split; [done|]; repeat case_bool_decide; cbn; try congruence;
    repeat case_bool_decide; done.
Qed.

Lemma env_node (base : path) (py js : list dep) (s : dstate) :
  js <> [] ->
  is_cache_valid (get_cache_path base (calculate_deps_hash js) "nodejs") s = true ->
  let nm := get_cache_path base (calculate_deps_hash js) "nodejs" ++ ["node_modules"] in
  env_node_path (get_execution_environment base py js s)
    = (if path_exists nm s then Some nm else None) /\
  dict_get "NODE_PATH" (env_extra (get_execution_environment base py js s))
    = (if path_exists nm s then Some nm else None).
Proof.
  intros Hne Hv. destruct js as [|q0 js']; [done|].
  unfold get_execution_environment.
  destruct py as [|p0 py'];
    [|destruct (is_cache_valid (get_cache_path base (calculate_deps_hash (p0 :: py')) "python") s)];
    cbv beta iota zeta; rewrite Hv;
    destruct (path_exists (get_cache_path base (calculate_deps_hash (q0 :: js')) "nodejs"
                             ++ ["node_modules"]) s); cbn.
  all: split; [done|]; repeat case_bool_decide; cbn; try congruence;
    repeat case_bool_decide; done.
Qed.

(** X22: after [install_script_dependencies], a successful Python install
    makes [get_execution_environment] for the same dependencies set
    [PYTHONPATH] to the cache path it reported: the Node.js install that
    follows in the same call does not remove it. A successful Node.js
    install reports its cache path, and both [node_path] and the
    [NODE_PATH] entry of [extra_env] are its [node_modules] directory when
    that exists, and unset otherwise. *)
Theorem install_then_environment (Wp Wj : install_world) (base : path) (py js : list dep)
    (force : bool) (s : dstate) :
  let '(res, s') := install_script_dependencies Wp Wj base py js force s in
  let env := get_execution_environment base py js s' in
  (si_installed_python res = true ->
   exists cp, si_cache_python res = Some cp /\
     cp = get_cache_path base (calculate_deps_hash py) "python" /\
     env_python_path env = Some cp /\ dict_get "PYTHONPATH" (env_extra env) = Some cp) /\
  (si_installed_nodejs res = true ->
   exists cp, si_cache_nodejs res = Some cp /\
     cp = get_cache_path base (calculate_deps_hash js) "nodejs" /\
     env_node_path env = (if path_exists (cp ++ ["node_modules"]) s'
                          then Some (cp ++ ["node_modules"]) else None) /\
     dict_get "NODE_PATH" (env_extra env) = (if path_exists (cp ++ ["node_modules"]) s'
                                            then Some (cp ++ ["node_modules"]) else None)).
Proof.
  unfold install_script_dependencies.
  destruct (match py with [] => _ | _ => _ end) as [[[ip cp] ep] s1] eqn:E1.
  destruct (match js with [] => _ | _ => _ end) as [[[ij cj] ej] s2] eqn:E2.
  cbn [si_installed_python si_installed_nodejs si_cache_python si_cache_nodejs]. split.
  - intros ->. destruct py as [|p0 py']; [by injection E1|].
    destruct (install_python Wp base (p0 :: py') force s) as [r s1'] eqn:Hr.
    injection E1 as Hs Hc _ <-.
    destruct (CacheFacts.install_python_success Wp base (p0 :: py') force s r s1' Hr Hs)
      as [Hrr Hv].
    set (cpp := get_cache_path base (calculate_deps_hash (p0 :: py')) "python") in *.
    assert (Hci : cp = Some cpp) by (rewrite <- Hc; by destruct Hrr as [[-> _]|[-> _]]).
    assert (Hv2 : is_cache_valid cpp s2 = true).
    { destruct js as [|q0 js']; [by injection E2 as _ _ _ <-|].
      destruct (install_nodejs Wj base (q0 :: js') force s1') as [r2 s2'] eqn:Hn.
      injection E2 as _ _ _ <-.
      unfold is_cache_valid, is_dir in *. apply bool_decide_eq_true_2.
      apply bool_decide_eq_true_1 in Hv.
      pose proof (CacheFacts.install_nodejs_keep Wj base (q0 :: js') force s1' cpp Hv
                    (CacheFacts.cache_paths_apart _ _ _)) as Hk.
      by rewrite Hn in Hk. }
    exists cpp. split; [done|]. split; [done|]. by apply env_python.
  - intros ->. destruct js as [|q0 js']; [by injection E2|].
    destruct (install_nodejs Wj base (q0 :: js') force s1) as [r s2'] eqn:Hr.
    injection E2 as Hs Hc _ <-.
    destruct (CacheFacts.install_nodejs_success Wj base (q0 :: js') force s1 r s2' Hr Hs)
      as [Hrr Hv].
    set (cpj := get_cache_path base (calculate_deps_hash (q0 :: js')) "nodejs") in *.
    exists cpj. split; [rewrite <- Hc; by destruct Hrr as [[-> _]|[-> _]]|]. split; [done|].
    by apply env_node.
Qed.

Definition leftpad : dep := {| dep_name := "left-pad"; dep_version := "1.3.0" |}.

(** npm leaves [node_modules/left-pad/index.js] in its prefix. *)
Definition W_npm : install_world :=
  {| iw_makedirs_error := None; iw_pkg_json_error := None; iw_popen_error := None;
     iw_partial := [(["node_modules"; "left-pad"; "index.js"], "module.exports = 1")];
     iw_outcome := PmExited 0 "ok"; iw_later := []; iw_meta_error := None |}.

Lemma install_then_environment_witness :
  let '(res, s') := install_script_dependencies CacheFacts.W_ok W_npm DepsFacts.base0
                      [DepsFacts.req20] [leftpad] false DepsFacts.d_empty in
  let env := get_execution_environment DepsFacts.base0 [DepsFacts.req20] [leftpad] s' in
  si_installed_python res = true /\ si_installed_nodejs res = true /\
  dict_get "PYTHONPATH" (env_extra env) = si_cache_python res /\
  dict_get "NODE_PATH" (env_extra env)
    = option_map (fun cp => cp ++ ["node_modules"]) (si_cache_nodejs res).
Proof.
  assert (Hx : path_exists (get_cache_path DepsFacts.base0 (calculate_deps_hash [leftpad]) "nodejs"
                              ++ ["node_modules"])
                 (install_script_dependencies CacheFacts.W_ok W_npm DepsFacts.base0
                    [DepsFacts.req20] [leftpad] false DepsFacts.d_empty).2 = true)
    by (vm_compute; reflexivity).
  assert (Hp : si_installed_python
                 (install_script_dependencies CacheFacts.W_ok W_npm DepsFacts.base0
                    [DepsFacts.req20] [leftpad] false DepsFacts.d_empty).1 = true)
    by (vm_compute; reflexivity).
  assert (Hj : si_installed_nodejs
                 (install_script_dependencies CacheFacts.W_ok W_npm DepsFacts.base0
                    [DepsFacts.req20] [leftpad] false DepsFacts.d_empty).1 = true)
    by (vm_compute; reflexivity).
  pose proof (install_then_environment CacheFacts.W_ok W_npm DepsFacts.base0 [DepsFacts.req20]
                [leftpad] false DepsFacts.d_empty) as H.
  revert Hx Hp Hj H.
  destruct (install_script_dependencies CacheFacts.W_ok W_npm DepsFacts.base0
              [DepsFacts.req20] [leftpad] false DepsFacts.d_empty) as [res s'].
  cbn [fst snd]. intros Hx Hp Hj [H1 H2].
  destruct (H1 Hp) as (cp & Hc & _ & _ & Hpp).
  destruct (H2 Hj) as (cq & Hcq & -> & _ & Hnp).
  split; [exact Hp|]. split; [exact Hj|]. split; [by rewrite Hpp, Hc|].
  rewrite Hcq, Hnp, Hx. reflexivity.
Defined.

End EnvFacts.

Module ScannerRowFacts.
Import Py Scanner.

(** X23: [parse_and_register] changes nothing for a file that is not a
    [.py]/[.js] script or has no entry point. Otherwise it starts one
    discovery command, updates only the catalog row of the script's
    relative path (which gets the file's MD5 and keeps an existing
    [script_type]) and writes no file but the sidecar. The row is loaded
    (status 1, no error, the schema, also written to the sidecar) when
    discovery exits 0, its output is JSON and the sidecar write succeeds.
    A failing sidecar write gives status 0 with the schema kept and the
    [Invalid schema JSON] message with the write's exception; output that
    is not JSON gives status 0, no schema and that message with the
    parser's exception; a failed discovery gives status 0, no schema and
    a non-empty error message. *)
Theorem parse_and_register_row (W : sworld) (path : string) (s : sstate) :
  match detect_script_type path with
  | None => parse_and_register W path s = s
  | Some stype =>
    if negb (has_entrypoint path stype s) then parse_and_register W path s = s else
    let rp := if String.eqb stype "python" then relpath path SCRIPTS_PY_DIR
              else relpath path SCRIPTS_JS_DIR in
    let cmd := if String.eqb stype "python" then ["python3"; path; "--_sys_get_schema"]
               else ["node"; path; "--_sys_get_schema"] in
    let sp := sidecar_path path in
    let s' := parse_and_register W path s in
    s_discoveries s' = s_discoveries s ++ [cmd] /\
    (forall k, k <> rp -> dict_get k (s_scripts s') = dict_get k (s_scripts s)) /\
    (forall f, f <> sp -> dict_get f (s_files s') = dict_get f (s_files s)) /\
    exists row, dict_get rp (s_scripts s') = Some row /\
      row_file_hash row = md5_file path s /\
      row_script_type row = match dict_get rp (s_scripts s) with
                            | Some r => row_script_type r | None => stype end /\
      ((exists out err j, sw_discover W path = DExited 0 out err /\ sw_json W out = Ok j /\
          sw_sidecar W sp = WriteOk /\
          row_status_load row = 1 /\ row_load_error_msg row = None /\
          row_args_schema row = Some j /\ dict_get sp (s_files s') = Some j) \/
       (exists out err j e, sw_discover W path = DExited 0 out err /\ sw_json W out = Ok j /\
          (sw_sidecar W sp = OpenRaises e \/ exists written, sw_sidecar W sp = WriteRaises e written) /\
          row_status_load row = 0 /\ row_load_error_msg row = Some (invalid_schema_msg e out) /\
          row_args_schema row = Some j) \/
       (exists out err e, sw_discover W path = DExited 0 out err /\ sw_json W out = Err e /\
          row_status_load row = 0 /\ row_load_error_msg row = Some (invalid_schema_msg e out) /\
          row_args_schema row = None /\ s_files s' = s_files s) \/
       ((forall out err, sw_discover W path <> DExited 0 out err) /\
          row_status_load row = 0 /\ row_args_schema row = None /\ s_files s' = s_files s /\
          exists m, row_load_error_msg row = Some m /\ m <> EmptyString))
  end.
Proof.
  unfold parse_and_register.
  destruct (detect_script_type path) as [stype|]; [|done].
  destruct (has_entrypoint path stype s) eqn:He; cbn [negb]; [|done].
  set (rp := if String.eqb stype "python" then relpath _ _ else _).
  set (cmd := if String.eqb stype "python" then ["python3"; _; _] else _).
  set (sp := sidecar_path path).
  unfold run_get_schema.
  destruct (sw_discover W path) as [rc out err|e] eqn:Hw.
  - destruct (rc =? 0) eqn:Hrc.
    + apply Z.eqb_eq in Hrc as ->. cbn [Marshal.get_or].
      destruct (sw_json W out) as [j|e] eqn:Hj.
      * unfold write_sidecar. destruct (sw_sidecar W sp) as [|e|e written] eqn:Hs; cbn.
        -- split; [done|]. split.
           { intros k Hk. by rewrite DepsTextFacts.dict_get_set_ne. }
           split; [intros f Hf; by rewrite DepsTextFacts.dict_get_set_ne|].
           eexists. rewrite DepsTextFacts.dict_get_set_eq. split; [done|].
           split; [done|]. split; [done|]. left.
           exists out, err, j. do 6 (split; [done|]). by rewrite DepsTextFacts.dict_get_set_eq.
        -- split; [done|]. split.
           { intros k Hk. by rewrite DepsTextFacts.dict_get_set_ne. }
           split; [done|].
           eexists. rewrite DepsTextFacts.dict_get_set_eq. split; [done|].
           split; [done|]. split; [done|]. right; left.
           exists out, err, j, e. split; [done|]. split; [done|]. split; [by left|]. done.
        -- split; [done|]. split.
           { intros k Hk. by rewrite DepsTextFacts.dict_get_set_ne. }
           split; [intros f Hf; by rewrite DepsTextFacts.dict_get_set_ne|].
           eexists. rewrite DepsTextFacts.dict_get_set_eq. split; [done|].
           split; [done|]. split; [done|]. right; left.
           exists out, err, j, e. split; [done|]. split; [done|].
           split; [right; by exists written|]. done.
      * cbn. split; [done|]. split.
        { intros k Hk. by rewrite DepsTextFacts.dict_get_set_ne. }
        split; [done|].
        eexists. rewrite DepsTextFacts.dict_get_set_eq. split; [done|].
        split; [done|]. split; [done|]. right; right; left.
        exists out, err, e. done.
    + apply Z.eqb_neq in Hrc. cbn. split; [done|]. split.
      { intros k Hk. by rewrite DepsTextFacts.dict_get_set_ne. }
      split; [done|].
      eexists. rewrite DepsTextFacts.dict_get_set_eq. split; [done|].
      split; [done|]. split; [done|]. right; right; right.
      split; [intros o' e' [= ? _]; lia|]. split; [done|]. split; [done|]. split; [done|].
      eexists. split; [done|]. destruct (String.eqb err EmptyString) eqn:Ee; [discriminate|].
      apply String.eqb_neq in Ee. done.
  - cbn. split; [done|]. split.
    { intros k Hk. by rewrite DepsTextFacts.dict_get_set_ne. }
    split; [done|].
    eexists. rewrite DepsTextFacts.dict_get_set_eq. split; [done|].
    split; [done|]. split; [done|]. right; right; right.
    split; [intros o' e' [=]|]. split; [done|]. split; [done|]. split; [done|].
    eexists. split; [done|]. destruct (String.eqb (exc_str e) EmptyString) eqn:Ee; [discriminate|].
    apply String.eqb_neq in Ee. done.
Qed.

End ScannerRowFacts.
